(** * The store reconciliation engine of [packages/mongo/collection/collection.js]

    A shallow embedding of the two stores that [_maybeSetUpReplication]
    registers with a DDP connection ([wrappedStoreClient], [wrappedStoreServer]),
    of [_publishCursor], of [_rewriteSelector], of the constructor
    [Mongo.Collection] and of the index methods, together with the
    properties the design document states about them; and of the generator
    of the documentation's version list. *)

From Stdlib Require Import ZArith Ascii String List Bool Lia.
From stdpp Require Import gmap strings list fin_maps.

Local Open Scope string_scope.
Local Open Scope Z_scope.

(** ** JavaScript values *)

(** The values that travel in change messages and selectors.  Numbers are
    integers here; objects keep their properties in insertion order. *)
#[warnings="-register-all"]
Inductive value : Type :=
| VUndefined
| VNull
| VBool (b : bool)
| VNum (n : Z)
| VStr (s : string)
| VArr (items : list value)
| VObj (props : list (string * value)).

(** [typeof value === 'undefined'], [value === void 0]. *)
Definition is_undefined (v : value) : bool :=
  match v with VUndefined => true | _ => false end.

(** JavaScript truthiness: [undefined], [null], [false], [0] and the empty
    string are falsy, arrays and objects are always truthy. *)
Definition truthy (v : value) : bool :=
  match v with
  | VUndefined | VNull => false
  | VBool b => b
  | VNum n => negb (n =? 0)
  | VStr s => negb (String.eqb s EmptyString)
  | VArr _ | VObj _ => true
  end.

(** A plain object used as a field set: a finite map from field names to
    values.  A field may be present and hold [VUndefined]. *)
Abbreviation obj := (gmap string value).

(** [o[key]]: a missing property reads as [undefined]. *)
Definition js_get (o : obj) (key : string) : value :=
  default VUndefined (o !! key).

(** [Object.keys(o)] and the keys a [for ... in] loop visits. *)
Definition Object_keys (o : obj) : list string := (map_to_list o).*1.

(** Values can key a table: a value is coded as a tree of booleans,
    integers and strings, and decoded from it. *)
Fixpoint value_to_tree (v : value) : gen_tree (bool + Z + string) :=
  match v with
  | VUndefined => GenNode 0%nat []
  | VNull => GenNode 1%nat []
  | VBool b => GenLeaf (inl (inl b))
  | VNum n => GenLeaf (inl (inr n))
  | VStr s => GenLeaf (inr s)
  | VArr items => GenNode 2%nat (map value_to_tree items)
  | VObj props =>
      GenNode 3%nat
        (map (fun '(k, x) => GenNode 4%nat [GenLeaf (inr k); value_to_tree x]) props)
  end.

Fixpoint tree_to_value (t : gen_tree (bool + Z + string)) : value :=
  match t with
  | GenLeaf (inl (inl b)) => VBool b
  | GenLeaf (inl (inr n)) => VNum n
  | GenLeaf (inr s) => VStr s
  | GenNode O _ => VUndefined
  | GenNode (S O) _ => VNull
  | GenNode (S (S O)) ts => VArr (map tree_to_value ts)
  | GenNode (S (S (S O))) ts =>
      VObj (map (fun t =>
                   match t with
                   | GenNode _ [GenLeaf (inr k); x] => (k, tree_to_value x)
                   | _ => (EmptyString, VUndefined)
                   end) ts)
  | GenNode _ _ => VUndefined
  end.

Definition tree_to_value_to_tree (v : value) : tree_to_value (value_to_tree v) = v.
Proof.
  revert v. fix IH 1. intros [| |b|n|s|items|props]; simpl; try reflexivity.
  - f_equal. induction items as [|x xs IHxs]; [reflexivity|].
    simpl. by rewrite IH, IHxs.
  - f_equal. induction props as [|[k x] ps IHps]; [reflexivity|].
    simpl. by rewrite IH, IHps.
Qed.

#[global] Instance value_eq_dec : EqDecision value.
Proof.
  intros x y. destruct (decide (value_to_tree x = value_to_tree y)) as [H|H].
  - left. rewrite <- (tree_to_value_to_tree x), <- (tree_to_value_to_tree y).
    by rewrite H.
  - right. by intros ->.
Defined.

#[global] Instance value_countable : Countable value :=
  inj_countable' value_to_tree tree_to_value tree_to_value_to_tree.

(** ** Documents and the document table *)

(** A document: the value of its [_id] property and its other own
    properties.  [doc_fields] never holds the key [_id]. *)
Record document : Type := Build_document {
  doc_id : value;
  doc_fields : obj;
}.

(** The names of the properties every plain object inherits from
    [Object.prototype]; all are functions, except the accessor [__proto__]
    whose getter yields [Object.prototype] itself. *)
Definition Object_prototype : list string :=
  [ "constructor"; "__defineGetter__"; "__defineSetter__"; "hasOwnProperty";
    "__lookupGetter__"; "__lookupSetter__"; "isPrototypeOf";
    "propertyIsEnumerable"; "toString"; "valueOf"; "__proto__";
    "toLocaleString" ].

Definition inherited (key : string) : bool :=
  bool_decide (key ∈ Object_prototype).

(** What [doc[key]] evaluates to: a value the document holds ([undefined]
    when it has no property of that name, own or inherited), or the member
    of [Object.prototype] of that name. *)
Inductive looked_up : Type :=
| Held (v : value)
| Inherited (name : string).

(** [doc[key]]: the identifier for [_id], an own property when there is one,
    an inherited one otherwise. *)
Definition doc_get (d : document) (key : string) : looked_up :=
  if String.eqb key "_id" then Held (doc_id d)
  else
    match doc_fields d !! key with
    | Some v => Held v
    | None => if inherited key then Inherited key else Held VUndefined
    end.

(** The object literal [{ _id: mongoId, ...fields }]: the properties of
    [fields] are copied after [_id], so that a property [_id] of [fields]
    replaces the identifier; spreading [undefined] copies nothing. *)
Definition object_with_id (mongoId : string) (fields : option obj) : document :=
  {| doc_id := default (VStr mongoId) (default ∅ fields !! "_id");
     doc_fields := delete "_id" (default ∅ fields) |}.

(** The modifier built by the [changed] branch: [$set] and [$unset] are
    created on first use, so each is either missing or an object. *)
Record modifier : Type := Build_modifier {
  mod_set : option obj;
  mod_unset : option obj;
}.

(** [var modifier = {}] *)
Definition empty_modifier : modifier :=
  {| mod_set := None; mod_unset := None |}.

(** [Object.keys(modifier).length > 0] *)
Definition modifier_nonempty (m : modifier) : bool :=
  match mod_set m, mod_unset m with
  | None, None => false
  | _, _ => true
  end.

(** The assignment [o[key] = v] on an object made by [{}] and filled by
    such assignments only: it adds or overwrites an own property, except
    for the key [__proto__], where it calls the setter inherited from
    [Object.prototype] and leaves the own properties as they are. *)
Definition js_assign (o : obj) (key : string) (v : value) : obj :=
  if String.eqb key "__proto__" then o else <[key := v]> o.

(** The argument of [remove]: an identifier, or the selector [{}]. *)
Inductive remove_selector : Type :=
| ById (mongoId : string)
| Everything.

(** The second argument of [update]: a modifier, or a whole document. *)
Inductive update_argument : Type :=
| ByModifier (m : modifier)
| ByReplacement (d : document).

(** The calls a store makes on [self._collection]. *)
Inductive table_call : Type :=
| CallPauseObservers
| CallResumeObservers
| CallInsert (d : document)
| CallRemove (sel : remove_selector)
| CallUpdate (mongoId : string) (arg : update_argument).

(** [self._collection]: the documents by identifier, whether observers are
    paused, and the calls made on the table so far, oldest first.  A parsed
    identifier [mongoId] is the key [VStr mongoId]. *)
Record collection : Type := Build_collection {
  _docs : gmap value document;
  paused : bool;
  calls : list table_call;
}.

(** ** A state and exception monad for store code *)

Inductive outcome (A : Type) : Type :=
| Return (a : A) (c : collection)
| Throw (e : string) (c : collection).
Arguments Return {A} a c.
Arguments Throw {A} e c.

Definition M (A : Type) : Type := collection -> outcome A.

#[global] Instance M_ret : MRet M := fun A a c => Return a c.
#[global] Instance M_bind : MBind M := fun A B k m c =>
  match m c with
  | Return a c' => k a c'
  | Throw e c' => Throw e c'
  end.

Definition throw {A} (e : string) : M A := fun c => Throw e c.

Definition throws {A} (o : outcome A) : Prop :=
  match o with Throw _ _ => True | Return _ _ => False end.

Definition final {A} (o : outcome A) : collection :=
  match o with Return _ c => c | Throw _ c => c end.

(** ** The document table, from its contract *)

(** Modelled from the spec: the document table ([LocalCollection], outside
    this file's sources) as section 6 lists it: [get(id)], [insert(doc)],
    [remove(id | {})], [update(id, delta)], [pauseObservers()],
    [resumeObservers()].  Every operation records its call. *)
Definition record_call (k : table_call) (c : collection) : collection :=
  {| _docs := _docs c; paused := paused c; calls := calls c ++ [k] |}.

Definition with_docs (f : gmap value document -> gmap value document)
    (c : collection) : collection :=
  {| _docs := f (_docs c); paused := paused c; calls := calls c |}.

Definition with_paused (b : bool) (c : collection) : collection :=
  {| _docs := _docs c; paused := b; calls := calls c |}.

(** Modelled from the spec: what a delta does to a document.  [$set] assigns
    the listed fields, [$unset] deletes the listed fields, the identifier is
    immutable: an entry for [_id] has no effect. *)
Definition apply_modifier (m : modifier) (d : document) : document :=
  {| doc_id := doc_id d;
     doc_fields := (delete "_id" (default ∅ (mod_set m)) ∪ doc_fields d)
                   ∖ delete "_id" (default ∅ (mod_unset m)) |}.

(** Modelled from the spec: a full-document update keeps the identifier and
    takes every field from the replacement. *)
Definition apply_replacement (r : document) (d : document) : document :=
  {| doc_id := doc_id d; doc_fields := doc_fields r |}.

Definition apply_update (arg : update_argument) : document -> document :=
  match arg with
  | ByModifier m => apply_modifier m
  | ByReplacement r => apply_replacement r
  end.

(** [self._collection._docs.get(mongoId)] *)
Definition docs_get (mongoId : string) : M (option document) :=
  fun c => Return (_docs c !! VStr mongoId) c.

Definition pauseObservers : M unit :=
  fun c => Return tt (with_paused true (record_call CallPauseObservers c)).

Definition resumeObservers : M unit :=
  fun c => Return tt (with_paused false (record_call CallResumeObservers c)).

(** Modelled from the spec: [insert(doc)] stores the document under the
    value of its [_id]. *)
Definition collection_insert (d : document) : M unit :=
  fun c => Return tt (with_docs (insert (doc_id d) d) (record_call (CallInsert d) c)).

Definition collection_remove (sel : remove_selector) : M unit :=
  fun c => Return tt
    (with_docs (match sel with
                | ById mongoId => delete (VStr mongoId)
                | Everything => fun _ => ∅
                end) (record_call (CallRemove sel) c)).

Definition collection_update (mongoId : string) (arg : update_argument) : M unit :=
  fun c => Return tt
    (with_docs (alter (apply_update arg) (VStr mongoId))
               (record_call (CallUpdate mongoId arg) c)).

(** ** Change messages *)

(** A message as the connection hands it to a store:
    [{ msg, id, fields, replace }].  [fields] is [None] when the message
    has no such property (or holds [undefined] or [null] there); [replace]
    carries a whole document, or nothing for a removal. *)
Record message : Type := Build_message {
  msg_msg : string;
  msg_id : string;
  msg_fields : option obj;
  msg_replace : option document;
}.

Definition set_msg (kind : string) (m : message) : message :=
  {| msg_msg := kind; msg_id := msg_id m;
     msg_fields := msg_fields m; msg_replace := msg_replace m |}.

Definition set_fields (fs : option obj) (m : message) : message :=
  {| msg_msg := msg_msg m; msg_id := msg_id m;
     msg_fields := fs; msg_replace := msg_replace m |}.

(** The loop of the soft-merge branch:
    [for (let field in _ref) { if (_ref[field] === void 0) delete msg.fields[field]; }]
    where [_ref] and [msg.fields] are one object, so each value is read from
    the object as the earlier iterations left it.  The loop visits nothing
    when [msg.fields] is missing. *)
Definition delete_if_undefined (o : obj) (field : string) : obj :=
  if is_undefined (js_get o field) then delete field o else o.

Definition delete_undefined_fields (fs : obj) : obj :=
  foldl delete_if_undefined fs (Object_keys fs).

(** The error of [Object.keys(undefined)]. *)
Definition cannot_convert : string :=
  "TypeError: Cannot convert undefined or null to object".

Section Stores.

(** [MongoID.idParse] and [EJSON.equals] come from other packages; the
    first argument of [EJSON.equals] is what [doc[key]] evaluated to. *)
Variable idParse : string -> string.
Variable EJSON_equals : looked_up -> value -> bool.

(** The callback of [keys.forEach] in the [changed] branch. *)
Definition modifier_step (doc : document) (fs : obj)
    (acc : modifier) (key : string) : modifier :=
  let value := js_get fs key in
  if EJSON_equals (doc_get doc key) value then acc
  else if is_undefined value then
    {| mod_set := mod_set acc;
       mod_unset := Some (js_assign (default ∅ (mod_unset acc)) key (VNum 1)) |}
  else
    {| mod_set := Some (js_assign (default ∅ (mod_set acc)) key value);
       mod_unset := mod_unset acc |}.

Definition changed_modifier (doc : document) (fs : obj) : modifier :=
  foldl (modifier_step doc fs) empty_modifier (Object_keys fs).

(** The soft-merge branch, [if (Meteor.isClient) { ... }].  [None] is the
    early [return]; otherwise the message as the branch leaves it. *)
Definition soft_merge (isClient : bool) (doc : option document)
    (m : message) : option message :=
  if isClient then
    if bool_decide (msg_msg m = "added") && bool_decide (is_Some doc) then
      Some (set_msg "changed" m)
    else if bool_decide (msg_msg m = "removed") && bool_decide (doc = None) then
      None
    else if bool_decide (msg_msg m = "changed") && bool_decide (doc = None) then
      Some (set_fields (delete_undefined_fields <$> msg_fields m)
                       (set_msg "added" m))
    else Some m
  else Some m.

(** [wrappedStoreClient.beginUpdate(batchSize, reset)] *)
Definition wrappedStoreClient_beginUpdate (batchSize : Z) (reset : bool) : M unit :=
  (if (1 <? batchSize) || reset then pauseObservers else mret tt);;
  (if reset then collection_remove Everything else mret tt).

(** [wrappedStoreClient.update(msg)] *)
Definition wrappedStoreClient_update (isClient : bool) (m : message) : M unit :=
  let mongoId := idParse (msg_id m) in
  doc ← docs_get mongoId;
  match soft_merge isClient doc m with
  | None => mret tt
  | Some m =>
    if bool_decide (msg_msg m = "replace") then
      match msg_replace m with
      | None =>
          if bool_decide (is_Some doc)
          then collection_remove (ById mongoId) else mret tt
      | Some replace =>
          match doc with
          | None => collection_insert replace
          | Some _ => collection_update mongoId (ByReplacement replace)
          end
      end
    else if bool_decide (msg_msg m = "added") then
      match doc with
      | Some _ =>
          throw "Expected not to find a document already present for an add"
      | None => collection_insert (object_with_id mongoId (msg_fields m))
      end
    else if bool_decide (msg_msg m = "removed") then
      match doc with
      | None => throw "Expected to find a document already present for removed"
      | Some _ => collection_remove (ById mongoId)
      end
    else if bool_decide (msg_msg m = "changed") then
      match doc with
      | None => throw "Expected to find a document to change"
      | Some doc =>
          match msg_fields m with
          | None => throw cannot_convert
          | Some fields =>
              let keys := Object_keys fields in
              if (0 <? Z.of_nat (length keys)) then
                let modifier := foldl (modifier_step doc fields)
                                      empty_modifier keys in
                if modifier_nonempty modifier
                then collection_update mongoId (ByModifier modifier)
                else mret tt
              else mret tt
          end
      end
    else throw "I don't know how to deal with this message"
  end.

(** [wrappedStoreClient.endUpdate()] *)
Definition wrappedStoreClient_endUpdate : M unit := resumeObservers.

(** [wrappedStoreServer.beginUpdate(batchSize, reset)] *)
Definition wrappedStoreServer_beginUpdate (batchSize : Z) (reset : bool) : M unit :=
  (if (1 <? batchSize) || reset then pauseObservers else mret tt);;
  (if reset then collection_remove Everything else mret tt).

(** [wrappedStoreServer.update(msg)]; each [await] is a sequencing point
    and a rejected promise is a [Throw]. *)
Definition wrappedStoreServer_update (m : message) : M unit :=
  let mongoId := idParse (msg_id m) in
  doc ← docs_get mongoId;
  if bool_decide (msg_msg m = "replace") then
    match msg_replace m with
    | None =>
        if bool_decide (is_Some doc)
        then collection_remove (ById mongoId) else mret tt
    | Some replace =>
        match doc with
        | None => collection_insert replace
        | Some _ => collection_update mongoId (ByReplacement replace)
        end
    end
  else if bool_decide (msg_msg m = "added") then
    match doc with
    | Some _ =>
        throw "Expected not to find a document already present for an add"
    | None => collection_insert (object_with_id mongoId (msg_fields m))
    end
  else if bool_decide (msg_msg m = "removed") then
    match doc with
    | None => throw "Expected to find a document already present for removed"
    | Some _ => collection_remove (ById mongoId)
    end
  else if bool_decide (msg_msg m = "changed") then
    match doc with
    | None => throw "Expected to find a document to change"
    | Some doc =>
        match msg_fields m with
        | None => throw cannot_convert
        | Some fields =>
            let keys := Object_keys fields in
            if (0 <? Z.of_nat (length keys)) then
              let modifier := foldl (modifier_step doc fields)
                                    empty_modifier keys in
              if modifier_nonempty modifier
              then collection_update mongoId (ByModifier modifier)
              else mret tt
            else mret tt
        end
    end
  else throw "I don't know how to deal with this message".

(** [wrappedStoreServer.endUpdate()] *)
Definition wrappedStoreServer_endUpdate : M unit := resumeObservers.

End Stores.

(** ** Entries of a modifier *)

(** [modifier.$set[key]] and [modifier.$unset[key]] as own properties,
    missing when the operator itself is. *)
Definition set_entry (m : modifier) (key : string) : option value :=
  o ← mod_set m; o !! key.

Definition unset_entry (m : modifier) (key : string) : option value :=
  o ← mod_unset m; o !! key.

(** The incoming value of [key] differs from the current one:
    [EJSON.equals(doc[key], msg.fields[key])] is false. *)
Definition differs (EJSON_equals : looked_up -> value -> bool) (doc : document)
    (fs : obj) (key : string) : bool :=
  negb (EJSON_equals (doc_get doc key) (js_get fs key)).

(** The field set of a message as an object, empty when it is missing. *)
Definition fields_of (m : message) : obj := default ∅ (msg_fields m).

(** ** What a message leaves behind *)

(** What a [replace] message leaves behind, by replacement and current
    document. *)
Definition after_replace (mongoId : string) (replace : option document)
    (c : collection) : collection :=
  match replace, _docs c !! VStr mongoId with
  | None, Some _ =>
      with_docs (delete (VStr mongoId)) (record_call (CallRemove (ById mongoId)) c)
  | None, None => c
  | Some r, None =>
      with_docs (insert (doc_id r) r) (record_call (CallInsert r) c)
  | Some r, Some d =>
      with_docs (insert (VStr mongoId) (Build_document (doc_id d) (doc_fields r)))
                (record_call (CallUpdate mongoId (ByReplacement r)) c)
  end.

(** What a [changed] message leaves behind when the document exists: an
    update with the computed modifier, or nothing when the modifier is
    empty. *)
Definition after_changed (mongoId : string) (modifier : modifier)
    (c : collection) : collection :=
  if modifier_nonempty modifier
  then with_docs (alter (apply_modifier modifier) (VStr mongoId))
                 (record_call (CallUpdate mongoId (ByModifier modifier)) c)
  else c.

(** ** The selector guard *)

(** How a JavaScript call ends: with a value, or with an exception. *)
Inductive completion (A : Type) : Type :=
| Normal (a : A)
| Thrown (e : string).
Arguments Normal {A} a.
Arguments Thrown {A} e.

(** [Array.isArray(v)] *)
Definition Array_isArray (v : value) : bool :=
  match v with VArr _ => true | _ => false end.

(** The own property [key] of an object literal, if it has one. *)
Fixpoint own_property (props : list (string * value)) (key : string) : option value :=
  match props with
  | [] => None
  | (k, v) :: rest => if String.eqb k key then Some v else own_property rest key
  end.

(** [key in v] for the key [_id]: a property test on objects (an array has
    no such property), a [TypeError] on anything that is not an object. *)
Definition js_in (key : string) (v : value) : completion bool :=
  match v with
  | VObj props => Normal (bool_decide (is_Some (own_property props key)))
  | VArr _ => Normal false
  | _ => Thrown "TypeError: Cannot use 'in' operator"
  end.

(** [v[key]] for the key [_id] on a truthy value. *)
Definition js_member (v : value) (key : string) : value :=
  match v with
  | VObj props => default VUndefined (own_property props key)
  | _ => VUndefined
  end.

(** Modelled from the spec: [LocalCollection._selectorIsId], the scalar
    shorthand for an identifier: a string or a number stands for the
    document with that [_id]. *)
Definition _selectorIsId (selector : value) : bool :=
  match selector with
  | VStr _ | VNum _ => true
  | _ => false
  end.

(** [Mongo.Collection._rewriteSelector(selector, { fallbackId })].
    [fallbackId] is [VUndefined] when the caller gives none, and
    [Random_id] is what [Random.id()] returns if it is called. *)
Definition _rewriteSelector (selector fallbackId : value) (Random_id : string)
    : completion value :=
  let selector :=
    if _selectorIsId selector then VObj [("_id", selector)] else selector in
  if Array_isArray selector then Thrown "Mongo selector can't be an array."
  else
    let cant_match :=
      VObj [("_id", if truthy fallbackId then fallbackId else VStr Random_id)] in
    if negb (truthy selector) then Normal cant_match
    else
      match js_in "_id" selector with
      | Thrown e => Thrown e
      | Normal has_id =>
          if has_id && negb (truthy (js_member selector "_id"))
          then Normal cant_match
          else Normal selector
      end.

(** [selector] after the shorthand expansion. *)
Definition expand_shorthand (selector : value) : value :=
  if _selectorIsId selector then VObj [("_id", selector)] else selector.

(** A selector the guard replaces: falsy, or an object (after expansion)
    whose [_id] is present and falsy. *)
Definition dangerous (selector : value) : bool :=
  match expand_shorthand selector with
  | VObj props =>
      bool_decide (is_Some (own_property props "_id"))
      && negb (truthy (default VUndefined (own_property props "_id")))
  | v => negb (truthy v)
  end.

Definition is_object (v : value) : bool :=
  match v with VObj _ => true | _ => false end.

(** ** The snapshot publisher *)

(** What a live query reports. *)
Inductive change_event : Type :=
| EvAdded (id : string) (fields : obj)
| EvChanged (id : string) (fields : obj)
| EvRemoved (id : string).

(** The calls made on an observe handle. *)
Inductive handle_call : Type :=
| HandleStop.

(** The calls a publisher can make on the subscription [sub]; the argument
    of [onStop] is the callback, given by the handle calls it makes. *)
Inductive sub_call : Type :=
| SubAdded (collection id : string) (fields : obj)
| SubChanged (collection id : string) (fields : obj)
| SubRemoved (collection id : string)
| SubReady
| SubStop
| SubError (e : string)
| SubOnStop (callback : list handle_call).

(** The first argument of [cursor.observeChanges]: each callback is the
    list of calls it makes on the subscription. *)
Record observe_callbacks : Type := Build_observe_callbacks {
  cb_added : string -> obj -> list sub_call;
  cb_changed : string -> obj -> list sub_call;
  cb_removed : string -> list sub_call;
}.

(** The second argument of [cursor.observeChanges]. *)
Record observe_options : Type := Build_observe_options {
  nonMutatingCallbacks : bool;
}.

(** What [_publishCursor] does: the one [observeChanges] call it makes, and
    the calls it makes on the subscription itself afterwards.  Its result
    is the handle of that [observeChanges] call. *)
Record publication : Type := Build_publication {
  pub_callbacks : observe_callbacks;
  pub_options : observe_options;
  pub_sub_calls : list sub_call;
}.

(** [Mongo.Collection._publishCursor(cursor, sub, collection)] *)
Definition _publishCursor (collection : string) : publication :=
  {| pub_callbacks :=
       {| cb_added := fun id fields => [SubAdded collection id fields];
          cb_changed := fun id fields => [SubChanged collection id fields];
          cb_removed := fun id => [SubRemoved collection id] |};
     pub_options := {| nonMutatingCallbacks := true |};
     pub_sub_calls := [SubOnStop [HandleStop]] |}.

(** Modelled from the spec: the live query behind [cursor.observeChanges]
    hands each event to the matching callback for as long as its handle is
    not stopped. *)
Definition dispatch (cb : observe_callbacks) (ev : change_event) : list sub_call :=
  match ev with
  | EvAdded id fields => cb_added cb id fields
  | EvChanged id fields => cb_changed cb id fields
  | EvRemoved id => cb_removed cb id
  end.

(** Modelled from the spec: everything the subscription receives when the
    live query reports [initial] while [observeChanges] runs and [later]
    once [_publishCursor] has returned. *)
Definition subscription_trace (collection : string)
    (initial later : list change_event) : list sub_call :=
  let p := _publishCursor collection in
  (flat_map (dispatch (pub_callbacks p)) initial
   ++ pub_sub_calls p
   ++ flat_map (dispatch (pub_callbacks p)) later)%list.

(** The message an event is forwarded as. *)
Definition forwarded (collection : string) (ev : change_event) : sub_call :=
  match ev with
  | EvAdded id fields => SubAdded collection id fields
  | EvChanged id fields => SubChanged collection id fields
  | EvRemoved id => SubRemoved collection id
  end.

(** ** Registering the store *)

(** What [registerStoreClient] / [registerStoreServer] does when called: it
    hands back a plain value or a promise that settles, or it throws. *)
Inductive promise_state : Type :=
| Resolved (ok : value)
| Rejected (e : string).

Inductive register_result : Type :=
| PlainResult (v : value)
| PromiseResult (p : promise_state)
| RegisterThrows (e : string).

(** [self._connection]: the two registration methods, if it has them. *)
Record connection : Type := Build_connection {
  registerStoreClient : option (string -> register_result);
  registerStoreServer : option (string -> register_result);
}.

(** The calls made on [console]. *)
Inductive console_call : Type :=
| ConsoleWarn (message : string)
| ConsoleLog (message : string).

Definition double_quote : string := String (ascii_of_nat 34) EmptyString.

(** [`There is already a collection named "${name}"`] *)
Definition already_a_collection (name : string) : string :=
  "There is already a collection named " ++ double_quote ++ name ++ double_quote.

(** [console.warn ? console.warn(message) : console.log(message)] *)
Definition logWarn (console_has_warn : bool) (message : string) : list console_call :=
  if console_has_warn then [ConsoleWarn message] else [ConsoleLog message].

(** The end of [_maybeSetUpReplication(name)], from the early return on a
    connection without the registration methods to the final [return]:
    the console calls made and how the [async] function settles.  An
    exception thrown by the registration call rejects the promise of the
    [async] function. *)
Definition _maybeSetUpReplication (isClient console_has_warn : bool)
    (_connection : option connection) (name : string)
    : list console_call * completion unit :=
  match _connection with
  | None => ([], Normal tt)
  | Some conn =>
      match registerStoreClient conn, registerStoreServer conn with
      | Some registerClient, Some registerServer =>
          let registerStoreResult :=
            if isClient then registerClient name else registerServer name in
          let message := already_a_collection name in
          match registerStoreResult with
          | RegisterThrows e => ([], Thrown e)
          | PlainResult v =>
              if negb (truthy v) then (logWarn console_has_warn message, Normal tt)
              else ([], Normal tt)
          | PromiseResult (Resolved ok) =>
              if negb (truthy ok) then (logWarn console_has_warn message, Normal tt)
              else ([], Normal tt)
          | PromiseResult (Rejected e) => ([], Thrown e)
          end
      | _, _ => ([], Normal tt)
      end
  end.

(** The registration the setup performs. *)
Definition registration (isClient : bool) (conn : connection) (name : string)
    : option register_result :=
  match registerStoreClient conn, registerStoreServer conn with
  | Some registerClient, Some registerServer =>
      Some (if isClient then registerClient name else registerServer name)
  | _, _ => None
  end.

(** ** Example data *)

(** A structural equality on values, to run the stores on examples. *)
Fixpoint value_eqb (a b : value) : bool :=
  match a, b with
  | VUndefined, VUndefined => true
  | VNull, VNull => true
  | VBool x, VBool y => Bool.eqb x y
  | VNum x, VNum y => (x =? y)%Z
  | VStr x, VStr y => String.eqb x y
  | VArr xs, VArr ys =>
      (fix items (xs ys : list value) : bool :=
         match xs, ys with
         | [], [] => true
         | x :: xs', y :: ys' => value_eqb x y && items xs' ys'
         | _, _ => false
         end) xs ys
  | VObj ps, VObj qs =>
      (fix props (ps qs : list (string * value)) : bool :=
         match ps, qs with
         | [], [] => true
         | (k, x) :: ps', (l, y) :: qs' =>
             String.eqb k l && value_eqb x y && props ps' qs'
         | _, _ => false
         end) ps qs
  | _, _ => false
  end.

(** An [EJSON.equals] for the examples: structural on a value the document
    holds; an inherited function equals no value of a message, and
    [Object.prototype] itself (what [doc.__proto__] reads), having no
    enumerable property, compares as the empty object. *)
Definition structural_equals (current : looked_up) (v : value) : bool :=
  match current with
  | Held w => value_eqb w v
  | Inherited name => String.eqb name "__proto__" && value_eqb (VObj []) v
  end.

(** Identifiers that parse to themselves. *)
Definition plain_id (s : string) : string := s.

Definition empty_collection : collection :=
  {| _docs := ∅; paused := false; calls := [] |}.

(** A table holding the document [{_id: "1", a: 1, b: 2}]. *)
Definition one_document : collection :=
  {| _docs := {[ VStr "1" :=
                   Build_document (VStr "1") {[ "a" := VNum 1; "b" := VNum 2 ]} ]};
     paused := false; calls := [] |}.

(** A message with a field set, and one without. *)
Definition message_of (kind id : string) (fs : obj) : message :=
  {| msg_msg := kind; msg_id := id; msg_fields := Some fs; msg_replace := None |}.

Definition bare_message (kind id : string) : message :=
  {| msg_msg := kind; msg_id := id; msg_fields := None; msg_replace := None |}.

(** A connection whose store names are all taken. *)
Definition taken_connection : connection :=
  {| registerStoreClient := Some (fun _ => PlainResult (VBool false));
     registerStoreServer := Some (fun _ => PromiseResult (Resolved (VBool false))) |}.

(** ** Call discipline of a store *)

(** An outcome that made at most one call on the table, neither
    [pauseObservers] nor [resumeObservers], kept the paused flag, and, when
    it is an exception, left the table exactly as it was. *)
Definition quiet_step (c : collection) (o : outcome unit) : Prop :=
  match o with
  | Throw _ c' => c' = c
  | Return _ c' =>
      paused c' = paused c
      ∧ (∃ ks : list table_call,
           calls c' = app (calls c) ks
           ∧ (length ks ≤ 1)%nat
           ∧ (CallPauseObservers ∉ ks)
           ∧ (CallResumeObservers ∉ ks))
  end.

(** ** Well-formed modifiers *)

(** No operator of the modifier is an empty object. *)
Definition operators_nonempty (m : modifier) : Prop :=
  mod_set m ≠ Some ∅ ∧ mod_unset m ≠ Some ∅.

(** ** Batches of messages *)

(** The updates of a batch, applied in order; the first error ends the
    batch. *)
Definition update_each (update : message -> M unit) (msgs : list message) : M unit :=
  foldr (fun m rest => update m;; rest) (mret tt) msgs.

(** A batch as a connection drives the server store: [beginUpdate], the
    updates in order, [endUpdate]. *)
Definition server_batch (idParse : string -> string)
    (EJSON_equals : looked_up -> value -> bool)
    (reset : bool) (msgs : list message) : M unit :=
  wrappedStoreServer_beginUpdate (Z.of_nat (length msgs)) reset;;
  update_each (wrappedStoreServer_update idParse EJSON_equals) msgs;;
  wrappedStoreServer_endUpdate.

(** The document an [added] message inserts, with the key it goes under:
    its own [_id]. *)
Definition added_entry (idParse : string -> string) (m : message)
    : value * document :=
  let d := object_with_id (idParse (msg_id m)) (msg_fields m) in
  (doc_id d, d).

(** The field set of a message has no property [_id]. *)
Definition keeps_id (m : message) : Prop :=
  fields_of m !! "_id" = None.

(** The fields of a field set are ordinary: none is [_id] or the name of a
    member of [Object.prototype]. *)
Definition ordinary_fields (fs : obj) : Prop :=
  ∀ key, is_Some (fs !! key) → key ≠ "_id" ∧ inherited key = false.

(** Every document of the table is stored under its own identifier. *)
Definition well_keyed (docs : gmap value document) : Prop :=
  ∀ key d, docs !! key = Some d → doc_id d = key.

(** ** The constructor [Mongo.Collection] *)

(** A property that holds an object, holds [null], or is [undefined]. *)
Inductive js_ref (A : Type) : Type :=
| RefUndefined
| RefNull
| Ref (a : A).
Arguments RefUndefined {A}.
Arguments RefNull {A}.
Arguments Ref {A} a.

Definition ref_truthy {A} (r : js_ref A) : bool :=
  match r with Ref _ => true | _ => false end.

Definition ref_is_null {A} (r : js_ref A) : bool :=
  match r with RefNull => true | _ => false end.

(** A connection object: which object it is (for [===]), its store
    registration methods, and whether it has a [publish] method. *)
Record connection_object : Type := Build_connection_object {
  conn_ident : nat;
  conn_store : connection;
  conn_publish : bool;
}.

(** [a === b] on connection properties. *)
Definition same_connection (a b : js_ref connection_object) : bool :=
  match a, b with
  | RefUndefined, RefUndefined => true
  | RefNull, RefNull => true
  | Ref x, Ref y => Nat.eqb (conn_ident x) (conn_ident y)
  | _, _ => false
  end.

(** The options the constructor reads.  A missing option is [undefined]
    ([None] for [_driver], [false] for [_preventAutopublish]); [transform]
    and [resolverType] are stored as given and are not represented. *)
Record constructor_options : Type := Build_constructor_options {
  opt_connection : js_ref connection_object;
  opt_manager : js_ref connection_object;
  opt_idGeneration : value;
  opt__driver : option nat;
  opt__preventAutopublish : bool;
  opt_defineMutationMethods : value;
  opt__suppressSameNameError : value;
}.

(** The second argument of the constructor: nothing, an options object,
    or, in the original signature, the connection itself (an object with a
    [methods] method). *)
Inductive constructor_argument : Type :=
| ArgUndefined
| ArgOptions (o : constructor_options)
| ArgConnection (conn : connection_object).

(** The collection drivers. *)
Inductive driver : Type :=
| DefaultRemoteCollectionDriver
| LocalCollectionDriver
| SuppliedDriver (d : nat).

(** What the constructor finds around it: [Meteor.isClient],
    [Meteor.connection], [Meteor.server], whether
    [MongoInternals.defaultRemoteCollectionDriver] exists and how a call
    of it ends, how [driver.open(name, connection)] ends for each driver (a
    supplied [_driver] without an [open] method ends in a [TypeError]),
    whether [Package.autopublish] is loaded, whether [console.warn]
    exists, and how [_defineMutationMethods] ends for a collection name and
    a [useExisting] flag. *)
Record environment : Type := Build_environment {
  Meteor_isClient : bool;
  Meteor_connection : js_ref connection_object;
  Meteor_server : js_ref connection_object;
  MongoInternals_defaultRemoteCollectionDriver : bool;
  defaultRemoteCollectionDriver_call : completion unit;
  driver_open : driver -> option string -> js_ref connection_object
                -> completion unit;
  Package_autopublish : bool;
  console_warn : bool;
  _defineMutationMethods : option string -> bool -> completion unit;
}.

(** A constructed collection: [_name], [_connection], [_driver], and what
    [_makeNewID] makes ([ObjectID]s or strings) from which random stream
    ([None] is [Random.insecure]). *)
Record collection_instance : Type := Build_collection_instance {
  _name : option string;
  _connection : js_ref connection_object;
  _driver : driver;
  _makeNewID_ObjectID : bool;
  _makeNewID_stream : option string;
}.

(** What a construction did besides building the instance: the store
    registration it started, and whether it published the collection
    (autopublish). *)
Record construction : Type := Build_construction {
  constructed : collection_instance;
  replication : list console_call * completion unit;
  autopublished : bool;
}.

(** [Mongo._collections] *)
Abbreviation registry := (gmap (option string) collection_instance).

(** The options when the caller gives none. *)
Definition default_options : constructor_options :=
  {| opt_connection := RefUndefined; opt_manager := RefUndefined;
     opt_idGeneration := VStr "STRING"; opt__driver := None;
     opt__preventAutopublish := false;
     opt_defineMutationMethods := VUndefined;
     opt__suppressSameNameError := VUndefined |}.

(** [if (options && options.methods) options = { connection: options }],
    the [manager] fallback, and the defaults. *)
Definition normalize_options (options : constructor_argument) : constructor_options :=
  let options :=
    match options with
    | ArgUndefined => default_options
    | ArgOptions o => o
    | ArgConnection conn =>
        {| opt_connection := Ref conn; opt_manager := RefUndefined;
           opt_idGeneration := VStr "STRING"; opt__driver := None;
           opt__preventAutopublish := false;
           opt_defineMutationMethods := VUndefined;
           opt__suppressSameNameError := VUndefined |}
    end in
  if ref_truthy (opt_manager options) && negb (ref_truthy (opt_connection options))
  then {| opt_connection := opt_manager options;
          opt_manager := opt_manager options;
          opt_idGeneration := opt_idGeneration options;
          opt__driver := opt__driver options;
          opt__preventAutopublish := opt__preventAutopublish options;
          opt_defineMutationMethods := opt_defineMutationMethods options;
          opt__suppressSameNameError := opt__suppressSameNameError options |}
  else options.

(** [v === null], [v === false], [v === true] *)
Definition is_null (v : value) : bool :=
  match v with VNull => true | _ => false end.

Definition is_false (v : value) : bool :=
  match v with VBool false => true | _ => false end.

Definition is_true (v : value) : bool :=
  match v with VBool true => true | _ => false end.

(** The name after the first two tests of the constructor: [null] or a
    string, or nothing when the constructor throws. *)
Definition checked_name (name : value) : option (option string) :=
  match name with
  | VNull => Some None
  | VStr s => Some (Some s)
  | _ => None
  end.

(** [!!name] for a name that is [null] or a string. *)
Definition name_truthy (name : option string) : bool :=
  match name with
  | Some s => negb (String.eqb s EmptyString)
  | None => false
  end.

(** [`${name}`] *)
Definition name_text (name : option string) : string :=
  default "null" name.

(** [`A method named '/${name}/insertAsync' is already defined`] *)
Definition method_already_defined (name : option string) : string :=
  "A method named '/" ++ name_text name ++ "/insertAsync' is already defined".

(** The store registration methods of [this._connection], when it is an
    object. *)
Definition store_of (conn : js_ref connection_object) : option connection :=
  match conn with Ref c => Some (conn_store c) | _ => None end.

(** The choice of [this._connection]: nameless collections never have a
    connection. *)
Definition choose_connection (env : environment) (name : option string)
    (options : constructor_options) : js_ref connection_object :=
  if negb (name_truthy name) || ref_is_null (opt_connection options)
  then RefNull
  else if ref_truthy (opt_connection options) then opt_connection options
  else if Meteor_isClient env then Meteor_connection env
  else Meteor_server env.

(** The choice of [options._driver] when the caller gives none; the call
    [MongoInternals.defaultRemoteCollectionDriver()] may throw. *)
Definition choose_driver (env : environment) (name : option string)
    (options : constructor_options) (connection : js_ref connection_object)
    : completion driver :=
  match opt__driver options with
  | Some d => Normal (SuppliedDriver d)
  | None =>
      if name_truthy name
         && same_connection connection (Meteor_server env)
         && MongoInternals_defaultRemoteCollectionDriver env
      then
        match defaultRemoteCollectionDriver_call env with
        | Normal _ => Normal DefaultRemoteCollectionDriver
        | Thrown e => Thrown e
        end
      else Normal LocalCollectionDriver
  end.

(** The [try]/[catch] around [this._defineMutationMethods]. *)
Definition define_mutation_methods (env : environment) (name : option string)
    (options : constructor_options) : completion unit :=
  if is_false (opt_defineMutationMethods options) then Normal tt
  else
    match _defineMutationMethods env name
            (is_true (opt__suppressSameNameError options)) with
    | Normal _ => Normal tt
    | Thrown e =>
        if String.eqb e (method_already_defined name)
        then Thrown (already_a_collection (name_text name))
        else Thrown e
    end.

(** Whether the constructor publishes the collection (autopublish). *)
Definition autopublishes (env : environment) (options : constructor_options)
    (connection : js_ref connection_object) : bool :=
  Package_autopublish env
  && negb (opt__preventAutopublish options)
  && match connection with
     | Ref c => conn_publish c
     | _ => false
     end.

(** [new Mongo.Collection(name, options)]: whether [Meteor._debug] warned
    about an anonymous collection, and either the error thrown or the
    construction with [Mongo._collections] as it leaves it. *)
Definition Collection (env : environment) (collections : registry)
    (name : value) (options : constructor_argument)
    : bool * completion (construction * registry) :=
  let warned := negb (truthy name) && negb (is_null name) in
  let name := if warned then VNull else name in
  match checked_name name with
  | None =>
      (warned,
       Thrown "First argument to new Mongo.Collection must be a string or null")
  | Some name =>
      let options := normalize_options options in
      let makes_ObjectID :=
        match opt_idGeneration options with
        | VStr s => String.eqb s "MONGO"
        | _ => false
        end in
      let stream :=
        if name_truthy name then Some ("/collection/" ++ name_text name)
        else None in
      let connection := choose_connection env name options in
      match choose_driver env name options connection with
      | Thrown e => (warned, Thrown e)
      | Normal driver =>
          match driver_open env driver name connection with
          | Thrown e => (warned, Thrown e)
          | Normal _ =>
              let settingUpReplication :=
                _maybeSetUpReplication (Meteor_isClient env) (console_warn env)
                  (store_of connection) (name_text name) in
              match define_mutation_methods env name options with
              | Thrown e => (warned, Thrown e)
              | Normal _ =>
                  let this :=
                    {| _name := name; _connection := connection;
                       _driver := driver;
                       _makeNewID_ObjectID := makes_ObjectID;
                       _makeNewID_stream := stream |} in
                  (warned,
                   Normal ({| constructed := this;
                              replication := settingUpReplication;
                              autopublished :=
                                autopublishes env options connection |},
                           <[name := this]> collections))
              end
          end
      end
  end.

(** [Mongo.getCollection(name)] *)
Definition getCollection (collections : registry) (name : option string)
    : option collection_instance :=
  collections !! name.

(** [_isRemoteCollection()], as a truth value. *)
Definition _isRemoteCollection (env : environment) (this : collection_instance) : bool :=
  ref_truthy (_connection this)
  && negb (same_connection (_connection this) (Meteor_server env)).

(** ** Index management *)

(** [s.includes(sub)] *)
Fixpoint includes (sub s : string) : bool :=
  String.prefix sub s
  || match s with
     | EmptyString => false
     | String _ rest => includes sub rest
     end.

(** What the index methods do that can be observed: calls on the
    underlying collection, log lines, and [console.error]. *)
Inductive index_event : Type :=
| BackendCreateIndex
| BackendEnsureIndex
| BackendDropIndex
| LogInfo (message : string)
| LogDebug (message : string)
| ConsoleError (message : string).

(** [self._collection] for the index methods: each method may be missing;
    a method that is there ends normally or throws, and moves the
    underlying collection to a new state. *)
Record index_backend (B : Type) : Type := Build_index_backend {
  backend_createIndexAsync : option (B -> completion unit * B);
  backend_ensureIndexAsync : option (B -> completion unit * B);
  backend_dropIndexAsync : option (B -> completion unit * B);
}.
Arguments backend_createIndexAsync {B} _.
Arguments backend_ensureIndexAsync {B} _.
Arguments backend_dropIndexAsync {B} _.

(** Calling a method that may be missing. *)
Definition call_backend {B} (method : option (B -> completion unit * B))
    (event : index_event) (not_a_function : string) (b : B)
    : completion unit * B * list index_event :=
  match method with
  | Some f => (f b, [event])
  | None => (Thrown not_a_function, b, [])
  end.

Definition option_mismatch : string :=
  "An equivalent index already exists with the same name but different options.".

(** [ensureIndexAsync(index, options)]; [deprecation] is the text of the
    [Log.debug] line. *)
Definition ensureIndexAsync {B} (backend : index_backend B) (deprecation : string)
    (b : B) : completion unit * B * list index_event :=
  match backend_ensureIndexAsync backend, backend_createIndexAsync backend with
  | Some ensure, Some _ =>
      match backend_createIndexAsync backend with
      | Some create => (create b, [BackendCreateIndex])
      | None => (ensure b, [LogDebug deprecation; BackendEnsureIndex])
      end
  | _, _ => (Thrown "Can only call createIndexAsync on server collections", b, [])
  end.

(** [createIndexAsync(index, options)]; [reCreateIndexOnOptionMismatch] is
    the truth value of the setting of that name, [index] and [name] the
    texts of [${index}] and [${self._name}]. *)
Definition createIndexAsync {B} (backend : index_backend B)
    (reCreateIndexOnOptionMismatch : bool) (index name : string)
    (b : B) : completion unit * B * list index_event :=
  match backend_createIndexAsync backend with
  | None => (Thrown "Can only call createIndexAsync on server collections", b, [])
  | Some create =>
      match create b with
      | (Normal _, b1) => (Normal tt, b1, [BackendCreateIndex])
      | (Thrown e, b1) =>
          if includes option_mismatch e && reCreateIndexOnOptionMismatch then
            let info := LogInfo ("Re-creating index " ++ index ++ " for " ++ name
                                 ++ " due to options mismatch.") in
            match call_backend (backend_dropIndexAsync backend) BackendDropIndex
                    "TypeError: self._collection.dropIndexAsync is not a function"
                    b1 with
            | (Normal _, b2, dropped) =>
                let '(r, b3) := create b2 in
                (r, b3, app [BackendCreateIndex; info] (app dropped [BackendCreateIndex]))
            | (Thrown e', b2, dropped) =>
                (Thrown e', b2, app [BackendCreateIndex; info] dropped)
            end
          else
            (Thrown ("An error occurred when creating an index for collection "
                     ++ double_quote ++ name ++ ": " ++ e),
             b1, [BackendCreateIndex; ConsoleError e])
      end
  end.

(** ** The generator of the documentation's version list *)

(** [s.replace(pattern, replacement)] for a string pattern: the first
    occurrence is replaced. *)
Fixpoint String_replace (pattern replacement s : string) : string :=
  if String.prefix pattern s
  then replacement ++ String.substring (String.length pattern)
                        (String.length s - String.length pattern) s
  else match s with
       | EmptyString => EmptyString
       | String c rest => String c (String_replace pattern replacement rest)
       end.

(** [s.endsWith(suffix)] *)
Definition String_endsWith (suffix s : string) : bool :=
  (String.length suffix <=? String.length s)%nat
  && String.eqb (String.substring (String.length s - String.length suffix)
                   (String.length suffix) s) suffix.

(** [s.slice(0, -n)] *)
Definition String_slice_to_last (n : nat) (s : string) : string :=
  String.substring 0 (String.length s - n) s.

(** An entry of the generated list; [isCurrent] is [false] when the
    property is missing. *)
Record docs_version : Type := Build_docs_version {
  version : string;
  url : string;
  isCurrent : bool;
}.

(** [getDocsUrl(version)] *)
Definition getDocsUrl (version : string) : string :=
  "https://release-" ++ version ++ ".docs.meteor.com/".

(** The last [map] of the pipeline: the entry whose index is
    [arr.length - 1] gets [isCurrent = true]. *)
Definition mark_last (arr : list docs_version) : list docs_version :=
  imap (fun index v =>
          if Nat.eqb index (length arr - 1)
          then {| version := version v; url := url v; isCurrent := true |}
          else v) arr.

(** The entries computed from the file names of the changelog directory. *)
Definition versions_of (files : list string) : list docs_version :=
  mark_last
    (map (fun version =>
            {| version := "v" ++ version; url := getDocsUrl version;
               isCurrent := false |})
       (map (fun v => if String_endsWith ".0" v
                      then String_slice_to_last 2 v else v)
          (List.filter (fun v => negb (String.eqb v "3.0.1"))
             (map (fun f => String_replace ".md" EmptyString f)
                (List.filter
                   (fun f => negb (String.eqb f "99999-generated-code-warning.md"))
                   files))))).

(** [generateMeteorVersions()], given the names [fs.readdir] returns: the
    lines logged, and either the [TypeError] of destructuring [undefined]
    or the object written, [{ versions, currentVersion }]. *)
Definition generateMeteorVersions (files : list string)
    : list console_call * completion (list docs_version * string) :=
  let versions := versions_of files in
  match List.find isCurrent versions with
  | None =>
      ([ConsoleLog "Reading meteor versions..."],
       Thrown "TypeError: Cannot destructure property 'version' of undefined")
  | Some current =>
      ([ConsoleLog "Reading meteor versions...";
        ConsoleLog "Writing meteor versions...";
        ConsoleLog "Meteor versions generated!"],
       Normal (versions, version current))
  end.

(** A file name that survives both filters of the pipeline. *)
Definition kept_file (f : string) : bool :=
  negb (String.eqb f "99999-generated-code-warning.md")
  && negb (String.eqb (String_replace ".md" EmptyString f) "3.0.1").

(** ** More example data *)

(** A table holding [{_id: "1", a: 1, b: 2}] and [{_id: "2", a: 7}]. *)
Definition two_documents : collection :=
  {| _docs := {[ VStr "1" :=
                   Build_document (VStr "1") {[ "a" := VNum 1; "b" := VNum 2 ]};
                 VStr "2" := Build_document (VStr "2") {[ "a" := VNum 7 ]} ]};
     paused := false; calls := [] |}.

(** A connection with a free store name and a [publish] method. *)
Definition remote_connection : connection_object :=
  {| conn_ident := 1;
     conn_store :=
       {| registerStoreClient := Some (fun _ => PlainResult (VBool true));
          registerStoreServer := Some (fun _ => PlainResult (VBool true)) |};
     conn_publish := true |}.

(** [Meteor.server] of the example server. *)
Definition server_connection : connection_object :=
  {| conn_ident := 0;
     conn_store :=
       {| registerStoreClient := Some (fun _ => PlainResult (VBool true));
          registerStoreServer := Some (fun _ => PlainResult (VBool true)) |};
     conn_publish := true |}.

(** A connection that lacks [registerStoreServer], one whose registration
    promise is rejected, and one whose registration call throws. *)
Definition half_connection : connection :=
  {| registerStoreClient := Some (fun _ => PlainResult (VBool true));
     registerStoreServer := None |}.

Definition rejecting_connection : connection :=
  {| registerStoreClient := Some (fun _ => PromiseResult (Rejected "offline"));
     registerStoreServer := Some (fun _ => PromiseResult (Rejected "offline")) |}.

Definition throwing_connection : connection :=
  {| registerStoreClient := Some (fun _ => RegisterThrows "not ready");
     registerStoreServer := Some (fun _ => RegisterThrows "not ready") |}.

(** A server with the default remote driver, where every driver opens
    except a supplied one (an object without [open]), and where defining
    the mutation methods of the collection [posts] fails because they
    exist. *)
Definition example_server : environment :=
  {| Meteor_isClient := false;
     Meteor_connection := RefUndefined;
     Meteor_server := Ref server_connection;
     MongoInternals_defaultRemoteCollectionDriver := true;
     defaultRemoteCollectionDriver_call := Normal tt;
     driver_open := fun driver _ _ =>
       match driver with
       | SuppliedDriver _ =>
           Thrown "TypeError: options._driver.open is not a function"
       | _ => Normal tt
       end;
     Package_autopublish := true;
     console_warn := true;
     _defineMutationMethods := fun name _ =>
       if String.eqb (name_text name) "posts"
       then Thrown (method_already_defined name)
       else Normal tt |}.

(** An underlying collection whose index creation fails with an option
    mismatch until the index has been dropped; its state is whether the
    index has been dropped. *)
Definition mismatching_backend : index_backend bool :=
  {| backend_createIndexAsync := Some (fun dropped : bool =>
       if dropped then (Normal tt, dropped)
       else (Thrown ("MongoServerError: " ++ option_mismatch), dropped));
     backend_ensureIndexAsync := Some (fun dropped : bool => (Normal tt, dropped));
     backend_dropIndexAsync := Some (fun _ : bool => (Normal tt, true)) |}.

(** ** Proof automation *)

Ltac run_store :=
  unfold wrappedStoreServer_update, wrappedStoreClient_update,
    wrappedStoreServer_beginUpdate, wrappedStoreClient_beginUpdate,
    docs_get, collection_insert, collection_remove, collection_update,
    pauseObservers, throw, mbind, M_bind, mret, M_ret;
  cbn beta iota.

Ltac evaluate := vm_compute; first [ reflexivity | by eexists ].

(** Case analysis on the kind of a message: the four kinds the stores know,
    then any other. *)
Ltac by_kind m :=
  destruct (decide (msg_msg m = "replace")) as [Hkind|Hnot_replace];
    [|destruct (decide (msg_msg m = "added")) as [Hkind|Hnot_added];
      [|destruct (decide (msg_msg m = "removed")) as [Hkind|Hnot_removed];
        [|destruct (decide (msg_msg m = "changed")) as [Hkind|Hnot_changed]]]].

(** Evaluate a store on a message of known kind and known current
    document. *)
Ltac settle :=
  repeat (progress
    (simpl;
     try match goal with H : msg_msg _ = _ |- _ => rewrite H end;
     try match goal with H : _docs _ !! _ = _ |- _ => rewrite H end;
     try match goal with H : msg_fields _ = _ |- _ => rewrite H end;
     rewrite ?bool_decide_eq_false_2 by done)).

(** ** Field sets and their keys *)

Lemma elem_of_Object_keys (o : obj) (key : string) :
  key ∈ Object_keys o ↔ is_Some (o !! key).
Proof.
  unfold Object_keys. rewrite list_elem_of_fmap. split.
  - intros [[k v] [-> Hin]]. apply elem_of_map_to_list in Hin. by exists v.
  - intros [v Hv]. exists (key, v). split; [done|]. by apply elem_of_map_to_list.
Qed.

Lemma Object_keys_empty : Object_keys ∅ = [].
Proof. unfold Object_keys. by rewrite map_to_list_empty. Qed.

Lemma Object_keys_nil (o : obj) : Object_keys o = [] → o = ∅.
Proof.
  unfold Object_keys. intros H. apply fmap_nil_inv in H.
  by apply map_to_list_empty_iff.
Qed.

Lemma js_get_undefined_iff (o : obj) (key : string) :
  is_undefined (js_get o key) = true ↔ o !! key = None ∨ o !! key = Some VUndefined.
Proof.
  unfold js_get. destruct (o !! key) as [v|]; simpl.
  - split.
    + destruct v; simpl; intros; try discriminate. by right.
    + intros [?| [= ->]]; [discriminate | done].
  - split; [by left | done].
Qed.

Lemma is_undefined_true (v : value) : is_undefined v = true ↔ v = VUndefined.
Proof. by destruct v. Qed.

Lemma is_undefined_false (v : value) : is_undefined v = false ↔ v ≠ VUndefined.
Proof. by destruct v. Qed.

(** *** The soft-merge loop deletes exactly the undefined fields *)

Lemma delete_if_undefined_lookup (o : obj) (field key : string) :
  delete_if_undefined o field !! key =
    if bool_decide (key = field) && is_undefined (js_get o key)
    then None else o !! key.
Proof.
  unfold delete_if_undefined. case_bool_decide as Hk; simpl.
  - subst key. destruct (is_undefined (js_get o field)) eqn:E; [|done].
    by rewrite lookup_delete_eq.
  - destruct (is_undefined (js_get o field)); [|done].
    by rewrite lookup_delete_ne.
Qed.

Lemma foldl_delete_if_undefined_lookup (l : list string) (o : obj) (key : string) :
  foldl delete_if_undefined o l !! key =
    if bool_decide (key ∈ l) && is_undefined (js_get o key)
    then None else o !! key.
Proof.
  revert o. induction l as [|x l IH]; intros o; cbn [foldl].
  - rewrite bool_decide_eq_false_2; [done | by apply not_elem_of_nil].
  - rewrite IH. unfold js_get at 1. rewrite !delete_if_undefined_lookup.
    destruct (decide (key = x)) as [->|Hne].
    + rewrite !(bool_decide_eq_true_2 (x = x)) by done.
      rewrite (bool_decide_eq_true_2 (x ∈ x :: l)) by apply list_elem_of_here.
      simpl. destruct (is_undefined (js_get o x)) eqn:E; simpl.
      * by destruct (bool_decide (x ∈ l)).
      * fold (js_get o x). rewrite E. by rewrite andb_false_r.
    + rewrite !(bool_decide_eq_false_2 (key = x)) by done. simpl.
      fold (js_get o key).
      assert (bool_decide (key ∈ x :: l) = bool_decide (key ∈ l)) as ->; [|done].
      apply bool_decide_ext. rewrite elem_of_cons. tauto.
Qed.

Lemma delete_undefined_fields_lookup (fs : obj) (key : string) :
  delete_undefined_fields fs !! key =
    match fs !! key with
    | Some v => if is_undefined v then None else Some v
    | None => None
    end.
Proof.
  unfold delete_undefined_fields. rewrite foldl_delete_if_undefined_lookup.
  unfold js_get. destruct (fs !! key) as [v|] eqn:E; simpl.
  - rewrite bool_decide_eq_true_2; [done|].
    apply elem_of_Object_keys. by rewrite E.
  - by destruct (bool_decide _).
Qed.

Lemma delete_undefined_fields_filter (fs : obj) :
  delete_undefined_fields fs = filter (fun kv => is_undefined kv.2 = false) fs.
Proof.
  apply map_eq. intros key. rewrite delete_undefined_fields_lookup.
  destruct (fs !! key) as [v|] eqn:E.
  - destruct (is_undefined v) eqn:U; symmetry.
    + apply map_lookup_filter_None. right. intros v' Hv'. simpl.
      rewrite E in Hv'. injection Hv' as <-. by rewrite U.
    + apply map_lookup_filter_Some. by split.
  - symmetry. apply map_lookup_filter_None. by left.
Qed.

(** *** The object literal of the [added] branch *)

Lemma object_with_id_fields (mongoId : string) (fields : option obj) (key : string) :
  doc_fields (object_with_id mongoId fields) !! key =
    if String.eqb key "_id" then None else default ∅ fields !! key.
Proof.
  unfold object_with_id. simpl. destruct (String.eqb_spec key "_id") as [->|Hne].
  - apply lookup_delete_eq.
  - by rewrite lookup_delete_ne.
Qed.

Lemma object_with_id_id (mongoId : string) (fields : option obj) :
  default ∅ fields !! "_id" = None →
  doc_id (object_with_id mongoId fields) = VStr mongoId.
Proof. unfold object_with_id. simpl. by intros ->. Qed.

(** An own property hides the inherited one, and [_id] is the identifier. *)
Lemma doc_get_own (d : document) (key : string) (v : value) :
  key ≠ "_id" → doc_fields d !! key = Some v → doc_get d key = Held v.
Proof.
  intros Hne Hv. unfold doc_get.
  destruct (String.eqb_spec key "_id"); [done|]. by rewrite Hv.
Qed.

Lemma doc_get_missing (d : document) (key : string) :
  key ≠ "_id" → inherited key = false → doc_fields d !! key = None →
  doc_get d key = Held VUndefined.
Proof.
  intros Hne Hinh Hv. unfold doc_get.
  destruct (String.eqb_spec key "_id"); [done|]. by rewrite Hv, Hinh.
Qed.

Lemma doc_get_same_field (d d' : document) (key : string) :
  key ≠ "_id" → doc_fields d' !! key = doc_fields d !! key →
  doc_get d' key = doc_get d key.
Proof.
  intros Hne Hv. unfold doc_get.
  destruct (String.eqb_spec key "_id"); [done|]. by rewrite Hv.
Qed.

Lemma inherited_proto : inherited "__proto__" = true.
Proof. reflexivity. Qed.

Lemma not_inherited_not_proto (key : string) :
  inherited key = false → String.eqb key "__proto__" = false.
Proof.
  intros Hinh. destruct (String.eqb_spec key "__proto__") as [->|]; [|done].
  by rewrite inherited_proto in Hinh.
Qed.

(** ** The modifier of a [changed] message *)

Lemma js_assign_lookup (o : obj) (x key : string) (v : value) :
  js_assign o x v !! key =
    if bool_decide (key = x) && negb (String.eqb key "__proto__")
    then Some v else o !! key.
Proof.
  unfold js_assign. case_bool_decide as Hk; simpl.
  - subst x. destruct (String.eqb key "__proto__"); simpl; [done|].
    by rewrite lookup_insert_eq.
  - destruct (String.eqb x "__proto__"); [done|]. by rewrite lookup_insert_ne.
Qed.

Lemma default_empty_lookup (o : option obj) (key : string) :
  default ∅ o !! key = (o' ← o; o' !! key).
Proof. destruct o; simpl; [done | apply lookup_empty]. Qed.

Lemma modifier_step_set_entry
    (EJSON_equals : looked_up -> value -> bool) (doc : document) (fs : obj)
    (acc : modifier) (x key : string) :
  set_entry (modifier_step EJSON_equals doc fs acc x) key =
    if bool_decide (key = x) && differs EJSON_equals doc fs key
       && negb (is_undefined (js_get fs key)) && negb (String.eqb key "__proto__")
    then Some (js_get fs key) else set_entry acc key.
Proof.
  unfold modifier_step, differs, set_entry.
  case_bool_decide as Hk; simpl.
  - subst x. destruct (EJSON_equals _ _); simpl; [done|].
    destruct (is_undefined _); simpl; [done|].
    rewrite js_assign_lookup, bool_decide_eq_true_2 by done. simpl.
    destruct (String.eqb key "__proto__"); simpl; [|done].
    apply default_empty_lookup.
  - destruct (EJSON_equals _ _); simpl; [done|].
    destruct (is_undefined _); simpl; [done|].
    rewrite js_assign_lookup, bool_decide_eq_false_2 by done. simpl.
    apply default_empty_lookup.
Qed.

Lemma modifier_step_unset_entry
    (EJSON_equals : looked_up -> value -> bool) (doc : document) (fs : obj)
    (acc : modifier) (x key : string) :
  unset_entry (modifier_step EJSON_equals doc fs acc x) key =
    if bool_decide (key = x) && differs EJSON_equals doc fs key
       && is_undefined (js_get fs key) && negb (String.eqb key "__proto__")
    then Some (VNum 1) else unset_entry acc key.
Proof.
  unfold modifier_step, differs, unset_entry.
  case_bool_decide as Hk; simpl.
  - subst x. destruct (EJSON_equals _ _); simpl; [done|].
    destruct (is_undefined _); simpl; [|done].
    rewrite js_assign_lookup, bool_decide_eq_true_2 by done. simpl.
    destruct (String.eqb key "__proto__"); simpl; [|done].
    apply default_empty_lookup.
  - destruct (EJSON_equals _ _); simpl; [done|].
    destruct (is_undefined _); simpl; [|done].
    rewrite js_assign_lookup, bool_decide_eq_false_2 by done. simpl.
    apply default_empty_lookup.
Qed.

Lemma modifier_step_nonempty
    (EJSON_equals : looked_up -> value -> bool) (doc : document) (fs : obj)
    (acc : modifier) (x : string) :
  modifier_nonempty (modifier_step EJSON_equals doc fs acc x) =
    modifier_nonempty acc || differs EJSON_equals doc fs x.
Proof.
  unfold modifier_step, differs, modifier_nonempty.
  destruct (EJSON_equals _ _); simpl.
  - by rewrite orb_false_r.
  - rewrite orb_true_r. destruct (is_undefined _); simpl; [|done].
    by destruct (mod_set acc).
Qed.

Lemma foldl_modifier_set_entry
    (EJSON_equals : looked_up -> value -> bool) (doc : document) (fs : obj)
    (l : list string) (acc : modifier) (key : string) :
  set_entry (foldl (modifier_step EJSON_equals doc fs) acc l) key =
    if bool_decide (key ∈ l) && differs EJSON_equals doc fs key
       && negb (is_undefined (js_get fs key)) && negb (String.eqb key "__proto__")
    then Some (js_get fs key) else set_entry acc key.
Proof.
  revert acc. induction l as [|x l IH]; intros acc; cbn [foldl].
  - rewrite bool_decide_eq_false_2; [done | by apply not_elem_of_nil].
  - rewrite IH, modifier_step_set_entry.
    rewrite (bool_decide_ext (key ∈ x :: l) (key = x ∨ key ∈ l))
      by apply elem_of_cons.
    repeat case_bool_decide; simpl; try tauto;
      by destruct (differs EJSON_equals doc fs key),
                  (is_undefined (js_get fs key)), (String.eqb key "__proto__").
Qed.

Lemma foldl_modifier_unset_entry
    (EJSON_equals : looked_up -> value -> bool) (doc : document) (fs : obj)
    (l : list string) (acc : modifier) (key : string) :
  unset_entry (foldl (modifier_step EJSON_equals doc fs) acc l) key =
    if bool_decide (key ∈ l) && differs EJSON_equals doc fs key
       && is_undefined (js_get fs key) && negb (String.eqb key "__proto__")
    then Some (VNum 1) else unset_entry acc key.
Proof.
  revert acc. induction l as [|x l IH]; intros acc; cbn [foldl].
  - rewrite bool_decide_eq_false_2; [done | by apply not_elem_of_nil].
  - rewrite IH, modifier_step_unset_entry.
    rewrite (bool_decide_ext (key ∈ x :: l) (key = x ∨ key ∈ l))
      by apply elem_of_cons.
    repeat case_bool_decide; simpl; try tauto;
      by destruct (differs EJSON_equals doc fs key),
                  (is_undefined (js_get fs key)), (String.eqb key "__proto__").
Qed.

Lemma foldl_modifier_nonempty
    (EJSON_equals : looked_up -> value -> bool) (doc : document) (fs : obj)
    (l : list string) (acc : modifier) :
  modifier_nonempty (foldl (modifier_step EJSON_equals doc fs) acc l) =
    modifier_nonempty acc || existsb (differs EJSON_equals doc fs) l.
Proof.
  revert acc. induction l as [|x l IH]; intros acc; cbn [foldl existsb].
  - by rewrite orb_false_r.
  - by rewrite IH, modifier_step_nonempty, orb_assoc.
Qed.

(** The entries of the modifier computed for the whole message. *)
Lemma changed_modifier_set_entry
    (EJSON_equals : looked_up -> value -> bool) (doc : document) (fs : obj)
    (key : string) :
  set_entry (changed_modifier EJSON_equals doc fs) key =
    match fs !! key with
    | Some v =>
        if differs EJSON_equals doc fs key && negb (is_undefined v)
           && negb (String.eqb key "__proto__")
        then Some v else None
    | None => None
    end.
Proof.
  unfold changed_modifier. rewrite foldl_modifier_set_entry.
  unfold js_get. destruct (fs !! key) as [v|] eqn:E; simpl.
  - rewrite bool_decide_eq_true_2; [done|].
    apply elem_of_Object_keys. by rewrite E.
  - rewrite bool_decide_eq_false_2; [done|].
    rewrite elem_of_Object_keys, E. by intros [? ?].
Qed.

Lemma changed_modifier_unset_entry
    (EJSON_equals : looked_up -> value -> bool) (doc : document) (fs : obj)
    (key : string) :
  unset_entry (changed_modifier EJSON_equals doc fs) key =
    match fs !! key with
    | Some v =>
        if differs EJSON_equals doc fs key && is_undefined v
           && negb (String.eqb key "__proto__")
        then Some (VNum 1) else None
    | None => None
    end.
Proof.
  unfold changed_modifier. rewrite foldl_modifier_unset_entry.
  unfold js_get. destruct (fs !! key) as [v|] eqn:E; simpl.
  - rewrite bool_decide_eq_true_2; [done|].
    apply elem_of_Object_keys. by rewrite E.
  - rewrite bool_decide_eq_false_2; [done|].
    rewrite elem_of_Object_keys, E. by intros [? ?].
Qed.

Lemma changed_modifier_nonempty
    (EJSON_equals : looked_up -> value -> bool) (doc : document) (fs : obj) :
  modifier_nonempty (changed_modifier EJSON_equals doc fs) = true ↔
  ∃ key, is_Some (fs !! key) ∧ differs EJSON_equals doc fs key = true.
Proof.
  unfold changed_modifier. rewrite foldl_modifier_nonempty. simpl.
  rewrite existsb_exists. split.
  - intros (key & Hin & Hd). exists key. split; [|done].
    apply elem_of_Object_keys. by apply list_elem_of_In.
  - intros (key & Hin & Hd). exists key. split; [|done].
    apply list_elem_of_In. by apply elem_of_Object_keys.
Qed.

Lemma differs_at (EJSON_equals : looked_up -> value -> bool) (doc : document)
    (fs : obj) (key : string) (v : value) :
  fs !! key = Some v →
  differs EJSON_equals doc fs key = negb (EJSON_equals (doc_get doc key) v).
Proof. intros Hv. unfold differs, js_get. by rewrite Hv. Qed.

Lemma changed_modifier_empty_fields
    (EJSON_equals : looked_up -> value -> bool) (doc : document) :
  changed_modifier EJSON_equals doc ∅ = empty_modifier.
Proof. unfold changed_modifier. by rewrite Object_keys_empty. Qed.

Lemma changed_modifier_of_agreeing
    (EJSON_equals : looked_up -> value -> bool) (doc : document) (fs : obj) :
  (∀ key v, fs !! key = Some v → EJSON_equals (doc_get doc key) v = true) →
  modifier_nonempty (changed_modifier EJSON_equals doc fs) = false.
Proof.
  intros Hall. destruct (modifier_nonempty _) eqn:Hne; [|done].
  apply changed_modifier_nonempty in Hne as (key & [v Hv] & Hd).
  rewrite (differs_at _ _ _ _ _ Hv) in Hd. by rewrite (Hall key v Hv) in Hd.
Qed.

(** ** The two stores share their strict rules *)

(** Outside a client ([Meteor.isClient] false) the client store applies the
    strict rules of the server store. *)
Lemma client_update_strict
    (idParse : string -> string) (EJSON_equals : looked_up -> value -> bool)
    (m : message) (c : collection) :
  wrappedStoreClient_update idParse EJSON_equals false m c =
  wrappedStoreServer_update idParse EJSON_equals m c.
Proof. reflexivity. Qed.

(** The soft-merge branch never touches the identifier of a message. *)
Lemma soft_merge_id (isClient : bool) (doc : option document) (m m' : message) :
  soft_merge isClient doc m = Some m' → msg_id m' = msg_id m.
Proof.
  unfold soft_merge. intros H.
  repeat (case_match; simplify_eq/=); done.
Qed.

(** In a client the store first rewrites the message, then applies the
    strict rules to what is left. *)
Lemma client_update_soft
    (idParse : string -> string) (EJSON_equals : looked_up -> value -> bool)
    (m : message) (c : collection) :
  wrappedStoreClient_update idParse EJSON_equals true m c =
    match soft_merge true (_docs c !! VStr (idParse (msg_id m))) m with
    | None => Return tt c
    | Some m' => wrappedStoreServer_update idParse EJSON_equals m' c
    end.
Proof.
  unfold wrappedStoreClient_update, wrappedStoreServer_update, docs_get,
    mbind, M_bind. cbn beta iota.
  destruct (soft_merge true (_docs c !! VStr (idParse (msg_id m))) m) as [m'|] eqn:E;
    [|done].
  by rewrite (soft_merge_id _ _ _ _ E).
Qed.

(** What the soft-merge branch does to each kind of message. *)
Lemma soft_merge_added_present (doc : document) (m : message) :
  msg_msg m = "added" →
  soft_merge true (Some doc) m = Some (set_msg "changed" m).
Proof.
  intros Hkind. unfold soft_merge. rewrite Hkind.
  rewrite (bool_decide_eq_true_2 ("added" = "added")) by done.
  by rewrite (bool_decide_eq_true_2 (is_Some (Some doc))) by eauto.
Qed.

Lemma soft_merge_removed_absent (m : message) :
  msg_msg m = "removed" → soft_merge true None m = None.
Proof.
  intros Hkind. unfold soft_merge. rewrite Hkind.
  rewrite (bool_decide_eq_false_2 ("removed" = "added")) by done.
  rewrite (bool_decide_eq_true_2 ("removed" = "removed")) by done.
  by rewrite (bool_decide_eq_true_2 (None = None)) by done.
Qed.

Lemma soft_merge_changed_absent (m : message) :
  msg_msg m = "changed" →
  soft_merge true None m =
    Some (set_fields (delete_undefined_fields <$> msg_fields m) (set_msg "added" m)).
Proof.
  intros Hkind. unfold soft_merge. rewrite Hkind.
  rewrite (bool_decide_eq_false_2 ("changed" = "added")) by done.
  rewrite (bool_decide_eq_false_2 ("changed" = "removed")) by done.
  rewrite (bool_decide_eq_true_2 ("changed" = "changed")) by done.
  by rewrite (bool_decide_eq_true_2 (None = None)) by done.
Qed.

Lemma soft_merge_changed_present (doc : document) (m : message) :
  msg_msg m = "changed" → soft_merge true (Some doc) m = Some m.
Proof.
  intros Hkind. unfold soft_merge. rewrite Hkind.
  rewrite (bool_decide_eq_false_2 ("changed" = "added")) by done.
  rewrite (bool_decide_eq_false_2 ("changed" = "removed")) by done.
  rewrite (bool_decide_eq_false_2 (Some doc = None)) by done.
  by rewrite andb_false_r.
Qed.

Lemma soft_merge_added_absent (m : message) :
  msg_msg m = "added" → soft_merge true None m = Some m.
Proof.
  intros Hkind. unfold soft_merge. rewrite Hkind.
  rewrite (bool_decide_eq_false_2 (is_Some None)) by (by intros [? ?]).
  rewrite (bool_decide_eq_false_2 ("added" = "removed")) by done.
  by rewrite (bool_decide_eq_false_2 ("added" = "changed")) by done.
Qed.

Lemma soft_merge_removed_present (doc : document) (m : message) :
  msg_msg m = "removed" → soft_merge true (Some doc) m = Some m.
Proof.
  intros Hkind. unfold soft_merge. rewrite Hkind.
  rewrite (bool_decide_eq_false_2 ("removed" = "added")) by done.
  rewrite (bool_decide_eq_false_2 (Some doc = None)) by done.
  rewrite (bool_decide_eq_false_2 ("removed" = "changed")) by done.
  by rewrite andb_false_r.
Qed.

Lemma soft_merge_replace (doc : option document) (m : message) :
  msg_msg m = "replace" → soft_merge true doc m = Some m.
Proof.
  intros Hkind. unfold soft_merge. rewrite Hkind.
  rewrite (bool_decide_eq_false_2 ("replace" = "added")) by done.
  rewrite (bool_decide_eq_false_2 ("replace" = "removed")) by done.
  by rewrite (bool_decide_eq_false_2 ("replace" = "changed")) by done.
Qed.

(** *** The [changed] branch *)

Lemma server_update_changed
    (idParse : string -> string) (EJSON_equals : looked_up -> value -> bool)
    (m : message) (c : collection) (doc : document) (fs : obj) :
  msg_msg m = "changed" →
  _docs c !! VStr (idParse (msg_id m)) = Some doc →
  msg_fields m = Some fs →
  wrappedStoreServer_update idParse EJSON_equals m c =
    Return tt (after_changed (idParse (msg_id m))
                 (changed_modifier EJSON_equals doc fs) c).
Proof.
  intros Hkind Hdoc Hfs. run_store. rewrite Hkind, Hdoc, Hfs.
  rewrite (bool_decide_eq_false_2 ("changed" = "replace")) by done.
  rewrite (bool_decide_eq_false_2 ("changed" = "added")) by done.
  rewrite (bool_decide_eq_false_2 ("changed" = "removed")) by done.
  rewrite (bool_decide_eq_true_2 ("changed" = "changed")) by done.
  unfold after_changed, changed_modifier.
  destruct (Object_keys fs) as [|k ks] eqn:Hkeys; [done|].
  cbn [length]. rewrite (proj2 (Z.ltb_lt _ _)) by lia.
  by destruct (modifier_nonempty _).
Qed.

(** Without a field set the [changed] branch fails at [Object.keys]. *)
Lemma server_update_changed_bare
    (idParse : string -> string) (EJSON_equals : looked_up -> value -> bool)
    (m : message) (c : collection) (doc : document) :
  msg_msg m = "changed" →
  _docs c !! VStr (idParse (msg_id m)) = Some doc →
  msg_fields m = None →
  wrappedStoreServer_update idParse EJSON_equals m c = Throw cannot_convert c.
Proof.
  intros Hkind Hdoc Hfs. run_store. rewrite Hkind, Hdoc, Hfs.
  rewrite (bool_decide_eq_false_2 ("changed" = "replace")) by done.
  rewrite (bool_decide_eq_false_2 ("changed" = "added")) by done.
  rewrite (bool_decide_eq_false_2 ("changed" = "removed")) by done.
  by rewrite (bool_decide_eq_true_2 ("changed" = "changed")) by done.
Qed.

Lemma client_update_changed_present
    (idParse : string -> string) (EJSON_equals : looked_up -> value -> bool)
    (isClient : bool) (m : message) (c : collection) (doc : document) :
  msg_msg m = "changed" →
  _docs c !! VStr (idParse (msg_id m)) = Some doc →
  wrappedStoreClient_update idParse EJSON_equals isClient m c =
  wrappedStoreServer_update idParse EJSON_equals m c.
Proof.
  intros Hkind Hdoc. destruct isClient; [|apply client_update_strict].
  by rewrite client_update_soft, Hdoc, soft_merge_changed_present.
Qed.

Lemma client_update_changed
    (idParse : string -> string) (EJSON_equals : looked_up -> value -> bool)
    (isClient : bool) (m : message) (c : collection) (doc : document) (fs : obj) :
  msg_msg m = "changed" →
  _docs c !! VStr (idParse (msg_id m)) = Some doc →
  msg_fields m = Some fs →
  wrappedStoreClient_update idParse EJSON_equals isClient m c =
    Return tt (after_changed (idParse (msg_id m))
                 (changed_modifier EJSON_equals doc fs) c).
Proof.
  intros Hkind Hdoc Hfs.
  rewrite (client_update_changed_present _ _ _ _ _ _ Hkind Hdoc).
  by apply server_update_changed.
Qed.

(** In a client an [added] message for a document that is there goes
    through the [changed] branch. *)
Lemma client_update_added_present
    (idParse : string -> string) (EJSON_equals : looked_up -> value -> bool)
    (m : message) (c : collection) (doc : document) :
  msg_msg m = "added" →
  _docs c !! VStr (idParse (msg_id m)) = Some doc →
  wrappedStoreClient_update idParse EJSON_equals true m c =
  wrappedStoreServer_update idParse EJSON_equals (set_msg "changed" m) c.
Proof.
  intros Hkind Hdoc.
  by rewrite client_update_soft, Hdoc, soft_merge_added_present.
Qed.

(** *** The [added] branch *)

Lemma server_update_added
    (idParse : string -> string) (EJSON_equals : looked_up -> value -> bool)
    (m : message) (c : collection) :
  msg_msg m = "added" →
  _docs c !! VStr (idParse (msg_id m)) = None →
  wrappedStoreServer_update idParse EJSON_equals m c =
    Return tt (with_docs (insert (added_entry idParse m).1 (added_entry idParse m).2)
                 (record_call (CallInsert (added_entry idParse m).2) c)).
Proof. intros Hkind Hdoc. run_store. by rewrite Hkind, Hdoc. Qed.

(** *** The [replace] branch *)

Lemma alter_lookup_insert `{Countable K} {A} (f : A → A) (m : gmap K A)
    (i : K) (x : A) :
  m !! i = Some x → alter f i m = <[i := f x]> m.
Proof.
  intros Hx. apply map_eq. intros j. destruct (decide (i = j)) as [->|Hne].
  - by rewrite lookup_alter_eq, lookup_insert_eq, Hx.
  - by rewrite lookup_alter_ne, lookup_insert_ne.
Qed.

Lemma server_update_replace
    (idParse : string -> string) (EJSON_equals : looked_up -> value -> bool)
    (m : message) (c : collection) :
  msg_msg m = "replace" →
  wrappedStoreServer_update idParse EJSON_equals m c =
    Return tt (after_replace (idParse (msg_id m)) (msg_replace m) c).
Proof.
  intros Hkind. run_store. unfold after_replace. rewrite Hkind. simpl.
  destruct (msg_replace m) as [r|];
    destruct (_docs c !! VStr (idParse (msg_id m))) as [d|] eqn:Hd; simpl; try done.
  unfold with_docs. simpl. by rewrite (alter_lookup_insert _ _ _ d).
Qed.

Lemma client_update_replace
    (idParse : string -> string) (EJSON_equals : looked_up -> value -> bool)
    (isClient : bool) (m : message) (c : collection) :
  msg_msg m = "replace" →
  wrappedStoreClient_update idParse EJSON_equals isClient m c =
    Return tt (after_replace (idParse (msg_id m)) (msg_replace m) c).
Proof.
  intros Hkind.
  destruct isClient; [|by rewrite client_update_strict; apply server_update_replace].
  rewrite client_update_soft, soft_merge_replace by done.
  by apply server_update_replace.
Qed.

(** ** Strict mode: protocol violations *)

(** C1, as the code has it: in strict mode (the server-side store) applying
    one change message raises an error exactly when the message is [added]
    and the document is already there, [removed] or [changed] and the
    document is not there, [changed] with the document there but without a
    field set (the [TypeError] of [Object.keys(undefined)]), or of a kind
    other than [replace], [added], [removed], [changed]; in every other
    case no error is raised. *)
Theorem server_update_throws_iff
    (idParse : string -> string) (EJSON_equals : looked_up -> value -> bool)
    (m : message) (c : collection) :
  throws (wrappedStoreServer_update idParse EJSON_equals m c) ↔
    (msg_msg m = "added" ∧ is_Some (_docs c !! VStr (idParse (msg_id m)))) ∨
    (msg_msg m = "removed" ∧ _docs c !! VStr (idParse (msg_id m)) = None) ∨
    (msg_msg m = "changed" ∧ _docs c !! VStr (idParse (msg_id m)) = None) ∨
    (msg_msg m = "changed" ∧ is_Some (_docs c !! VStr (idParse (msg_id m)))
     ∧ msg_fields m = None) ∨
    (msg_msg m ≠ "replace" ∧ msg_msg m ≠ "added" ∧
     msg_msg m ≠ "removed" ∧ msg_msg m ≠ "changed").
Proof.
  run_store.
  destruct (_docs c !! VStr (idParse (msg_id m))) as [doc|] eqn:Hdoc;
    destruct (msg_fields m) as [fs|] eqn:Hfs;
    repeat case_bool_decide; repeat (case_match; simpl); simpl;
    split; intros Hyp; try done;
    try (by exfalso; destruct_or?; destruct_and?;
         first [ congruence
               | match goal with H : is_Some None |- _ => by destruct H end ]);
    eauto 12.
Qed.

(** ** Soft mode *)

(** C2: in soft mode (the client-side store) an [added] message for a
    document already present is processed as a [changed] message (so it
    raises no error when it carries a field set); a [removed] message for a
    document not present changes nothing and raises no error; a [changed]
    message for a document not present is processed as an [added] message
    once every field holding [undefined] is deleted from its field set, so
    that the document inserted, [{ _id: mongoId, ...fields }], holds exactly
    the defined fields of the message and an identifier that is defined. *)
Theorem soft_mode_update
    (idParse : string -> string) (EJSON_equals : looked_up -> value -> bool)
    (m : message) (c : collection) :
  (msg_msg m = "added" → is_Some (_docs c !! VStr (idParse (msg_id m))) →
     wrappedStoreClient_update idParse EJSON_equals true m c =
     wrappedStoreClient_update idParse EJSON_equals false (set_msg "changed" m) c
     ∧ (is_Some (msg_fields m) →
        ¬ throws (wrappedStoreClient_update idParse EJSON_equals true m c)))
  ∧ (msg_msg m = "removed" → _docs c !! VStr (idParse (msg_id m)) = None →
     wrappedStoreClient_update idParse EJSON_equals true m c = Return tt c)
  ∧ (msg_msg m = "changed" → _docs c !! VStr (idParse (msg_id m)) = None →
     let defined :=
       filter (fun kv => is_undefined kv.2 = false) <$> msg_fields m in
     let inserted := object_with_id (idParse (msg_id m)) defined in
     wrappedStoreClient_update idParse EJSON_equals true m c =
     wrappedStoreClient_update idParse EJSON_equals false
       (set_fields defined (set_msg "added" m)) c
     ∧ wrappedStoreClient_update idParse EJSON_equals true m c =
       Return tt (with_docs (insert (doc_id inserted) inserted)
                            (record_call (CallInsert inserted) c))
     ∧ (∀ key v, doc_fields inserted !! key = Some v ↔
                 key ≠ "_id" ∧ fields_of m !! key = Some v ∧ v ≠ VUndefined)
     ∧ doc_id inserted =
         match fields_of m !! "_id" with
         | Some v => if is_undefined v then VStr (idParse (msg_id m)) else v
         | None => VStr (idParse (msg_id m))
         end
     ∧ doc_id inserted ≠ VUndefined).
Proof.
  split; [|split].
  - intros Hkind [doc Hdoc].
    rewrite (client_update_added_present _ _ _ _ _ Hkind Hdoc).
    rewrite client_update_strict. split; [done|].
    intros [fs Hfs].
    rewrite (server_update_changed _ _ (set_msg "changed" m) c doc fs) by done.
    by intros [].
  - intros Hkind Hdoc.
    by rewrite client_update_soft, Hdoc, soft_merge_removed_absent.
  - intros Hkind Hdoc defined inserted.
    assert (defined = delete_undefined_fields <$> msg_fields m) as Hdefined.
    { subst defined. destruct (msg_fields m) as [fs|]; simpl; [|done].
      by rewrite delete_undefined_fields_filter. }
    assert (∀ key, default ∅ defined !! key =
              match fields_of m !! key with
              | Some v => if is_undefined v then None else Some v
              | None => None
              end) as Hlookup.
    { intros key. rewrite Hdefined. unfold fields_of.
      destruct (msg_fields m) as [fs|]; simpl.
      - apply delete_undefined_fields_lookup.
      - by rewrite lookup_empty. }
    rewrite client_update_soft, Hdoc, soft_merge_changed_absent by done.
    rewrite client_update_strict, <- Hdefined.
    split; [done|]. split; [|split; [|split]].
    + rewrite (server_update_added _ _ _ c) by done. done.
    + intros key v. subst inserted. rewrite object_with_id_fields, Hlookup.
      destruct (String.eqb_spec key "_id") as [->|Hne].
      * split; [done | by intros [? _]].
      * destruct (fields_of m !! key) as [w|]; [|split; [done | by intros (_ & ? & _)]].
        destruct (is_undefined w) eqn:Hw.
        -- apply is_undefined_true in Hw as ->.
           split; [done | by intros (_ & [= <-] & ?)].
        -- apply is_undefined_false in Hw.
           split; [by intros [= <-] | by intros (_ & [= <-] & _)].
    + subst inserted. unfold object_with_id. simpl. rewrite Hlookup.
      destruct (fields_of m !! "_id") as [w|]; [|done].
      by destruct (is_undefined w).
    + subst inserted. unfold object_with_id. simpl. rewrite Hlookup.
      destruct (fields_of m !! "_id") as [w|]; [|done].
      destruct (is_undefined w) eqn:Hw; [done|]. simpl.
      by apply is_undefined_false.
Qed.

(** ** Whole-document replacement *)

(** C3: a [replace] message, in the client store (in and outside a client)
    and in the server store alike: without a replacement the document is
    removed when it exists and nothing happens when it does not; with a
    replacement and no document the replacement is inserted; with both, the
    table is asked for a full-document update and the stored document then
    has exactly the fields of the replacement, so that a field of the old
    document that the replacement lacks is gone.  No error is raised in any
    of these cases, whatever the table held. *)
Theorem replace_update
    (idParse : string -> string) (EJSON_equals : looked_up -> value -> bool)
    (isClient : bool) (m : message) (c : collection) :
  msg_msg m = "replace" →
  wrappedStoreClient_update idParse EJSON_equals isClient m c =
    Return tt (after_replace (idParse (msg_id m)) (msg_replace m) c)
  ∧ wrappedStoreServer_update idParse EJSON_equals m c =
    Return tt (after_replace (idParse (msg_id m)) (msg_replace m) c)
  ∧ ¬ throws (wrappedStoreClient_update idParse EJSON_equals isClient m c)
  ∧ ¬ throws (wrappedStoreServer_update idParse EJSON_equals m c)
  ∧ ∀ r d, msg_replace m = Some r →
      _docs c !! VStr (idParse (msg_id m)) = Some d →
      ∃ d', _docs (after_replace (idParse (msg_id m)) (msg_replace m) c)
              !! VStr (idParse (msg_id m)) = Some d'
            ∧ doc_fields d' = doc_fields r
            ∧ ∀ key, doc_fields r !! key = None → doc_fields d' !! key = None.
Proof.
  intros Hkind.
  rewrite (client_update_replace _ _ _ _ _ Hkind).
  rewrite (server_update_replace _ _ _ _ Hkind).
  repeat split; try (by intros []).
  intros r d Hr Hd. unfold after_replace. rewrite Hr, Hd. simpl.
  rewrite lookup_insert_eq. eexists. split; [done|]. simpl. by split.
Qed.

(** ** [changed] on an existing document *)

(** C4, as the code has it: for a [changed] message that carries a field
    set, applied to an existing document, in both stores, the computed
    modifier has, for each field of the message other than [__proto__], an
    unset entry when the incoming value is [undefined] and differs from the
    current value, a set entry with the incoming value when that value is
    defined and differs from the current value, and no entry when the
    incoming value equals the current value, where the current value is
    what [doc[key]] evaluates to; it has no entry for any field the message
    does not name.  When the modifier has no operator, and in particular
    when the field set of the message is empty, no operation is performed
    on the table. *)
Theorem changed_computes_minimal_modifier
    (idParse : string -> string) (EJSON_equals : looked_up -> value -> bool)
    (isClient : bool) (m : message) (c : collection) (doc : document) (fs : obj) :
  msg_msg m = "changed" →
  _docs c !! VStr (idParse (msg_id m)) = Some doc →
  msg_fields m = Some fs →
  let modifier := changed_modifier EJSON_equals doc fs in
  (∀ key v, fs !! key = Some v → key ≠ "__proto__" →
     (v = VUndefined → EJSON_equals (doc_get doc key) v = false →
        unset_entry modifier key = Some (VNum 1) ∧ set_entry modifier key = None)
     ∧ (v ≠ VUndefined → EJSON_equals (doc_get doc key) v = false →
        set_entry modifier key = Some v ∧ unset_entry modifier key = None)
     ∧ (EJSON_equals (doc_get doc key) v = true →
        set_entry modifier key = None ∧ unset_entry modifier key = None))
  ∧ (∀ key, fs !! key = None →
       set_entry modifier key = None ∧ unset_entry modifier key = None)
  ∧ (modifier_nonempty modifier = true →
       wrappedStoreClient_update idParse EJSON_equals isClient m c =
         Return tt (with_docs (alter (apply_modifier modifier)
                                     (VStr (idParse (msg_id m))))
                     (record_call (CallUpdate (idParse (msg_id m))
                                              (ByModifier modifier)) c))
       ∧ wrappedStoreServer_update idParse EJSON_equals m c =
         wrappedStoreClient_update idParse EJSON_equals isClient m c)
  ∧ (modifier_nonempty modifier = false →
       wrappedStoreClient_update idParse EJSON_equals isClient m c = Return tt c
       ∧ wrappedStoreServer_update idParse EJSON_equals m c = Return tt c)
  ∧ (fs = ∅ → modifier_nonempty modifier = false).
Proof.
  intros Hkind Hdoc Hfs modifier. subst modifier.
  rewrite (client_update_changed _ _ _ _ _ _ _ Hkind Hdoc Hfs).
  rewrite (server_update_changed _ _ _ _ _ _ Hkind Hdoc Hfs).
  unfold after_changed.
  split; [|split; [|split; [|split]]].
  - intros key v Hv Hproto.
    rewrite changed_modifier_set_entry, changed_modifier_unset_entry, Hv.
    rewrite (differs_at _ _ _ _ _ Hv).
    destruct (String.eqb_spec key "__proto__") as [|_]; [done|]. simpl.
    rewrite !andb_true_r.
    split; [|split].
    + intros -> Hne. by rewrite Hne.
    + intros Hdef Hne. rewrite Hne. by destruct v.
    + intros Heq. by rewrite Heq.
  - intros key Hnone.
    by rewrite changed_modifier_set_entry, changed_modifier_unset_entry, Hnone.
  - intros Hnonempty. by rewrite Hnonempty.
  - intros Hempty. by rewrite Hempty.
  - intros ->. by rewrite changed_modifier_empty_fields.
Qed.

(** ** Batches *)

Lemma beginUpdate_outcome (batchSize : Z) (reset : bool) (c : collection) :
  wrappedStoreClient_beginUpdate batchSize reset c =
    Return tt
      {| _docs := if reset then ∅ else _docs c;
         paused := if (1 <? batchSize) || reset then true else paused c;
         calls := (calls c
                   ++ (if (1 <? batchSize) || reset then [CallPauseObservers] else [])
                   ++ (if reset then [CallRemove Everything] else []))%list |}.
Proof.
  run_store. destruct c as [docs p ks].
  destruct (1 <? batchSize), reset; simpl;
    unfold with_docs, with_paused, record_call; simpl;
    rewrite <- ?app_assoc, ?app_nil_r; reflexivity.
Qed.

(** C5: [beginUpdate(batchSize, reset)], in the client store and in the
    server store, calls [pauseObservers] exactly when [batchSize > 1] or
    [reset] holds, and when [reset] holds it then removes every document,
    after pausing and as the last thing it does; so a reset of an empty
    table leaves it as it was, and a second reset yields the same empty
    table as the first. *)
Theorem beginUpdate_pauses_and_resets (batchSize : Z) (reset : bool) (c : collection) :
  wrappedStoreServer_beginUpdate batchSize reset c =
    wrappedStoreClient_beginUpdate batchSize reset c
  ∧ ∃ c', wrappedStoreClient_beginUpdate batchSize reset c = Return tt c'
    ∧ (calls c' = (calls c
                   ++ (if bool_decide (1 < batchSize ∨ reset = true)
                       then [CallPauseObservers] else [])
                   ++ (if reset then [CallRemove Everything] else []))%list)
    ∧ (paused c' = if bool_decide (1 < batchSize ∨ reset = true)
                   then true else paused c)
    ∧ (_docs c' = if reset then ∅ else _docs c)
    ∧ (reset = true → _docs c = ∅ → _docs c' = _docs c)
    ∧ (reset = true → ∀ batchSize',
         _docs (final (wrappedStoreClient_beginUpdate batchSize' true c')) = _docs c').
Proof.
  split; [reflexivity|]. rewrite beginUpdate_outcome. eexists. split; [reflexivity|].
  assert (bool_decide (1 < batchSize ∨ reset = true) = (1 <? batchSize) || reset) as ->.
  { destruct (1 <? batchSize) eqn:E, reset; simpl;
      try (apply bool_decide_eq_true_2; apply Z.ltb_lt in E; tauto);
      try (apply bool_decide_eq_true_2; tauto).
    apply bool_decide_eq_false_2. apply Z.ltb_ge in E. intros [?|?]; [lia|done]. }
  simpl. repeat split.
  - intros -> Hempty. by rewrite Hempty.
  - intros -> batchSize'. by rewrite beginUpdate_outcome.
Qed.

(** ** What a delta does to a document *)

Lemma apply_modifier_lookup (m : modifier) (d : document) (key : string) :
  doc_fields (apply_modifier m d) !! key =
    if String.eqb key "_id" then doc_fields d !! key
    else
      match unset_entry m key with
      | Some _ => None
      | None => match set_entry m key with
                | Some v => Some v
                | None => doc_fields d !! key
                end
      end.
Proof.
  unfold apply_modifier, set_entry, unset_entry. simpl.
  rewrite lookup_difference, lookup_union.
  destruct (String.eqb_spec key "_id") as [->|Hne].
  - rewrite !lookup_delete_eq. by destruct (doc_fields d !! "_id").
  - rewrite !lookup_delete_ne by done. rewrite !default_empty_lookup.
    destruct (o' ← mod_unset m; o' !! key); [done|].
    by destruct (o' ← mod_set m; o' !! key), (doc_fields d !! key).
Qed.

(** The document a [changed] message leaves behind, field by field. *)
Lemma after_changed_document
    (EJSON_equals : looked_up -> value -> bool)
    (mongoId : string) (fs : obj) (c : collection) (doc : document) :
  _docs c !! VStr mongoId = Some doc →
  ∃ doc',
    _docs (after_changed mongoId (changed_modifier EJSON_equals doc fs) c)
      !! VStr mongoId = Some doc'
    ∧ doc_id doc' = doc_id doc
    ∧ ∀ key, doc_fields doc' !! key =
        match fs !! key with
        | Some v =>
            if differs EJSON_equals doc fs key
               && negb (String.eqb key "_id") && negb (String.eqb key "__proto__")
            then (if is_undefined v then None else Some v)
            else doc_fields doc !! key
        | None => doc_fields doc !! key
        end.
Proof.
  intros Hdoc. unfold after_changed.
  destruct (modifier_nonempty _) eqn:Hne; simpl.
  - rewrite lookup_alter_eq, Hdoc. simpl. eexists. split; [done|].
    split; [done|]. intros key. rewrite apply_modifier_lookup.
    rewrite changed_modifier_set_entry, changed_modifier_unset_entry.
    destruct (fs !! key) as [v|]; [|by destruct (String.eqb key "_id")].
    by destruct (differs _ _ _ _), (is_undefined v), (String.eqb key "_id"),
                (String.eqb key "__proto__").
  - exists doc. split; [done|]. split; [done|]. intros key.
    destruct (fs !! key) as [v|] eqn:Hv; [|done].
    destruct (differs EJSON_equals doc fs key) eqn:Hd; [|done].
    assert (modifier_nonempty (changed_modifier EJSON_equals doc fs) = true)
      as Hcontra; [|congruence].
    apply changed_modifier_nonempty. exists key. split; [by exists v | done].
Qed.

(** A [changed] message with an existing document keeps the identifier of
    the document, every field it does not name, and every other document. *)
Lemma after_changed_frame
    (EJSON_equals : looked_up -> value -> bool)
    (mongoId : string) (fs : obj) (c : collection) (doc : document) :
  _docs c !! VStr mongoId = Some doc →
  let c' := after_changed mongoId (changed_modifier EJSON_equals doc fs) c in
  (∃ doc', _docs c' !! VStr mongoId = Some doc'
           ∧ doc_id doc' = doc_id doc
           ∧ ∀ key, fs !! key = None →
                    doc_fields doc' !! key = doc_fields doc !! key)
  ∧ (∀ other, other ≠ VStr mongoId → _docs c' !! other = _docs c !! other).
Proof.
  intros Hdoc c'. subst c'. split.
  - destruct (after_changed_document EJSON_equals mongoId fs c doc Hdoc)
      as (doc' & Hdoc' & Hid & Hfields).
    exists doc'. split; [done|]. split; [done|].
    intros key Hkey. by rewrite Hfields, Hkey.
  - intros other Hne. unfold after_changed.
    destruct (modifier_nonempty _); simpl; [|done].
    by rewrite lookup_alter_ne.
Qed.

(** ** Soft mode: the merge *)

(** C9: in soft mode an [added] message for a document already present is
    applied as a [changed] message and so merged into the document, not put
    in its place: the document is still there under its identifier, every
    field of it that the message does not name has the value it had before,
    and every field the message names (other than [_id] and [__proto__])
    has the value of the message when that is defined and differs from the
    current one, is gone when the message gives [undefined] and the current
    value differs, and is as before otherwise.  No error is raised when the
    message carries a field set; without one the table is left as it was. *)
Theorem soft_added_existing_merges
    (idParse : string -> string) (EJSON_equals : looked_up -> value -> bool)
    (m : message) (c : collection) (doc : document) :
  msg_msg m = "added" →
  _docs c !! VStr (idParse (msg_id m)) = Some doc →
  let c' := final (wrappedStoreClient_update idParse EJSON_equals true m c) in
  wrappedStoreClient_update idParse EJSON_equals true m c =
    wrappedStoreServer_update idParse EJSON_equals (set_msg "changed" m) c
  ∧ (is_Some (msg_fields m) →
     wrappedStoreClient_update idParse EJSON_equals true m c = Return tt c')
  ∧ (msg_fields m = None → c' = c)
  ∧ ∃ doc', _docs c' !! VStr (idParse (msg_id m)) = Some doc'
      ∧ doc_id doc' = doc_id doc
      ∧ (∀ key, fields_of m !! key = None →
                doc_fields doc' !! key = doc_fields doc !! key)
      ∧ (∀ fs key v, msg_fields m = Some fs → fs !! key = Some v →
           key ≠ "_id" → key ≠ "__proto__" →
           doc_fields doc' !! key =
             if EJSON_equals (doc_get doc key) v then doc_fields doc !! key
             else if is_undefined v then None else Some v).
Proof.
  intros Hkind Hdoc c'. subst c'.
  rewrite (client_update_added_present _ _ _ _ _ Hkind Hdoc).
  split; [done|].
  destruct (msg_fields m) as [fs|] eqn:Hfs.
  - rewrite (server_update_changed _ _ (set_msg "changed" m) c doc fs) by done.
    split; [done|]. split; [done|]. simpl.
    destruct (after_changed_document EJSON_equals (idParse (msg_id m)) fs c doc Hdoc)
      as (doc' & Hdoc' & Hid & Hfields).
    exists doc'. split; [done|]. split; [done|]. split.
    + intros key Hkey. unfold fields_of in Hkey. rewrite Hfs in Hkey.
      simpl in Hkey. by rewrite Hfields, Hkey.
    + intros fs' key v [= <-] Hv Hnot_id Hnot_proto.
      rewrite Hfields, Hv, (differs_at _ _ _ _ _ Hv).
      destruct (String.eqb_spec key "_id"); [done|].
      destruct (String.eqb_spec key "__proto__"); [done|].
      by destruct (EJSON_equals (doc_get doc key) v).
  - rewrite (server_update_changed_bare _ _ (set_msg "changed" m) c doc) by done.
    split; [by intros [? ?]|]. split; [done|]. simpl.
    exists doc. split; [done|]. split; [done|]. split; [done|].
    by intros fs key v.
Qed.

(** ** What a [changed] message leaves alone *)

(** C10: a [changed] message applied to an existing document, in strict
    and in soft mode alike (the two do the same), leaves the identifier of
    the document and every field the message does not name as they were,
    and leaves every other document of the table as it was; it raises no
    error when the message carries a field set. *)
Theorem changed_existing_frame
    (idParse : string -> string) (EJSON_equals : looked_up -> value -> bool)
    (isClient : bool) (m : message) (c : collection) (doc : document) :
  msg_msg m = "changed" →
  _docs c !! VStr (idParse (msg_id m)) = Some doc →
  let c' := final (wrappedStoreServer_update idParse EJSON_equals m c) in
  wrappedStoreClient_update idParse EJSON_equals isClient m c =
    wrappedStoreServer_update idParse EJSON_equals m c
  ∧ (is_Some (msg_fields m) →
     wrappedStoreServer_update idParse EJSON_equals m c = Return tt c')
  ∧ (∃ doc', _docs c' !! VStr (idParse (msg_id m)) = Some doc'
       ∧ doc_id doc' = doc_id doc
       ∧ ∀ key, fields_of m !! key = None →
                doc_fields doc' !! key = doc_fields doc !! key)
  ∧ (∀ other, other ≠ VStr (idParse (msg_id m)) →
              _docs c' !! other = _docs c !! other).
Proof.
  intros Hkind Hdoc c'. subst c'.
  rewrite (client_update_changed_present _ _ _ _ _ _ Hkind Hdoc).
  split; [done|].
  destruct (msg_fields m) as [fs|] eqn:Hfs.
  - rewrite (server_update_changed _ _ _ _ _ _ Hkind Hdoc Hfs).
    split; [done|]. simpl. unfold fields_of. rewrite Hfs. simpl.
    exact (after_changed_frame EJSON_equals _ fs c doc Hdoc).
  - rewrite (server_update_changed_bare _ _ _ _ _ Hkind Hdoc Hfs).
    split; [by intros [? ?]|]. simpl. split; [|done].
    exists doc. by split.
Qed.

(** ** The selector guard: properties *)

(** C6, as the code has it: an array selector raises an error; a falsy
    selector, or an object selector (after the scalar shorthand is expanded)
    whose [_id] is present and falsy, is rewritten to [{_id: x}] where [x]
    is the fallback identifier when that is truthy and the identifier
    [Random.id()] returns otherwise; every other selector that is an object
    after the expansion is returned as expanded. *)
Theorem rewriteSelector_guard (selector fallbackId : value) (Random_id : string) :
  let cant_match :=
    VObj [("_id", if truthy fallbackId then fallbackId else VStr Random_id)] in
  (Array_isArray selector = true →
     _rewriteSelector selector fallbackId Random_id =
       Thrown "Mongo selector can't be an array.")
  ∧ (Array_isArray selector = false → dangerous selector = true →
     _rewriteSelector selector fallbackId Random_id = Normal cant_match)
  ∧ (dangerous selector = false → is_object (expand_shorthand selector) = true →
     _rewriteSelector selector fallbackId Random_id =
       Normal (expand_shorthand selector)).
Proof.
  intros cant_match. subst cant_match.
  unfold _rewriteSelector, dangerous, expand_shorthand.
  split; [|split].
  - intros Harr. by destruct selector.
  - intros Harr Hd. destruct selector as [| |b|n|s|items|props]; simpl in *;
      try done; by rewrite Hd.
  - intros Hd Hobj. destruct selector as [| |b|n|s|items|props]; simpl in *;
      try done; by rewrite Hd.
Qed.

(** ** The snapshot publisher: properties *)

Lemma flat_map_dispatch (collection : string) (evs : list change_event) :
  flat_map (dispatch (pub_callbacks (_publishCursor collection))) evs =
  map (forwarded collection) evs.
Proof.
  induction evs as [|ev evs IH]; [done|].
  cbn [flat_map map]. rewrite IH. by destruct ev.
Qed.

(** C7: [_publishCursor] forwards what the live query reports with exactly
    the three calls [added(collection, id, fields)], [changed(collection,
    id, fields)] and [removed(collection, id)], passing identifier and
    fields on as it received them; it observes with
    [nonMutatingCallbacks]; the only other call it makes on the
    subscription registers an [onStop] callback that stops the observe
    handle; it never calls [ready]. *)
Theorem publishCursor_forwards (collection : string)
    (initial later : list change_event) :
  let p := _publishCursor collection in
  (∀ id fields, cb_added (pub_callbacks p) id fields = [SubAdded collection id fields])
  ∧ (∀ id fields, cb_changed (pub_callbacks p) id fields = [SubChanged collection id fields])
  ∧ (∀ id, cb_removed (pub_callbacks p) id = [SubRemoved collection id])
  ∧ nonMutatingCallbacks (pub_options p) = true
  ∧ pub_sub_calls p = [SubOnStop [HandleStop]]
  ∧ subscription_trace collection initial later =
      (map (forwarded collection) initial
       ++ [SubOnStop [HandleStop]]
       ++ map (forwarded collection) later)%list
  ∧ SubReady ∉ subscription_trace collection initial later.
Proof.
  intros p. subst p. repeat split.
  - unfold subscription_trace. by rewrite !flat_map_dispatch.
  - unfold subscription_trace. rewrite !flat_map_dispatch.
    rewrite !elem_of_app, !list_elem_of_fmap. simpl.
    intros [(ev & Hev & _) | [Hs | (ev & Hev & _)]].
    + by destruct ev.
    + apply list_elem_of_singleton in Hs. discriminate.
    + by destruct ev.
Qed.

(** ** Registering the store: properties *)

(** C8: when registering the store yields a falsy result, directly or as
    the value of a resolved promise, the setup logs the message [There is
    already a collection named ...] once, with [console.warn] when there is
    one, and settles without an error; when the result is truthy it logs
    nothing. *)
Theorem registration_conflict_is_logged
    (isClient console_has_warn : bool) (conn : connection) (name : string)
    (ok : value) :
  registration isClient conn name = Some (PlainResult ok)
  ∨ registration isClient conn name = Some (PromiseResult (Resolved ok)) →
  _maybeSetUpReplication isClient console_has_warn (Some conn) name =
    (if truthy ok then []
     else [if console_has_warn
           then ConsoleWarn (already_a_collection name)
           else ConsoleLog (already_a_collection name)],
     Normal tt).
Proof.
  unfold registration, _maybeSetUpReplication, logWarn.
  destruct (registerStoreClient conn) as [rc|], (registerStoreServer conn) as [rs|];
    intros [H|H]; try discriminate; injection H as ->;
    by destruct (truthy ok), console_has_warn.
Qed.

(** ** Further properties of the stores *)

(** X1: in a client the store absorbs every protocol violation: an update
    raises an error only for a message whose kind is none of [replace],
    [added], [removed], [changed], and for an [added] or [changed] message
    without a field set when the document is there (the [TypeError] of
    [Object.keys(undefined)]). *)
Theorem client_soft_update_throws_iff
    (idParse : string -> string) (EJSON_equals : looked_up -> value -> bool)
    (m : message) (c : collection) :
  throws (wrappedStoreClient_update idParse EJSON_equals true m c) ↔
    (msg_msg m ≠ "replace" ∧ msg_msg m ≠ "added" ∧
     msg_msg m ≠ "removed" ∧ msg_msg m ≠ "changed")
    ∨ ((msg_msg m = "added" ∨ msg_msg m = "changed")
       ∧ is_Some (_docs c !! VStr (idParse (msg_id m)))
       ∧ msg_fields m = None).
Proof.
  rewrite client_update_soft. unfold soft_merge. run_store.
  destruct (_docs c !! VStr (idParse (msg_id m))) as [doc|] eqn:Hdoc;
    destruct (msg_fields m) as [fs|] eqn:Hfs;
    by_kind m; settle; repeat (case_match; settle);
    split; intros Hyp; try done;
    try (by exfalso; destruct_or?; destruct_and?; destruct_or?;
         first [ congruence
               | match goal with H : is_Some None |- _ => by destruct H end ]);
    eauto 10.
Qed.

(** X2: soft mode only adds to strict mode: whenever the strict rules
    accept a message the client store, in a client, does exactly what the
    server store does. *)
Theorem soft_update_extends_strict
    (idParse : string -> string) (EJSON_equals : looked_up -> value -> bool)
    (m : message) (c : collection) :
  ¬ throws (wrappedStoreServer_update idParse EJSON_equals m c) →
  wrappedStoreClient_update idParse EJSON_equals true m c =
  wrappedStoreServer_update idParse EJSON_equals m c.
Proof.
  rewrite client_update_soft. unfold soft_merge. run_store.
  destruct (_docs c !! VStr (idParse (msg_id m))) as [doc|] eqn:Hdoc;
    by_kind m; settle; repeat (case_match; settle);
    intros Hyp; try done; by destruct Hyp.
Qed.

Lemma quiet_step_return (c : collection) : quiet_step c (Return tt c).
Proof.
  split; [done|]. exists []. rewrite app_nil_r.
  repeat split; [simpl; lia | apply not_elem_of_nil | apply not_elem_of_nil].
Qed.

Lemma server_update_quiet
    (idParse : string -> string) (EJSON_equals : looked_up -> value -> bool)
    (m : message) (c : collection) :
  quiet_step c (wrappedStoreServer_update idParse EJSON_equals m c).
Proof.
  run_store.
  destruct (_docs c !! VStr (idParse (msg_id m))) as [doc|] eqn:Hdoc;
    by_kind m; settle; repeat (case_match; settle);
    first
      [ done
      | apply quiet_step_return
      | split; [done|]; eexists; split; [reflexivity|]; simpl;
        repeat split; [lia | |]; rewrite list_elem_of_singleton; congruence ].
Qed.

(** X3: one update, in either store and whatever the message, makes at most
    one call on the table, never pauses or resumes observers, and when it
    raises an error it has made no call and left the table as it was. *)
Theorem update_is_a_quiet_step
    (idParse : string -> string) (EJSON_equals : looked_up -> value -> bool)
    (isClient : bool) (m : message) (c : collection) :
  quiet_step c (wrappedStoreServer_update idParse EJSON_equals m c)
  ∧ quiet_step c (wrappedStoreClient_update idParse EJSON_equals isClient m c).
Proof.
  split; [apply server_update_quiet|].
  destruct isClient; [|rewrite client_update_strict; apply server_update_quiet].
  rewrite client_update_soft.
  destruct (soft_merge true (_docs c !! VStr (idParse (msg_id m))) m) as [m'|];
    [apply server_update_quiet | apply quiet_step_return].
Qed.

(** ** Further properties of the modifier *)

(** X4: every entry of the modifier computed for a [changed] message comes
    from the message: a [$set] entry carries the defined value the message
    gives that field, an [$unset] entry is [1] for a field the message
    gives as [undefined], in both cases the value differs from the
    current one and the field is not [__proto__], and no field is both set
    and unset. *)
Theorem changed_modifier_entries_from_message
    (EJSON_equals : looked_up -> value -> bool) (doc : document) (fs : obj) :
  (∀ key v, set_entry (changed_modifier EJSON_equals doc fs) key = Some v →
     fs !! key = Some v ∧ v ≠ VUndefined
     ∧ EJSON_equals (doc_get doc key) v = false
     ∧ unset_entry (changed_modifier EJSON_equals doc fs) key = None
     ∧ key ≠ "__proto__")
  ∧ (∀ key v, unset_entry (changed_modifier EJSON_equals doc fs) key = Some v →
     v = VNum 1 ∧ fs !! key = Some VUndefined
     ∧ EJSON_equals (doc_get doc key) VUndefined = false
     ∧ set_entry (changed_modifier EJSON_equals doc fs) key = None
     ∧ key ≠ "__proto__").
Proof.
  split; intros key v;
    rewrite changed_modifier_set_entry, changed_modifier_unset_entry;
    unfold differs, js_get;
    destruct (fs !! key) as [w|] eqn:Hw; simpl; try done;
    destruct (EJSON_equals (doc_get doc key) w) eqn:Heq; simpl; try done;
    destruct (String.eqb_spec key "__proto__") as [|Hproto];
    rewrite ?andb_false_r; simpl; try done;
    destruct w; simpl; try done; intros [= <-]; done.
Qed.

Lemma modifier_step_operators_nonempty
    (EJSON_equals : looked_up -> value -> bool) (doc : document) (fs : obj)
    (acc : modifier) (key : string) :
  key ≠ "__proto__" →
  operators_nonempty acc →
  operators_nonempty (modifier_step EJSON_equals doc fs acc key).
Proof.
  intros Hproto [Hset Hunset]. unfold modifier_step, operators_nonempty, js_assign.
  destruct (String.eqb_spec key "__proto__") as [|_]; [done|].
  destruct (EJSON_equals _ _); [done|].
  destruct (is_undefined _); simpl; (split; [|]); try done;
    intros [= H]; by apply insert_non_empty in H.
Qed.

Lemma foldl_modifier_operators_nonempty
    (EJSON_equals : looked_up -> value -> bool) (doc : document) (fs : obj)
    (l : list string) (acc : modifier) :
  "__proto__" ∉ l →
  operators_nonempty acc →
  operators_nonempty (foldl (modifier_step EJSON_equals doc fs) acc l).
Proof.
  revert acc. induction l as [|x l IH]; intros acc Hl Hacc; cbn [foldl]; [done|].
  apply not_elem_of_cons in Hl as [Hx Hl].
  apply IH; [done|]. apply modifier_step_operators_nonempty; [congruence | done].
Qed.

(** X5: for a message whose field set has no field [__proto__], the
    modifier of a [changed] message never holds an empty operator: [$set]
    and [$unset] are each either missing or hold at least one field.  (An
    assignment to [__proto__] adds no field, so that a message whose only
    differing field is [__proto__] yields the modifier [{ $set: {} }].) *)
Theorem changed_modifier_operators_nonempty
    (EJSON_equals : looked_up -> value -> bool) (doc : document) (fs : obj) :
  fs !! "__proto__" = None →
  operators_nonempty (changed_modifier EJSON_equals doc fs)
  ∧ (∀ o, mod_set (changed_modifier EJSON_equals doc fs) = Some o →
          ∃ key v, o !! key = Some v)
  ∧ (∀ o, mod_unset (changed_modifier EJSON_equals doc fs) = Some o →
          ∃ key v, o !! key = Some v).
Proof.
  intros Hproto.
  assert (operators_nonempty (changed_modifier EJSON_equals doc fs)) as Hne.
  { apply foldl_modifier_operators_nonempty; [|by split].
    rewrite elem_of_Object_keys, Hproto. by intros [? ?]. }
  split; [exact Hne|]. destruct Hne as [Hset Hunset].
  split; intros o Ho; apply map_choose; intros ->; congruence.
Qed.

(** X6: a [changed] message with a field set, for an existing document,
    reaches the table exactly when one of its fields differs from what
    [doc[key]] reads: if every field equals the current one the table is
    not called, otherwise it is called once, with the computed modifier. *)
Theorem changed_calls_table_iff_differs
    (idParse : string -> string) (EJSON_equals : looked_up -> value -> bool)
    (isClient : bool) (m : message) (c : collection) (doc : document) (fs : obj) :
  msg_msg m = "changed" →
  _docs c !! VStr (idParse (msg_id m)) = Some doc →
  msg_fields m = Some fs →
  ((∀ key v, fs !! key = Some v → EJSON_equals (doc_get doc key) v = true) →
     wrappedStoreClient_update idParse EJSON_equals isClient m c = Return tt c)
  ∧ (∀ key v, fs !! key = Some v →
              EJSON_equals (doc_get doc key) v = false →
     ∃ c', wrappedStoreClient_update idParse EJSON_equals isClient m c = Return tt c'
           ∧ calls c' =
               app (calls c)
                 [CallUpdate (idParse (msg_id m))
                    (ByModifier (changed_modifier EJSON_equals doc fs))]).
Proof.
  intros Hkind Hdoc Hfs.
  rewrite (client_update_changed _ _ _ _ _ _ _ Hkind Hdoc Hfs). unfold after_changed.
  split.
  - intros Hall. by rewrite changed_modifier_of_agreeing.
  - intros key v Hv Hd.
    assert (modifier_nonempty (changed_modifier EJSON_equals doc fs) = true)
      as ->.
    { apply changed_modifier_nonempty. exists key. split; [by exists v|].
      rewrite (differs_at _ _ _ _ _ Hv). by rewrite Hd. }
    eexists. split; reflexivity.
Qed.

(** ** Convergence of [changed] *)

Lemma after_changed_agrees
    (EJSON_equals : looked_up -> value -> bool)
    (mongoId : string) (fs : obj) (c : collection) (doc doc' : document) :
  (∀ v, EJSON_equals (Held v) v = true) →
  _docs c !! VStr mongoId = Some doc →
  _docs (after_changed mongoId (changed_modifier EJSON_equals doc fs) c)
    !! VStr mongoId = Some doc' →
  ∀ key v, fs !! key = Some v → key ≠ "_id" → inherited key = false →
           EJSON_equals (doc_get doc' key) v = true.
Proof.
  intros Hrefl Hdoc Hdoc' key v Hv Hnot_id Hown.
  destruct (after_changed_document EJSON_equals mongoId fs c doc Hdoc)
    as (d & Hd & _ & Hfields).
  rewrite Hd in Hdoc'. injection Hdoc' as <-.
  specialize (Hfields key). rewrite Hv in Hfields.
  rewrite (not_inherited_not_proto _ Hown) in Hfields.
  destruct (String.eqb_spec key "_id") as [|_]; [done|].
  rewrite !andb_true_r in Hfields.
  destruct (differs EJSON_equals doc fs key) eqn:Hdiff.
  - destruct (is_undefined v) eqn:Hundef.
    + apply is_undefined_true in Hundef as ->.
      rewrite (doc_get_missing _ _ Hnot_id Hown Hfields). apply Hrefl.
    + rewrite (doc_get_own _ _ _ Hnot_id Hfields). apply Hrefl.
  - rewrite (doc_get_same_field _ _ _ Hnot_id Hfields).
    rewrite (differs_at _ _ _ _ _ Hv) in Hdiff.
    by apply negb_false_iff in Hdiff.
Qed.

(** X7: when [EJSON.equals] is reflexive, a [changed] message with a field
    set, applied to an existing document, leaves a document that agrees
    with the message on every ordinary field: every field the message
    names, other than [_id] and the names of the members of
    [Object.prototype], is afterwards equal to the value the message gave
    it. *)
Theorem changed_reaches_message
    (idParse : string -> string) (EJSON_equals : looked_up -> value -> bool)
    (isClient : bool) (m : message) (c : collection) (doc : document) (fs : obj) :
  (∀ v, EJSON_equals (Held v) v = true) →
  msg_msg m = "changed" →
  _docs c !! VStr (idParse (msg_id m)) = Some doc →
  msg_fields m = Some fs →
  ∃ c' doc',
    wrappedStoreClient_update idParse EJSON_equals isClient m c = Return tt c'
    ∧ wrappedStoreServer_update idParse EJSON_equals m c = Return tt c'
    ∧ _docs c' !! VStr (idParse (msg_id m)) = Some doc'
    ∧ ∀ key v, fs !! key = Some v → key ≠ "_id" → inherited key = false →
               EJSON_equals (doc_get doc' key) v = true.
Proof.
  intros Hrefl Hkind Hdoc Hfs.
  rewrite (client_update_changed _ _ _ _ _ _ _ Hkind Hdoc Hfs).
  rewrite (server_update_changed _ _ _ _ _ _ Hkind Hdoc Hfs).
  destruct (after_changed_document EJSON_equals _ fs c doc Hdoc)
    as (doc' & Hdoc' & _ & _).
  eexists _, doc'. split; [reflexivity|]. split; [reflexivity|].
  split; [exact Hdoc'|].
  by apply (after_changed_agrees EJSON_equals (idParse (msg_id m)) fs c doc doc').
Qed.

(** X8: when [EJSON.equals] is reflexive and the message names ordinary
    fields only, delivering the same [changed] message a second time does
    nothing: the table is not called and its contents stay as the first
    delivery left them. *)
Theorem changed_twice_is_changed_once
    (idParse : string -> string) (EJSON_equals : looked_up -> value -> bool)
    (isClient : bool) (m : message) (c c' : collection) (doc : document)
    (fs : obj) :
  (∀ v, EJSON_equals (Held v) v = true) →
  msg_msg m = "changed" →
  _docs c !! VStr (idParse (msg_id m)) = Some doc →
  msg_fields m = Some fs →
  ordinary_fields fs →
  wrappedStoreClient_update idParse EJSON_equals isClient m c = Return tt c' →
  wrappedStoreClient_update idParse EJSON_equals isClient m c' = Return tt c'.
Proof.
  intros Hrefl Hkind Hdoc Hfs Hordinary.
  rewrite (client_update_changed _ _ _ _ _ _ _ Hkind Hdoc Hfs). intros [= <-].
  destruct (after_changed_document EJSON_equals _ fs c doc Hdoc)
    as (doc' & Hdoc' & _ & _).
  rewrite (client_update_changed _ _ _ _ _ _ _ Hkind Hdoc' Hfs).
  unfold after_changed at 1.
  rewrite changed_modifier_of_agreeing; [done|].
  intros key v Hv. destruct (Hordinary key) as [Hnot_id Hown]; [by exists v|].
  by apply (after_changed_agrees EJSON_equals (idParse (msg_id m)) fs c doc doc').
Qed.

(** X9: when [EJSON.equals] is reflexive, in soft mode an [added] message
    whose field set has no field [_id] does nothing when it is delivered a
    second time: the first delivery inserted the document under the
    identifier of the message, the second finds every field equal and does
    not call the table. *)
Theorem soft_added_twice_is_added_once
    (idParse : string -> string) (EJSON_equals : looked_up -> value -> bool)
    (m : message) (c c' : collection) (fs : obj) :
  (∀ v, EJSON_equals (Held v) v = true) →
  msg_msg m = "added" →
  _docs c !! VStr (idParse (msg_id m)) = None →
  msg_fields m = Some fs →
  fs !! "_id" = None →
  wrappedStoreClient_update idParse EJSON_equals true m c = Return tt c' →
  _docs c' !! VStr (idParse (msg_id m))
    = Some (Build_document (VStr (idParse (msg_id m))) fs)
  ∧ wrappedStoreClient_update idParse EJSON_equals true m c' = Return tt c'.
Proof.
  intros Hrefl Hkind Hdoc Hfs Hid Hrun.
  assert (object_with_id (idParse (msg_id m)) (msg_fields m)
          = Build_document (VStr (idParse (msg_id m))) fs) as Hobject.
  { unfold object_with_id. rewrite Hfs. simpl. rewrite Hid. simpl.
    by rewrite delete_id. }
  rewrite client_update_soft, Hdoc, soft_merge_added_absent in Hrun by done.
  rewrite (server_update_added _ _ _ _ Hkind Hdoc) in Hrun.
  unfold added_entry in Hrun. rewrite Hobject in Hrun. simpl in Hrun.
  injection Hrun as <-. simpl. rewrite lookup_insert_eq. split; [done|].
  rewrite (client_update_added_present _ _ m _
             (Build_document (VStr (idParse (msg_id m))) fs) Hkind)
    by (simpl; apply lookup_insert_eq).
  rewrite (server_update_changed _ _ (set_msg "changed" m) _
             (Build_document (VStr (idParse (msg_id m))) fs) fs);
    [|done|simpl; apply lookup_insert_eq|done].
  unfold after_changed.
  rewrite changed_modifier_of_agreeing; [done|].
  intros key v Hv.
  assert (key ≠ "_id") as Hnot_id by (intros ->; congruence).
  rewrite (doc_get_own _ key v); [apply Hrefl | done | done].
Qed.

(** ** Messages in sequence *)

(** X10: in strict mode an [added] message whose field set has no field
    [_id], followed by a [removed] message for the same identifier,
    starting without that document, succeeds and restores the contents of
    the table; the table has been called twice, with the insert and then
    the remove. *)
Theorem added_then_removed_restores
    (idParse : string -> string) (EJSON_equals : looked_up -> value -> bool)
    (m : message) (c : collection) :
  keeps_id m →
  _docs c !! VStr (idParse (msg_id m)) = None →
  ∃ c1 c2,
    wrappedStoreServer_update idParse EJSON_equals (set_msg "added" m) c
      = Return tt c1
    ∧ wrappedStoreServer_update idParse EJSON_equals (set_msg "removed" m) c1
      = Return tt c2
    ∧ _docs c2 = _docs c
    ∧ calls c2 =
        app (calls c)
          [CallInsert (object_with_id (idParse (msg_id m)) (msg_fields m));
           CallRemove (ById (idParse (msg_id m)))].
Proof.
  intros Hkeeps Hdoc.
  rewrite (server_update_added _ _ (set_msg "added" m) c) by done.
  unfold added_entry. cbn [fst snd set_msg msg_id msg_fields].
  rewrite (object_with_id_id _ _ Hkeeps).
  eexists _, _. split; [reflexivity|].
  run_store. cbn [set_msg msg_msg msg_id with_docs record_call _docs].
  rewrite lookup_insert_eq.
  rewrite (bool_decide_eq_false_2 ("removed" = "replace")) by done.
  rewrite (bool_decide_eq_false_2 ("removed" = "added")) by done.
  rewrite (bool_decide_eq_true_2 ("removed" = "removed")) by done.
  split; [reflexivity|]. simpl.
  split; [by apply delete_insert_id | by rewrite <- app_assoc].
Qed.

Lemma added_entry_key (idParse : string -> string) (m : message) :
  keeps_id m → (added_entry idParse m).1 = VStr (idParse (msg_id m)).
Proof. intros Hkeeps. exact (object_with_id_id _ _ Hkeeps). Qed.

Lemma update_each_added
    (idParse : string -> string) (EJSON_equals : looked_up -> value -> bool)
    (msgs : list message) (c : collection) :
  Forall (fun m => msg_msg m = "added" ∧ keeps_id m) msgs →
  NoDup ((fun m => idParse (msg_id m)) <$> msgs) →
  (∀ m, m ∈ msgs → _docs c !! VStr (idParse (msg_id m)) = None) →
  ∃ c', update_each (wrappedStoreServer_update idParse EJSON_equals) msgs c
          = Return tt c'
        ∧ _docs c' = list_to_map (added_entry idParse <$> msgs) ∪ _docs c
        ∧ paused c' = paused c.
Proof.
  revert c. induction msgs as [|m msgs IH]; intros c Hkinds Hnodup Habsent.
  - exists c. split; [done|]. split; [|done].
    simpl. by rewrite (left_id_L ∅ (∪)).
  - apply Forall_cons in Hkinds as [[Hkind Hkeeps] Hkinds].
    rewrite fmap_cons in Hnodup. apply NoDup_cons in Hnodup as [Hfresh Hnodup].
    assert (_docs c !! VStr (idParse (msg_id m)) = None) as Hm
      by (apply Habsent, list_elem_of_here).
    cbn [update_each foldr]. unfold mbind, M_bind at 1.
    rewrite (server_update_added _ _ _ _ Hkind Hm).
    destruct (IH (with_docs (insert (added_entry idParse m).1 (added_entry idParse m).2)
                    (record_call (CallInsert (added_entry idParse m).2) c))
                Hkinds Hnodup) as (c' & Hrun & Hdocs & Hpaused).
    { intros m' Hm'. cbn [with_docs record_call _docs].
      rewrite (added_entry_key _ _ Hkeeps), lookup_insert_ne.
      - apply Habsent. by apply list_elem_of_further.
      - intros [= Heq]. apply Hfresh. rewrite Heq.
        apply list_elem_of_fmap. by exists m'. }
    exists c'. split; [exact Hrun|]. split; [|exact Hpaused].
    rewrite Hdocs. cbn [with_docs record_call _docs].
    rewrite fmap_cons. cbn [list_to_map foldr].
    transitivity (<[(added_entry idParse m).1 := (added_entry idParse m).2]>
                    (list_to_map (added_entry idParse <$> msgs) ∪ _docs c)).
    + symmetry. apply insert_union_r. apply not_elem_of_list_to_map_1.
      rewrite <- list_fmap_compose. rewrite (added_entry_key _ _ Hkeeps).
      intros Hin. apply list_elem_of_fmap in Hin as (m' & Hkey & Hm').
      apply Hfresh. apply list_elem_of_fmap. exists m'. split; [|done].
      simpl in Hkey. rewrite Forall_forall in Hkinds.
      destruct (Hkinds m' Hm') as [_ Hkeeps'].
      pose proof (added_entry_key idParse m' Hkeeps') as Hkey'.
      simpl in Hkey'. congruence.
    + by rewrite insert_union_l.
Qed.

(** X11: a batch with [reset] whose messages are [added] messages for
    distinct identifiers, none with a field [_id] in its field set,
    succeeds whatever the table held before, leaves exactly the documents
    of the messages in the table, and ends with observers resumed. *)
Theorem reset_and_replay
    (idParse : string -> string) (EJSON_equals : looked_up -> value -> bool)
    (msgs : list message) (c : collection) :
  Forall (fun m => msg_msg m = "added" ∧ keeps_id m) msgs →
  NoDup ((fun m => idParse (msg_id m)) <$> msgs) →
  ∃ c', server_batch idParse EJSON_equals true msgs c = Return tt c'
        ∧ _docs c' = list_to_map (added_entry idParse <$> msgs)
        ∧ paused c' = false.
Proof.
  intros Hkinds Hnodup. unfold server_batch, mbind, M_bind.
  change (wrappedStoreServer_beginUpdate ?n ?r c)
    with (wrappedStoreClient_beginUpdate n r c).
  rewrite beginUpdate_outcome. cbv beta iota.
  match goal with
  | |- context [update_each _ _ ?c0] =>
      destruct (update_each_added idParse EJSON_equals msgs c0 Hkinds Hnodup)
        as (c' & Hrun & Hdocs & Hpaused); [by intros|]
  end.
  rewrite Hrun.
  eexists. split; [reflexivity|]. simpl.
  split; [|done]. rewrite Hdocs. simpl. by rewrite (right_id_L ∅ (∪)).
Qed.

(** X29: the document an [added] message inserts in strict mode is
    [{ _id: mongoId, ...fields }]: the store makes one call on the table,
    [insert] with that document; the document carries the identifier of the
    message unless the field set has a field [_id], whose value is then the
    identifier of the document (so that it is inserted under another
    identifier than the one the store looked up), and it holds every other
    field of the message. *)
Theorem added_inserts_spread
    (idParse : string -> string) (EJSON_equals : looked_up -> value -> bool)
    (m : message) (c : collection) :
  msg_msg m = "added" →
  _docs c !! VStr (idParse (msg_id m)) = None →
  let inserted := object_with_id (idParse (msg_id m)) (msg_fields m) in
  (∃ c', wrappedStoreServer_update idParse EJSON_equals m c = Return tt c'
         ∧ calls c' = app (calls c) [CallInsert inserted])
  ∧ doc_id inserted = default (VStr (idParse (msg_id m))) (fields_of m !! "_id")
  ∧ (∀ key, key ≠ "_id" → doc_fields inserted !! key = fields_of m !! key)
  ∧ (fields_of m !! "_id" = None → doc_id inserted = VStr (idParse (msg_id m)))
  ∧ (∀ v, fields_of m !! "_id" = Some v → doc_id inserted = v).
Proof.
  intros Hkind Hdoc inserted.
  rewrite (server_update_added _ _ _ _ Hkind Hdoc).
  split; [by eexists|]. split; [done|]. split; [|split].
  - intros key Hne. subst inserted. rewrite object_with_id_fields.
    by destruct (String.eqb_spec key "_id").
  - apply object_with_id_id.
  - intros v Hv. subst inserted. unfold object_with_id. simpl.
    unfold fields_of in Hv. by rewrite Hv.
Qed.

(** ** Further properties of the selector guard *)

Lemma rewriteSelector_result (selector fallbackId : value) (Random_id : string)
    (r : value) :
  Random_id ≠ EmptyString →
  _rewriteSelector selector fallbackId Random_id = Normal r →
  is_object r = true ∧ dangerous r = false.
Proof.
  intros Hrandom. unfold _rewriteSelector.
  assert (dangerous (VObj [("_id", if truthy fallbackId then fallbackId
                                   else VStr Random_id)]) = false) as Hsafe.
  { unfold dangerous, expand_shorthand. simpl.
    destruct (truthy fallbackId) eqn:Hf; simpl; [by rewrite Hf|].
    destruct Random_id; [done | reflexivity]. }
  destruct selector as [| |b|n|s|items|props]; simpl;
    try (intros [= <-]; by split); try done.
  - destruct b; simpl; [done | intros [= <-]; by split].
  - destruct (negb (n =? 0)) eqn:Hn; simpl; intros [= <-]; (split; [done|]);
      [|exact Hsafe].
    unfold dangerous, expand_shorthand. simpl. by rewrite Hn.
  - destruct (negb (s =? EmptyString)%string) eqn:Hs; simpl; intros [= <-];
      (split; [done|]); [|exact Hsafe].
    unfold dangerous, expand_shorthand. simpl. by rewrite Hs.
  - destruct (bool_decide (is_Some (own_property props "_id"))
              && negb (truthy (default VUndefined (own_property props "_id"))))
      eqn:Hd; intros [= <-]; (split; [done|]); [exact Hsafe|].
    unfold dangerous, expand_shorthand. simpl. exact Hd.
Qed.

Lemma rewriteSelector_of_safe (r fallbackId : value) (Random_id : string) :
  is_object r = true → dangerous r = false →
  _rewriteSelector r fallbackId Random_id = Normal r.
Proof.
  destruct r; try done. intros _. unfold dangerous, expand_shorthand,
    _rewriteSelector. simpl. by intros ->.
Qed.

(** X13: when [Random.id()] returns a non-empty string, whatever
    [_rewriteSelector] returns is an object selector that either has no
    [_id] field or has a truthy one: it never returns a falsy selector, an
    array, or a selector with a falsy [_id]. *)
Theorem rewriteSelector_returns_safe_selector
    (selector fallbackId : value) (Random_id : string) (r : value) :
  Random_id ≠ EmptyString →
  _rewriteSelector selector fallbackId Random_id = Normal r →
  ∃ props, r = VObj props
    ∧ (own_property props "_id" = None
       ∨ ∃ id, own_property props "_id" = Some id ∧ truthy id = true).
Proof.
  intros Hrandom Hrun.
  destruct (rewriteSelector_result _ _ _ _ Hrandom Hrun) as [Hobj Hsafe].
  destruct r as [| | | | | |props]; try done. exists props. split; [done|].
  unfold dangerous, expand_shorthand in Hsafe. simpl in Hsafe.
  destruct (own_property props "_id") as [id|]; [right|by left].
  exists id. split; [done|]. simpl in Hsafe.
  by destruct (truthy id).
Qed.

(** X14: [_rewriteSelector] is idempotent: when [Random.id()] returns a
    non-empty string, a selector it returned is returned unchanged if it
    is passed through the guard again, whatever the fallback identifier of
    the second call. *)
Theorem rewriteSelector_idempotent
    (selector fallbackId fallbackId' : value) (Random_id Random_id' : string)
    (r : value) :
  Random_id ≠ EmptyString →
  _rewriteSelector selector fallbackId Random_id = Normal r →
  _rewriteSelector r fallbackId' Random_id' = Normal r.
Proof.
  intros Hrandom Hrun.
  destruct (rewriteSelector_result _ _ _ _ Hrandom Hrun) as [Hobj Hsafe].
  by apply rewriteSelector_of_safe.
Qed.

(** ** The constructor *)

Lemma same_connection_refl (r : js_ref connection_object) :
  same_connection r r = true.
Proof. destruct r; simpl; [done | done | apply Nat.eqb_refl]. Qed.

(** The name the constructor works with after its first two tests. *)
Lemma Collection_checked_name (name : value) :
  checked_name (if negb (truthy name) && negb (is_null name) then VNull else name) =
    match name with
    | VStr s => if String.eqb s EmptyString then Some None else Some (Some s)
    | VUndefined | VNull => Some None
    | VBool b => if b then None else Some None
    | VNum n => if (n =? 0)%Z then Some None else None
    | VArr _ | VObj _ => None
    end.
Proof.
  destruct name as [| |b|n|s|items|props]; simpl; try done.
  - by destruct b.
  - by destruct (n =? 0)%Z.
  - by destruct (String.eqb s EmptyString).
Qed.

Lemma Collection_warned
    (env : environment) (collections : registry)
    (name : value) (options : constructor_argument) :
  (Collection env collections name options).1 =
    negb (truthy name) && negb (is_null name).
Proof. unfold Collection. by repeat case_match. Qed.

(** X15: the constructor accepts [null] or a string as a name: it throws
    [First argument to new Mongo.Collection must be a string or null] for
    every truthy name that is not a string, it warns exactly for the falsy
    names other than [null], and when it succeeds [_name] is the given
    string if that is non-empty and [null] for every falsy name. *)
Theorem Collection_name
    (env : environment) (collections : registry)
    (name : value) (options : constructor_argument) :
  ((Collection env collections name options).1 = true ↔
     truthy name = false ∧ name ≠ VNull)
  ∧ (truthy name = true → (∀ s, name ≠ VStr s) →
     (Collection env collections name options).2 =
       Thrown "First argument to new Mongo.Collection must be a string or null")
  ∧ (∀ built collections',
       (Collection env collections name options).2 = Normal (built, collections') →
       _name (constructed built) =
         match name with
         | VStr s => if String.eqb s EmptyString then None else Some s
         | _ => None
         end).
Proof.
  split; [|split].
  - rewrite Collection_warned.
    destruct name as [| |b|n|s|items|props]; simpl;
      [ | | destruct b | destruct (n =? 0)%Z
      | destruct (String.eqb s EmptyString) | | ];
      simpl; split; first [ by intros [? ?] | by intros; split | done ].
  - intros Htruthy Hnot. unfold Collection.
    rewrite Collection_checked_name.
    destruct name as [| |b|n|s|items|props]; simpl in *; try done.
    + by rewrite Htruthy.
    + apply negb_true_iff in Htruthy. by rewrite Htruthy.
    + by destruct (Hnot s).
  - intros built collections'. unfold Collection.
    rewrite Collection_checked_name.
    destruct name as [| |b|n|s|items|props]; simpl;
      intros Hrun; repeat case_match; by simplify_eq/=.
Qed.

(** What a successful construction built, from the checked name and the
    normalized options. *)
Lemma Collection_success
    (env : environment) (collections : registry)
    (name : value) (options : constructor_argument)
    (built : construction) (collections' : registry) :
  (Collection env collections name options).2 = Normal (built, collections') →
  ∃ n, checked_name (if negb (truthy name) && negb (is_null name)
                     then VNull else name) = Some n
    ∧ define_mutation_methods env n (normalize_options options) = Normal tt
    ∧ _name (constructed built) = n
    ∧ _connection (constructed built) =
        choose_connection env n (normalize_options options)
    ∧ choose_driver env n (normalize_options options)
        (choose_connection env n (normalize_options options))
      = Normal (_driver (constructed built))
    ∧ _makeNewID_stream (constructed built) =
        (if name_truthy n then Some ("/collection/" ++ name_text n) else None)
    ∧ replication built =
        _maybeSetUpReplication (Meteor_isClient env) (console_warn env)
          (store_of (choose_connection env n (normalize_options options)))
          (name_text n)
    ∧ autopublished built =
        autopublishes env (normalize_options options)
          (choose_connection env n (normalize_options options))
    ∧ collections' = <[n := constructed built]> collections
    ∧ driver_open env (_driver (constructed built)) n
        (choose_connection env n (normalize_options options)) = Normal tt.
Proof.
  unfold Collection.
  destruct (checked_name _) as [n|]; [|done].
  destruct (choose_driver env n (normalize_options options) _)
    as [d|e] eqn:Hdriver; [|done].
  destruct (driver_open env d n _) as [[]|e] eqn:Hopen; [|done].
  destruct (define_mutation_methods env n (normalize_options options))
    as [[]|e] eqn:Hdefined; [|done].
  simpl. intros [= <- <-]. by exists n.
Qed.

Lemma checked_name_falsy (name : value) (n : option string) :
  truthy name = false →
  checked_name (if negb (truthy name) && negb (is_null name)
                then VNull else name) = Some n →
  n = None.
Proof.
  rewrite Collection_checked_name.
  destruct name as [| |b|n0|s|items|props]; simpl; try done;
    intros Hf; try (by intros [= <-]).
  - rewrite Hf. by intros [= <-].
  - apply negb_false_iff in Hf. rewrite Hf. by intros [= <-].
  - apply negb_false_iff in Hf. rewrite Hf. by intros [= <-].
Qed.

(** X16: a collection constructed with a falsy name is anonymous and
    local, whatever the options say: [_name] is [null], it has no
    connection even when [options.connection] gives one, so no store is
    registered and nothing is logged or published, it is not a remote
    collection, its identifiers come from [Random.insecure], and unless a
    driver is supplied it uses the [LocalCollectionDriver]. *)
Theorem anonymous_collection_is_local
    (env : environment) (collections : registry)
    (name : value) (options : constructor_argument)
    (built : construction) (collections' : registry) :
  truthy name = false →
  (Collection env collections name options).2 = Normal (built, collections') →
  _name (constructed built) = None
  ∧ _connection (constructed built) = RefNull
  ∧ replication built = ([], Normal tt)
  ∧ autopublished built = false
  ∧ _isRemoteCollection env (constructed built) = false
  ∧ _makeNewID_stream (constructed built) = None
  ∧ (opt__driver (normalize_options options) = None →
     _driver (constructed built) = LocalCollectionDriver).
Proof.
  intros Hfalsy Hrun.
  destruct (Collection_success _ _ _ _ _ _ Hrun)
    as (n & Hn & _ & Hname & Hconn & Hdriver & Hstream & Hrepl & Hpub & _).
  apply (checked_name_falsy _ _ Hfalsy) in Hn. subst n.
  unfold _isRemoteCollection.
  rewrite Hname, Hconn, Hstream, Hrepl, Hpub.
  unfold choose_connection, choose_driver, autopublishes in *. simpl in *.
  repeat split; try done.
  - by rewrite andb_false_r.
  - intros Hnone. rewrite Hnone in Hdriver. by injection Hdriver as <-.
Qed.

(** X17: when the constructor reaches [_defineMutationMethods] (the name is
    [null] or a string, the driver is chosen and opens, and
    [defineMutationMethods] is not [false]) and that call throws, the
    constructor throws: [There is already a collection named ...] exactly
    when the message of the error is [A method named '/name/insertAsync' is
    already defined], and the error unchanged otherwise; with
    [defineMutationMethods] set to [false] the call is not made and the
    step ends normally. *)
Theorem Collection_rethrows_mutation_error
    (env : environment) (collections : registry)
    (name : value) (options : constructor_argument)
    (n : option string) (d : driver) :
  checked_name (if negb (truthy name) && negb (is_null name)
                then VNull else name) = Some n →
  choose_driver env n (normalize_options options)
    (choose_connection env n (normalize_options options)) = Normal d →
  driver_open env d n (choose_connection env n (normalize_options options))
    = Normal tt →
  (∀ e0,
     is_false (opt_defineMutationMethods (normalize_options options)) = false →
     _defineMutationMethods env n
       (is_true (opt__suppressSameNameError (normalize_options options)))
     = Thrown e0 →
     (Collection env collections name options).2 =
       Thrown (if String.eqb e0 (method_already_defined n)
               then already_a_collection (name_text n) else e0))
  ∧ (is_false (opt_defineMutationMethods (normalize_options options)) = true →
     define_mutation_methods env n (normalize_options options) = Normal tt).
Proof.
  intros Hn Hdriver Hopen. unfold Collection.
  rewrite Hn, Hdriver, Hopen. unfold define_mutation_methods. split.
  - intros e0 Hoff Hdef. rewrite Hoff, Hdef.
    by destruct (String.eqb e0 _).
  - by intros ->.
Qed.

(** X18: a successful construction registers the collection under its
    name: afterwards [Mongo.getCollection] returns it for that name, so
    that a later collection of the same name replaces an earlier one, and
    returns what it returned before for every other name. *)
Theorem construction_registers
    (env : environment) (collections : registry)
    (name : value) (options : constructor_argument)
    (built : construction) (collections' : registry) :
  (Collection env collections name options).2 = Normal (built, collections') →
  getCollection collections' (_name (constructed built)) = Some (constructed built)
  ∧ ∀ other, other ≠ _name (constructed built) →
             getCollection collections' other = getCollection collections other.
Proof.
  intros Hrun.
  destruct (Collection_success _ _ _ _ _ _ Hrun)
    as (n & _ & _ & Hname & _ & _ & _ & _ & _ & -> & _).
  unfold getCollection. rewrite Hname. split.
  - apply lookup_insert_eq.
  - intros other Hother. by apply lookup_insert_ne.
Qed.

Lemma checked_name_string (s : string) :
  s ≠ EmptyString →
  checked_name (if negb (truthy (VStr s)) && negb (is_null (VStr s))
                then VNull else VStr s) = Some (Some s)
  ∧ name_truthy (Some s) = true.
Proof.
  intros Hs. rewrite Collection_checked_name. unfold name_truthy.
  destruct (String.eqb_spec s EmptyString); [done|]. by split.
Qed.

(** X19: on the server, a named collection constructed without a
    connection (and without a manager) is attached to [Meteor.server]: it
    is not a remote collection and, when no driver is supplied and
    [MongoInternals.defaultRemoteCollectionDriver] exists, it uses that
    driver. *)
Theorem server_collection_uses_Meteor_server
    (env : environment) (collections : registry)
    (s : string) (options : constructor_argument)
    (built : construction) (collections' : registry) :
  s ≠ EmptyString →
  Meteor_isClient env = false →
  opt_connection (normalize_options options) = RefUndefined →
  (Collection env collections (VStr s) options).2 = Normal (built, collections') →
  _connection (constructed built) = Meteor_server env
  ∧ _isRemoteCollection env (constructed built) = false
  ∧ (opt__driver (normalize_options options) = None →
     MongoInternals_defaultRemoteCollectionDriver env = true →
     _driver (constructed built) = DefaultRemoteCollectionDriver).
Proof.
  intros Hs Hserver Hnone Hrun.
  destruct (Collection_success _ _ _ _ _ _ Hrun)
    as (n & Hn & _ & _ & Hconn & Hdriver & _).
  destruct (checked_name_string s Hs) as [Hchecked Htruthy].
  rewrite Hchecked in Hn. injection Hn as <-.
  assert (choose_connection env (Some s) (normalize_options options)
          = Meteor_server env) as Hchosen.
  { unfold choose_connection. by rewrite Htruthy, Hnone, Hserver. }
  rewrite Hchosen in *. unfold _isRemoteCollection. rewrite Hconn.
  split; [done|]. split.
  - by rewrite same_connection_refl, andb_false_r.
  - intros Hnodriver Hinternals. unfold choose_driver in Hdriver.
    rewrite Hnodriver, Htruthy, same_connection_refl, Hinternals in Hdriver.
    simpl in Hdriver.
    destruct (defaultRemoteCollectionDriver_call env); [|done].
    by injection Hdriver as <-.
Qed.

(** X20: a named collection constructed with a connection object that is
    not [Meteor.server] keeps that connection, is a remote collection,
    starts the store registration on that connection, and, when no driver
    is supplied, uses the [LocalCollectionDriver]. *)
Theorem connected_collection_is_remote
    (env : environment) (collections : registry)
    (s : string) (options : constructor_argument) (conn : connection_object)
    (built : construction) (collections' : registry) :
  s ≠ EmptyString →
  opt_connection (normalize_options options) = Ref conn →
  same_connection (Ref conn) (Meteor_server env) = false →
  (Collection env collections (VStr s) options).2 = Normal (built, collections') →
  _connection (constructed built) = Ref conn
  ∧ _isRemoteCollection env (constructed built) = true
  ∧ replication built =
      _maybeSetUpReplication (Meteor_isClient env) (console_warn env)
        (Some (conn_store conn)) s
  ∧ (opt__driver (normalize_options options) = None →
     _driver (constructed built) = LocalCollectionDriver).
Proof.
  intros Hs Hgiven Hother Hrun.
  destruct (Collection_success _ _ _ _ _ _ Hrun)
    as (n & Hn & _ & _ & Hconn & Hdriver & _ & Hrepl & _).
  destruct (checked_name_string s Hs) as [Hchecked Htruthy].
  rewrite Hchecked in Hn. injection Hn as <-.
  assert (choose_connection env (Some s) (normalize_options options)
          = Ref conn) as Hchosen.
  { unfold choose_connection. by rewrite Htruthy, Hgiven. }
  rewrite Hchosen in *. unfold _isRemoteCollection. rewrite Hconn, Hrepl.
  split; [done|]. split; [by rewrite Hother|]. split; [done|].
  intros Hnodriver. unfold choose_driver in Hdriver.
  rewrite Hnodriver, Hother, andb_false_r in Hdriver. simpl in Hdriver.
  by injection Hdriver as <-.
Qed.

(** ** Index management: properties *)

(** X21: [ensureIndexAsync] never reaches the underlying
    [ensureIndexAsync] and never logs its deprecation: it throws, without
    touching the underlying collection, unless that collection has both
    [ensureIndexAsync] and [createIndexAsync], and then it calls
    [createIndexAsync] once and ends as that call ends. *)
Theorem ensureIndexAsync_only_creates {B : Type}
    (backend : index_backend B) (deprecation : string) (b : B) :
  (BackendEnsureIndex ∉ (ensureIndexAsync backend deprecation b).2)
  ∧ (∀ message, LogDebug message ∉ (ensureIndexAsync backend deprecation b).2)
  ∧ (backend_ensureIndexAsync backend = None
     ∨ backend_createIndexAsync backend = None →
     ensureIndexAsync backend deprecation b =
       (Thrown "Can only call createIndexAsync on server collections", b, []))
  ∧ (∀ create, is_Some (backend_ensureIndexAsync backend) →
       backend_createIndexAsync backend = Some create →
       ensureIndexAsync backend deprecation b = (create b, [BackendCreateIndex])).
Proof.
  unfold ensureIndexAsync.
  destruct (backend_ensureIndexAsync backend) as [ensure|],
           (backend_createIndexAsync backend) as [create|]; simpl;
    repeat split;
    try apply not_elem_of_nil;
    try (intros; apply not_elem_of_nil);
    try (rewrite list_elem_of_singleton; congruence);
    try (intros; rewrite list_elem_of_singleton; congruence);
    try (by intros [|]); try (by intros ? [? ?]); try (by intros ? _ [= <-]);
    try done.
Qed.

(** X22: [createIndexAsync] drops an index only to re-create it: the
    underlying [dropIndexAsync] is called only when the setting
    [reCreateIndexOnOptionMismatch] is on and the first creation failed
    with the option-mismatch message; with the setting off a failed
    creation is reported with [console.error] and rethrown as [An error
    occurred when creating an index ...], leaving the index alone. *)
Theorem createIndexAsync_drops_only_on_mismatch {B : Type}
    (backend : index_backend B) (reCreateIndexOnOptionMismatch : bool)
    (index name : string) (b : B) :
  (BackendDropIndex ∈
     (createIndexAsync backend reCreateIndexOnOptionMismatch index name b).2 →
   reCreateIndexOnOptionMismatch = true
   ∧ ∃ create e b1, backend_createIndexAsync backend = Some create
                    ∧ create b = (Thrown e, b1)
                    ∧ includes option_mismatch e = true)
  ∧ (∀ create e b1,
       reCreateIndexOnOptionMismatch = false →
       backend_createIndexAsync backend = Some create →
       create b = (Thrown e, b1) →
       createIndexAsync backend reCreateIndexOnOptionMismatch index name b =
         (Thrown ("An error occurred when creating an index for collection "
                  ++ double_quote ++ name ++ ": " ++ e),
          b1, [BackendCreateIndex; ConsoleError e])).
Proof.
  unfold createIndexAsync. split.
  - destruct (backend_createIndexAsync backend) as [create|]; simpl;
      [|by intros ?%not_elem_of_nil].
    destruct (create b) as [[[]|e] b1] eqn:Hcreate; simpl.
    { rewrite list_elem_of_singleton. congruence. }
    destruct (includes option_mismatch e) eqn:Hinc,
             reCreateIndexOnOptionMismatch; simpl;
      [ intros _; split; [done|]; by exists create, e, b1
      | intros Hin .. ];
      apply elem_of_cons in Hin as [?|Hin]; try done;
      apply list_elem_of_singleton in Hin; done.
  - intros create e b1 -> -> ->. by rewrite andb_false_r.
Qed.

(** ** Registering the store: what it never does *)

(** X23: the store registration logs nothing but its one message and at
    most once, it logs nothing at all when the connection is missing or
    lacks a registration method, and it fails only when the registration
    promise is rejected or the registration call throws, with that error
    and without logging. *)
Theorem maybeSetUpReplication_effects
    (isClient console_has_warn : bool) (conn : option connection)
    (name : string) :
  ((_maybeSetUpReplication isClient console_has_warn conn name).1 = []
   ∨ (_maybeSetUpReplication isClient console_has_warn conn name).1
     = logWarn console_has_warn (already_a_collection name))
  ∧ ((∀ c, conn = Some c → registration isClient c name = None) →
     _maybeSetUpReplication isClient console_has_warn conn name = ([], Normal tt))
  ∧ (∀ e, (_maybeSetUpReplication isClient console_has_warn conn name).2 = Thrown e →
       (_maybeSetUpReplication isClient console_has_warn conn name).1 = []
       ∧ ∃ c, conn = Some c
              ∧ (registration isClient c name = Some (PromiseResult (Rejected e))
                 ∨ registration isClient c name = Some (RegisterThrows e)))
  ∧ (∀ c e, conn = Some c →
       registration isClient c name = Some (PromiseResult (Rejected e))
       ∨ registration isClient c name = Some (RegisterThrows e) →
       _maybeSetUpReplication isClient console_has_warn conn name = ([], Thrown e)).
Proof.
  split; [|split; [|split]].
  - unfold _maybeSetUpReplication.
    repeat case_match; simpl; first [ by left | by right ].
  - intros Hnone. unfold _maybeSetUpReplication.
    destruct conn as [c|]; [|done].
    specialize (Hnone c eq_refl). unfold registration in Hnone.
    by repeat case_match.
  - intros e. unfold _maybeSetUpReplication, registration.
    destruct conn as [c|]; [|done].
    destruct (registerStoreClient c) as [rc|] eqn:Hrc,
             (registerStoreServer c) as [rs|] eqn:Hrs; try done.
    destruct (if isClient then rc name else rs name) as [v|[ok|e0]|e0] eqn:Hr;
      simpl.
    + by destruct (truthy v).
    + by destruct (truthy ok).
    + intros [= <-]. split; [done|]. exists c. split; [done|]. left. by rewrite Hrc, Hrs, Hr.
    + intros [= <-]. split; [done|]. exists c. split; [done|]. right. by rewrite Hrc, Hrs, Hr.
  - intros c e -> Hreg. unfold _maybeSetUpReplication, registration in *.
    destruct (registerStoreClient c) as [rc|], (registerStoreServer c) as [rs|];
      try (by destruct Hreg).
    by destruct Hreg as [[= ->]|[= ->]].
Qed.

(** ** The version list generator: properties *)

Lemma mark_last_snoc (l : list docs_version) (x : docs_version) :
  mark_last (app l [x]) =
    app l [{| version := version x; url := url x; isCurrent := true |}].
Proof.
  unfold mark_last. rewrite imap_app, length_app. simpl.
  replace (length l + 1 - 1)%nat with (length l) by lia.
  rewrite Nat.add_0_r, Nat.eqb_refl. f_equal.
  transitivity (imap (const id) l); [|by rewrite imap_const, list_fmap_id].
  apply imap_ext. intros i v Hv. apply lookup_lt_Some in Hv.
  destruct (Nat.eqb_spec i (length l)); [lia | done].
Qed.

Lemma find_isCurrent_snoc (l : list docs_version) (x : docs_version) :
  Forall (fun v => isCurrent v = false) l → isCurrent x = true →
  List.find isCurrent (app l [x]) = Some x.
Proof.
  intros Hl Hx. induction Hl as [|v l Hv Hl IH]; simpl.
  - by rewrite Hx.
  - by rewrite Hv.
Qed.

Lemma versions_of_unmarked (files : list string) :
  ∃ entries,
    versions_of files = mark_last entries
    ∧ Forall (fun v => isCurrent v = false) entries
    ∧ (length entries ≤ length files)%nat
    ∧ (entries = [] ↔ ∀ f, f ∈ files → kept_file f = false).
Proof.
  unfold versions_of. eexists. split; [reflexivity|].
  split; [|split].
  - apply Forall_forall. intros v Hv. apply list_elem_of_In in Hv.
    apply in_map_iff in Hv as (name & <- & _). done.
  - rewrite !length_map.
    etransitivity; [apply List.filter_length_le|].
    rewrite length_map. apply List.filter_length_le.
  - split.
    + intros Hnil f Hf. apply list_elem_of_In in Hf. unfold kept_file.
      destruct (negb (String.eqb f "99999-generated-code-warning.md")) eqn:H1;
        [|done].
      destruct (negb (String.eqb (String_replace ".md" EmptyString f) "3.0.1"))
        eqn:H2; [|done].
      exfalso.
      apply map_eq_nil, map_eq_nil in Hnil.
      assert (In (String_replace ".md" EmptyString f)
                (List.filter (fun v => negb (String.eqb v "3.0.1"))
                   (map (fun f => String_replace ".md" EmptyString f)
                      (List.filter
                         (fun f => negb (String.eqb f "99999-generated-code-warning.md"))
                         files)))) as Hin.
      { apply filter_In. split; [|done]. apply in_map.
        apply filter_In. by split. }
      by rewrite Hnil in Hin.
    + intros Hall.
      destruct (List.filter (fun v => negb (String.eqb v "3.0.1")) _)
        as [|name names] eqn:Hnames; [done|]. exfalso.
      assert (In name (name :: names)) as Hin by (by left).
      rewrite <- Hnames in Hin.
      apply filter_In in Hin as [Hin Hkeep].
      apply in_map_iff in Hin as (f & <- & Hf).
      apply filter_In in Hf as [Hf Hwarn].
      apply list_elem_of_In, Hall in Hf. unfold kept_file in Hf.
      by rewrite Hwarn, Hkeep in Hf.
Qed.

(** X24: when the generator succeeds, the list it writes is not empty, its
    last entry and no other is marked current, [currentVersion] is the
    version of that last entry, and the list has at most as many entries
    as the directory has files. *)
Theorem generateMeteorVersions_marks_last
    (files : list string) (logged : list console_call)
    (versions : list docs_version) (currentVersion : string) :
  generateMeteorVersions files = (logged, Normal (versions, currentVersion)) →
  ∃ earlier current,
    versions = app earlier [current]
    ∧ Forall (fun v => isCurrent v = false) earlier
    ∧ isCurrent current = true
    ∧ currentVersion = version current
    ∧ (length versions ≤ length files)%nat.
Proof.
  unfold generateMeteorVersions.
  destruct (versions_of_unmarked files) as (entries & -> & Hunmarked & Hlen & _).
  destruct entries as [|e entries _] using rev_ind; [done|].
  rewrite mark_last_snoc.
  apply Forall_app in Hunmarked as [Hinit _].
  rewrite find_isCurrent_snoc by done. simpl.
  intros [= _ <- <-]. eexists _, _. split; [reflexivity|].
  split; [exact Hinit|]. split; [done|]. split; [done|].
  by rewrite length_app in *.
Qed.

(** X25: the generator fails exactly when no file of the directory
    survives its filters, that is when every file is the
    generated-code warning or names version 3.0.1 (in particular on an
    empty directory); it then stops after its first log line and writes
    nothing. *)
Theorem generateMeteorVersions_fails_iff (files : list string) :
  ((∃ e, (generateMeteorVersions files).2 = Thrown e)
   ↔ ∀ f, f ∈ files → kept_file f = false)
  ∧ ((∀ f, f ∈ files → kept_file f = false) →
     generateMeteorVersions files =
       ([ConsoleLog "Reading meteor versions..."],
        Thrown "TypeError: Cannot destructure property 'version' of undefined")).
Proof.
  unfold generateMeteorVersions.
  destruct (versions_of_unmarked files) as (entries & -> & Hunmarked & _ & Hnil).
  destruct entries as [|e entries _] using rev_ind.
  - simpl. split; [|done]. split; [intros _; by apply Hnil | by eexists].
  - rewrite mark_last_snoc.
    apply Forall_app in Hunmarked as [Hinit _].
    rewrite find_isCurrent_snoc by done. simpl.
    assert (¬ ∀ f, f ∈ files → kept_file f = false) as Hsome.
    { intros Hall. apply Hnil in Hall. by destruct entries. }
    split; [|done]. split; [by intros [? ?] | done].
Qed.

(** ** Convergence from any state *)

(** X26: a [replace] message settles its document whatever the table held
    under that identifier: when every document is stored under its own
    identifier and the replacement carries the identifier of the message,
    the table afterwards holds exactly the replacement under that
    identifier, or nothing when the message has no replacement; every
    other document is untouched, and a second delivery changes nothing
    in the contents of the table. *)
Theorem replace_settles_document
    (idParse : string -> string) (EJSON_equals : looked_up -> value -> bool)
    (isClient : bool) (m : message) (c : collection) :
  well_keyed (_docs c) →
  msg_msg m = "replace" →
  (∀ r, msg_replace m = Some r → doc_id r = VStr (idParse (msg_id m))) →
  ∃ c',
    wrappedStoreClient_update idParse EJSON_equals isClient m c = Return tt c'
    ∧ wrappedStoreServer_update idParse EJSON_equals m c = Return tt c'
    ∧ _docs c' !! VStr (idParse (msg_id m)) = msg_replace m
    ∧ (∀ other, other ≠ VStr (idParse (msg_id m)) →
                _docs c' !! other = _docs c !! other)
    ∧ _docs (final (wrappedStoreServer_update idParse EJSON_equals m c'))
      = _docs c'.
Proof.
  intros Hwk Hkind Hid.
  rewrite (client_update_replace _ _ _ _ _ Hkind).
  rewrite (server_update_replace _ _ _ _ Hkind).
  eexists. split; [reflexivity|]. split; [reflexivity|].
  rewrite (server_update_replace _ _ _ _ Hkind).
  assert (_docs (after_replace (idParse (msg_id m)) (msg_replace m) c)
            !! VStr (idParse (msg_id m)) = msg_replace m) as Hlook.
  { unfold after_replace.
    destruct (msg_replace m) as [r|] eqn:Hr;
      destruct (_docs c !! VStr (idParse (msg_id m))) as [d|] eqn:Hd; simpl.
    - rewrite lookup_insert_eq, (Hwk _ _ Hd), <- (Hid r eq_refl). by destruct r.
    - by rewrite (Hid r eq_refl), lookup_insert_eq.
    - apply lookup_delete_eq.
    - exact Hd. }
  split; [exact Hlook|]. split.
  - intros other Hother. unfold after_replace.
    destruct (msg_replace m) as [r|] eqn:Hr;
      destruct (_docs c !! VStr (idParse (msg_id m))) as [d|] eqn:Hd; simpl;
      rewrite ?(Hid r eq_refl), ?lookup_insert_ne, ?lookup_delete_ne; done.
  - simpl. unfold after_replace at 1. rewrite Hlook.
    destruct (msg_replace m) as [r|] eqn:Hr; simpl; [|done].
    apply insert_id. transitivity (Some r); [exact Hlook | by destruct r].
Qed.

(** X27: soft mode converges from any state: when [EJSON.equals] is
    reflexive, an [added] or [changed] message that carries a field set
    without a field [_id], applied in a client, raises no error whether or
    not the document exists, and afterwards the document exists under the
    identifier of the message and every field the message names, other
    than the names of the members of [Object.prototype], is equal to the
    value the message gave it. *)
Theorem soft_update_converges
    (idParse : string -> string) (EJSON_equals : looked_up -> value -> bool)
    (m : message) (c : collection) (fs : obj) :
  (∀ v, EJSON_equals (Held v) v = true) →
  msg_msg m = "added" ∨ msg_msg m = "changed" →
  msg_fields m = Some fs →
  fs !! "_id" = None →
  ∃ c' doc',
    wrappedStoreClient_update idParse EJSON_equals true m c = Return tt c'
    ∧ _docs c' !! VStr (idParse (msg_id m)) = Some doc'
    ∧ ∀ key v, fs !! key = Some v → inherited key = false →
               EJSON_equals (doc_get doc' key) v = true.
Proof.
  intros Hrefl Hkind Hfs Hid.
  assert (∀ key v, fs !! key = Some v → key ≠ "_id") as Hnot_id
    by (intros key v Hv ->; congruence).
  destruct (_docs c !! VStr (idParse (msg_id m))) as [doc|] eqn:Hdoc.
  - destruct (after_changed_document EJSON_equals _ fs c doc Hdoc)
      as (doc' & Hdoc' & _ & _).
    assert (∀ key v, fs !! key = Some v → inherited key = false →
                     EJSON_equals (doc_get doc' key) v = true) as Hagree.
    { intros key v Hv Hown.
      by apply (after_changed_agrees EJSON_equals (idParse (msg_id m)) fs c doc doc');
        [| | | |eapply Hnot_id|]. }
    destruct Hkind as [Hkind|Hkind].
    + rewrite (client_update_added_present _ _ _ _ _ Hkind Hdoc).
      rewrite (server_update_changed _ _ (set_msg "changed" m) c doc fs) by done.
      by eexists _, doc'.
    + rewrite (client_update_changed _ _ _ _ _ _ _ Hkind Hdoc Hfs).
      by eexists _, doc'.
  - destruct Hkind as [Hkind|Hkind].
    + rewrite client_update_soft, Hdoc, soft_merge_added_absent by done.
      rewrite (server_update_added _ _ m c Hkind Hdoc).
      rewrite added_entry_key by (unfold keeps_id, fields_of; by rewrite Hfs).
      eexists _, _. split; [reflexivity|]. simpl. rewrite lookup_insert_eq.
      split; [reflexivity|]. intros key v Hv Hown.
      rewrite (doc_get_own _ key v); [apply Hrefl | by eapply Hnot_id |].
      rewrite Hfs. simpl. rewrite lookup_delete_ne; [done|].
      intros <-. congruence.
    + rewrite client_update_soft, Hdoc, soft_merge_changed_absent by done.
      rewrite (server_update_added _ _ _ c) by done.
      rewrite added_entry_key.
      2:{ unfold keeps_id, fields_of. simpl. rewrite Hfs. simpl.
          by rewrite delete_undefined_fields_lookup, Hid. }
      eexists _, _. split; [reflexivity|]. simpl. rewrite lookup_insert_eq.
      split; [reflexivity|]. intros key v Hv Hown.
      assert (key ≠ "_id") as Hne by (by eapply Hnot_id).
      destruct (is_undefined v) eqn:Hundef.
      * apply is_undefined_true in Hundef as ->.
        rewrite doc_get_missing; [apply Hrefl | done | done |].
        rewrite Hfs. simpl. rewrite lookup_delete_ne by done.
        by rewrite delete_undefined_fields_lookup, Hv.
      * rewrite (doc_get_own _ key v); [apply Hrefl | done |].
        rewrite Hfs. simpl. rewrite lookup_delete_ne by done.
        by rewrite delete_undefined_fields_lookup, Hv, Hundef.
Qed.

(** X28: in soft mode a [removed] message always ends with the document
    absent and never raises an error, whether or not the document was
    there; no other document is touched. *)
Theorem soft_removed_converges
    (idParse : string -> string) (EJSON_equals : looked_up -> value -> bool)
    (m : message) (c : collection) :
  msg_msg m = "removed" →
  ∃ c',
    wrappedStoreClient_update idParse EJSON_equals true m c = Return tt c'
    ∧ _docs c' !! VStr (idParse (msg_id m)) = None
    ∧ ∀ other, other ≠ VStr (idParse (msg_id m)) →
               _docs c' !! other = _docs c !! other.
Proof.
  intros Hkind. rewrite client_update_soft.
  destruct (_docs c !! VStr (idParse (msg_id m))) as [doc|] eqn:Hdoc.
  - rewrite soft_merge_removed_present by done.
    run_store. rewrite Hkind, Hdoc. simpl.
    eexists. split; [reflexivity|]. simpl.
    split; [apply lookup_delete_eq | by intros; rewrite lookup_delete_ne].
  - rewrite soft_merge_removed_absent by done. by exists c.
Qed.

(** ** Worked examples *)

(** Soft mode, second [added] for the same identifier: the document ends
    as [{a: 2, b: 2}] and no error is raised. *)
Example soft_added_twice :
  wrappedStoreClient_update plain_id structural_equals true
    (message_of "added" "1" {[ "a" := VNum 2 ]}) one_document
  = Return tt
      {| _docs := {[ VStr "1" :=
                       Build_document (VStr "1") {[ "a" := VNum 2; "b" := VNum 2 ]} ]};
         paused := false;
         calls := [CallUpdate "1" (ByModifier
                     {| mod_set := Some {[ "a" := VNum 2 ]}; mod_unset := None |})] |}.
Proof. vm_compute. reflexivity. Qed.

(** Strict mode rejects the same message. *)
Example strict_added_twice :
  wrappedStoreServer_update plain_id structural_equals
    (message_of "added" "1" {[ "a" := VNum 2 ]}) one_document
  = Throw "Expected not to find a document already present for an add" one_document.
Proof. vm_compute. reflexivity. Qed.

(** A [changed] message that repeats the current value does nothing. *)
Example changed_same_value :
  wrappedStoreServer_update plain_id structural_equals
    (message_of "changed" "1" {[ "a" := VNum 1 ]}) one_document
  = Return tt one_document.
Proof. vm_compute. reflexivity. Qed.

(** A [changed] message that clears [b] and sets [c]. *)
Example changed_set_and_unset :
  wrappedStoreServer_update plain_id structural_equals
    (message_of "changed" "1" {[ "b" := VUndefined; "c" := VStr "x" ]}) one_document
  = Return tt
      {| _docs := {[ VStr "1" :=
                       Build_document (VStr "1") {[ "a" := VNum 1; "c" := VStr "x" ]} ]};
         paused := false;
         calls := [CallUpdate "1" (ByModifier
                     {| mod_set := Some {[ "c" := VStr "x" ]};
                        mod_unset := Some {[ "b" := VNum 1 ]} |})] |}.
Proof. vm_compute. reflexivity. Qed.

(** A [changed] message that clears [constructor], a name every document
    inherits from [Object.prototype]: [doc.constructor] is a function, so
    the field differs and the table is asked to unset it. *)
Example changed_inherited_name :
  wrappedStoreServer_update plain_id structural_equals
    (message_of "changed" "1" {[ "constructor" := VUndefined ]}) one_document
  = Return tt
      {| _docs := _docs one_document;
         paused := false;
         calls := [CallUpdate "1" (ByModifier
                     {| mod_set := None;
                        mod_unset := Some {[ "constructor" := VNum 1 ]} |})] |}.
Proof. vm_compute. reflexivity. Qed.

(** ** Where the design document and the code part *)

(** C1 as stated fails: a [changed] message without a field set, for a
    document that is there, raises the [TypeError] of
    [Object.keys(undefined)], although it is none of the four cases. *)
Lemma server_update_throws_without_fields :
  throws (wrappedStoreServer_update plain_id structural_equals
            (bare_message "changed" "1") one_document)
  ∧ wrappedStoreServer_update plain_id structural_equals
      (bare_message "changed" "1") one_document
    = Throw cannot_convert one_document
  ∧ ¬ ((msg_msg (bare_message "changed" "1") = "added"
        ∧ is_Some (_docs one_document !! VStr (plain_id "1")))
       ∨ (msg_msg (bare_message "changed" "1") = "removed"
          ∧ _docs one_document !! VStr (plain_id "1") = None)
       ∨ (msg_msg (bare_message "changed" "1") = "changed"
          ∧ _docs one_document !! VStr (plain_id "1") = None)
       ∨ (msg_msg (bare_message "changed" "1") ≠ "replace"
          ∧ msg_msg (bare_message "changed" "1") ≠ "added"
          ∧ msg_msg (bare_message "changed" "1") ≠ "removed"
          ∧ msg_msg (bare_message "changed" "1") ≠ "changed")).
Proof.
  split; [exact I|]. split; [vm_compute; reflexivity|].
  intros [[H _]|[[H _]|[[_ H]|(_ & _ & _ & H)]]];
    try (vm_compute in H; discriminate).
  by apply H.
Qed.

(** C4 as stated fails: for a field named [__proto__] whose value is
    defined and differs from the current one, the modifier gets no set
    entry: the assignment [modifier.$set[key] = value] calls the setter
    inherited from [Object.prototype].  The modifier is [{ $set: {} }] and
    the table is called with it. *)
Lemma changed_modifier_skips_proto :
  ({[ "__proto__" := VNum 5 ]} : obj) !! "__proto__" = Some (VNum 5)
  ∧ VNum 5 ≠ VUndefined
  ∧ structural_equals
      (doc_get (Build_document (VStr "1") {[ "a" := VNum 1; "b" := VNum 2 ]})
               "__proto__") (VNum 5) = false
  ∧ set_entry
      (changed_modifier structural_equals
         (Build_document (VStr "1") {[ "a" := VNum 1; "b" := VNum 2 ]})
         {[ "__proto__" := VNum 5 ]}) "__proto__" = None
  ∧ changed_modifier structural_equals
      (Build_document (VStr "1") {[ "a" := VNum 1; "b" := VNum 2 ]})
      {[ "__proto__" := VNum 5 ]}
    = {| mod_set := Some ∅; mod_unset := None |}
  ∧ wrappedStoreServer_update plain_id structural_equals
      (message_of "changed" "1" {[ "__proto__" := VNum 5 ]}) one_document
    = Return tt
        {| _docs := _docs one_document;
           paused := false;
           calls := [CallUpdate "1" (ByModifier
                       {| mod_set := Some ∅; mod_unset := None |})] |}.
Proof.
  split; [evaluate|]. split; [discriminate|]. split; [evaluate|].
  split; [evaluate|]. split; vm_compute; reflexivity.
Qed.

(** C6 as stated fails: the selector [true] is not an array, not falsy and
    has no falsy [_id], yet it is not returned: the [in] test raises a
    [TypeError]; and a fallback identifier that is given but falsy (the
    empty string) is not used: the random identifier is. *)
Lemma rewriteSelector_not_for_every_input :
  (Array_isArray (VBool true) = false
   ∧ truthy (VBool true) = true
   ∧ _rewriteSelector (VBool true) VUndefined "fresh"
     = Thrown "TypeError: Cannot use 'in' operator"
   ∧ _rewriteSelector (VBool true) VUndefined "fresh" ≠ Normal (VBool true))
  ∧ (_rewriteSelector VNull (VStr EmptyString) "fresh"
     = Normal (VObj [("_id", VStr "fresh")])
     ∧ _rewriteSelector VNull (VStr EmptyString) "fresh"
       ≠ Normal (VObj [("_id", VStr EmptyString)])).
Proof.
  repeat split; try reflexivity; discriminate.
Qed.

(** ** The theorems at concrete inputs *)

Lemma value_eqb_refl (v : value) : value_eqb v v = true.
Proof.
  revert v. fix IH 1. intros [| |b|n|s|items|props]; simpl; try done.
  - by destruct b.
  - apply Z.eqb_refl.
  - apply String.eqb_refl.
  - induction items as [|x xs IHxs]; [done|]. by rewrite IH, IHxs.
  - induction props as [|[k x] ps IHps]; [done|].
    by rewrite String.eqb_refl, IH, IHps.
Qed.

Lemma structural_equals_refl (v : value) : structural_equals (Held v) v = true.
Proof. apply value_eqb_refl. Qed.

Lemma one_document_holds :
  _docs one_document !! VStr (plain_id "1")
  = Some (Build_document (VStr "1") {[ "a" := VNum 1; "b" := VNum 2 ]}).
Proof. vm_compute. reflexivity. Qed.

Lemma soft_mode_update_witness :
  (msg_msg (message_of "added" "1" {[ "a" := VNum 2 ]}) = "added"
   ∧ is_Some (_docs one_document !! VStr (plain_id "1"))
   ∧ is_Some (msg_fields (message_of "added" "1" {[ "a" := VNum 2 ]}))
   ∧ ¬ throws (wrappedStoreClient_update plain_id structural_equals true
                 (message_of "added" "1" {[ "a" := VNum 2 ]}) one_document))
  ∧ (msg_msg (bare_message "removed" "1") = "removed"
     ∧ _docs empty_collection !! VStr (plain_id "1") = None
     ∧ wrappedStoreClient_update plain_id structural_equals true
         (bare_message "removed" "1") empty_collection
       = Return tt empty_collection)
  ∧ (msg_msg (message_of "changed" "1" {[ "a" := VNum 1; "b" := VUndefined ]}) = "changed"
     ∧ _docs empty_collection !! VStr (plain_id "1") = None
     ∧ wrappedStoreClient_update plain_id structural_equals true
         (message_of "changed" "1" {[ "a" := VNum 1; "b" := VUndefined ]})
         empty_collection
       = Return tt
           {| _docs := {[ VStr "1" := Build_document (VStr "1") {[ "a" := VNum 1 ]} ]};
              paused := false;
              calls := [CallInsert (Build_document (VStr "1") {[ "a" := VNum 1 ]})] |}).
Proof.
  assert (H1 : msg_msg (message_of "added" "1" {[ "a" := VNum 2 ]}) = "added")
    by reflexivity.
  assert (H2 : is_Some (_docs one_document !! VStr (plain_id "1"))) by evaluate.
  assert (H2' : is_Some (msg_fields (message_of "added" "1" {[ "a" := VNum 2 ]})))
    by (by eexists).
  assert (H3 : msg_msg (bare_message "removed" "1") = "removed") by reflexivity.
  assert (H4 : _docs empty_collection !! VStr (plain_id "1") = None) by evaluate.
  assert (H5 : msg_msg (message_of "changed" "1"
                 {[ "a" := VNum 1; "b" := VUndefined ]}) = "changed")
    by reflexivity.
  split; [|split].
  - split; [exact H1|]. split; [exact H2|]. split; [exact H2'|].
    pose proof (soft_mode_update plain_id structural_equals
                  (message_of "added" "1" {[ "a" := VNum 2 ]}) one_document)
      as (Hadded & _ & _).
    exact (proj2 (Hadded H1 H2) H2').
  - split; [exact H3|]. split; [exact H4|].
    pose proof (soft_mode_update plain_id structural_equals
                  (bare_message "removed" "1") empty_collection)
      as (_ & Hremoved & _).
    exact (Hremoved H3 H4).
  - split; [exact H5|]. split; [exact H4|].
    pose proof (soft_mode_update plain_id structural_equals
                  (message_of "changed" "1" {[ "a" := VNum 1; "b" := VUndefined ]})
                  empty_collection)
      as (_ & _ & Hchanged).
    destruct (Hchanged H5 H4) as (_ & Hrun & _).
    rewrite Hrun. vm_compute. reflexivity.
Defined.

Lemma replace_update_witness :
  msg_msg {| msg_msg := "replace"; msg_id := "1"; msg_fields := None;
             msg_replace := Some (Build_document (VStr "1") {[ "c" := VNum 3 ]}) |}
  = "replace"
  ∧ wrappedStoreServer_update plain_id structural_equals
      {| msg_msg := "replace"; msg_id := "1"; msg_fields := None;
         msg_replace := Some (Build_document (VStr "1") {[ "c" := VNum 3 ]}) |}
      one_document
    = Return tt
        {| _docs := {[ VStr "1" := Build_document (VStr "1") {[ "c" := VNum 3 ]} ]};
           paused := false;
           calls := [CallUpdate "1"
                       (ByReplacement
                          (Build_document (VStr "1") {[ "c" := VNum 3 ]}))] |}.
Proof.
  assert (H : msg_msg {| msg_msg := "replace"; msg_id := "1"; msg_fields := None;
             msg_replace := Some (Build_document (VStr "1") {[ "c" := VNum 3 ]}) |}
              = "replace")
    by reflexivity.
  split; [exact H|].
  destruct (replace_update plain_id structural_equals false _ one_document H)
    as (_ & Hserver & _).
  rewrite Hserver. vm_compute. reflexivity.
Defined.

Lemma changed_computes_minimal_modifier_witness :
  msg_msg (message_of "changed" "1" {[ "b" := VUndefined; "c" := VStr "x" ]}) = "changed"
  ∧ _docs one_document !! VStr (plain_id "1")
    = Some (Build_document (VStr "1") {[ "a" := VNum 1; "b" := VNum 2 ]})
  ∧ msg_fields (message_of "changed" "1" {[ "b" := VUndefined; "c" := VStr "x" ]})
    = Some {[ "b" := VUndefined; "c" := VStr "x" ]}
  ∧ unset_entry (changed_modifier structural_equals
                   (Build_document (VStr "1") {[ "a" := VNum 1; "b" := VNum 2 ]})
                   {[ "b" := VUndefined; "c" := VStr "x" ]}) "b" = Some (VNum 1)
  ∧ set_entry (changed_modifier structural_equals
                   (Build_document (VStr "1") {[ "a" := VNum 1; "b" := VNum 2 ]})
                   {[ "b" := VUndefined; "c" := VStr "x" ]}) "c" = Some (VStr "x").
Proof.
  assert (H1 : msg_msg (message_of "changed" "1"
                 {[ "b" := VUndefined; "c" := VStr "x" ]}) = "changed")
    by reflexivity.
  assert (H3 : msg_fields (message_of "changed" "1"
                 {[ "b" := VUndefined; "c" := VStr "x" ]})
               = Some {[ "b" := VUndefined; "c" := VStr "x" ]})
    by reflexivity.
  split; [exact H1|]. split; [exact one_document_holds|]. split; [exact H3|].
  destruct (changed_computes_minimal_modifier plain_id structural_equals false
              _ _ _ _ H1 one_document_holds H3)
    as (Hentries & _).
  split.
  - destruct (Hentries "b" VUndefined) as (Hunset & _); [evaluate|discriminate|].
    apply Hunset; evaluate.
  - destruct (Hentries "c" (VStr "x")) as (_ & Hset & _); [evaluate|discriminate|].
    apply Hset; [discriminate | evaluate].
Defined.

Lemma beginUpdate_pauses_and_resets_witness :
  ∃ c', wrappedStoreClient_beginUpdate 1 true one_document = Return tt c'
        ∧ _docs c' = ∅.
Proof.
  destruct (beginUpdate_pauses_and_resets 1 true one_document)
    as (_ & c' & Hrun & _ & _ & Hdocs & _).
  exists c'. split; [exact Hrun | exact Hdocs].
Defined.

Lemma rewriteSelector_guard_witness :
  Array_isArray (VArr []) = true
  ∧ _rewriteSelector (VArr []) VUndefined "fresh"
    = Thrown "Mongo selector can't be an array."
  ∧ Array_isArray VNull = false ∧ dangerous VNull = true
  ∧ _rewriteSelector VNull (VStr "given") "fresh"
    = Normal (VObj [("_id", VStr "given")])
  ∧ dangerous (VStr "abc") = false
  ∧ is_object (expand_shorthand (VStr "abc")) = true
  ∧ _rewriteSelector (VStr "abc") VUndefined "fresh"
    = Normal (VObj [("_id", VStr "abc")]).
Proof.
  split; [reflexivity|]. split.
  { exact (proj1 (rewriteSelector_guard (VArr []) VUndefined "fresh") eq_refl). }
  split; [reflexivity|]. split; [reflexivity|]. split.
  { exact (proj1 (proj2 (rewriteSelector_guard VNull (VStr "given") "fresh"))
             eq_refl eq_refl). }
  split; [reflexivity|]. split; [reflexivity|].
  exact (proj2 (proj2 (rewriteSelector_guard (VStr "abc") VUndefined "fresh"))
           eq_refl eq_refl).
Defined.

Lemma registration_conflict_is_logged_witness :
  registration false taken_connection "posts"
    = Some (PromiseResult (Resolved (VBool false)))
  ∧ _maybeSetUpReplication false true (Some taken_connection) "posts"
    = ([ConsoleWarn (already_a_collection "posts")], Normal tt).
Proof.
  split; [reflexivity|].
  exact (registration_conflict_is_logged false true taken_connection "posts"
           (VBool false) (or_intror eq_refl)).
Defined.

Lemma soft_added_existing_merges_witness :
  msg_msg (message_of "added" "1" {[ "a" := VNum 2 ]}) = "added"
  ∧ _docs one_document !! VStr (plain_id "1")
    = Some (Build_document (VStr "1") {[ "a" := VNum 1; "b" := VNum 2 ]})
  ∧ ∃ c', wrappedStoreClient_update plain_id structural_equals true
            (message_of "added" "1" {[ "a" := VNum 2 ]}) one_document = Return tt c'
      ∧ ∃ doc', _docs c' !! VStr (plain_id "1") = Some doc'
        ∧ doc_fields doc' !! "b" = Some (VNum 2)
        ∧ doc_fields doc' !! "a" = Some (VNum 2).
Proof.
  assert (H1 : msg_msg (message_of "added" "1" {[ "a" := VNum 2 ]}) = "added")
    by reflexivity.
  split; [exact H1|]. split; [exact one_document_holds|].
  destruct (soft_added_existing_merges plain_id structural_equals _ _ _ H1
              one_document_holds)
    as (_ & Hrun & _ & doc' & Hdoc' & _ & Hframe & Hmerge).
  eexists. split; [apply Hrun; by eexists|].
  exists doc'. split; [exact Hdoc'|]. split.
  - rewrite Hframe; evaluate.
  - rewrite (Hmerge {[ "a" := VNum 2 ]} "a" (VNum 2));
      [evaluate | reflexivity | evaluate | discriminate | discriminate].
Defined.

Lemma changed_existing_frame_witness :
  msg_msg (message_of "changed" "1" {[ "a" := VNum 5 ]}) = "changed"
  ∧ _docs one_document !! VStr (plain_id "1")
    = Some (Build_document (VStr "1") {[ "a" := VNum 1; "b" := VNum 2 ]})
  ∧ ∃ c', wrappedStoreServer_update plain_id structural_equals
            (message_of "changed" "1" {[ "a" := VNum 5 ]}) one_document = Return tt c'
      ∧ (∃ doc', _docs c' !! VStr (plain_id "1") = Some doc'
           ∧ doc_id doc' = VStr "1"
           ∧ doc_fields doc' !! "b" = Some (VNum 2))
      ∧ (∀ other, other ≠ VStr (plain_id "1") →
                  _docs c' !! other = _docs one_document !! other).
Proof.
  assert (H1 : msg_msg (message_of "changed" "1" {[ "a" := VNum 5 ]}) = "changed")
    by reflexivity.
  split; [exact H1|]. split; [exact one_document_holds|].
  destruct (changed_existing_frame plain_id structural_equals true _ _ _ H1
              one_document_holds)
    as (_ & Hrun & (doc' & Hdoc' & Hid & Hframe) & Hothers).
  eexists. split; [apply Hrun; by eexists|]. split; [|exact Hothers].
  exists doc'. split; [exact Hdoc'|]. split; [exact Hid|].
  rewrite Hframe; evaluate.
Defined.

(** ** The further properties at concrete inputs *)

Lemma soft_update_extends_strict_witness :
  ¬ throws (wrappedStoreServer_update plain_id structural_equals
              (bare_message "removed" "1") one_document)
  ∧ wrappedStoreClient_update plain_id structural_equals true
      (bare_message "removed" "1") one_document
    = wrappedStoreServer_update plain_id structural_equals
        (bare_message "removed" "1") one_document.
Proof.
  assert (H : ¬ throws (wrappedStoreServer_update plain_id structural_equals
                          (bare_message "removed" "1") one_document))
    by (vm_compute; exact (fun x => x)).
  split; [exact H|].
  exact (soft_update_extends_strict plain_id structural_equals _ _ H).
Defined.

Lemma changed_modifier_entries_from_message_witness :
  set_entry (changed_modifier structural_equals
               (Build_document (VStr "1") {[ "a" := VNum 1; "b" := VNum 2 ]})
               {[ "b" := VUndefined; "c" := VStr "x" ]}) "c" = Some (VStr "x")
  ∧ ({[ "b" := VUndefined; "c" := VStr "x" ]} : obj) !! "c" = Some (VStr "x")
  ∧ unset_entry (changed_modifier structural_equals
               (Build_document (VStr "1") {[ "a" := VNum 1; "b" := VNum 2 ]})
               {[ "b" := VUndefined; "c" := VStr "x" ]}) "c" = None.
Proof.
  assert (H : set_entry (changed_modifier structural_equals
               (Build_document (VStr "1") {[ "a" := VNum 1; "b" := VNum 2 ]})
               {[ "b" := VUndefined; "c" := VStr "x" ]}) "c" = Some (VStr "x"))
    by evaluate.
  split; [exact H|].
  destruct (changed_modifier_entries_from_message structural_equals
              (Build_document (VStr "1") {[ "a" := VNum 1; "b" := VNum 2 ]})
              {[ "b" := VUndefined; "c" := VStr "x" ]}) as [Hset _].
  destruct (Hset "c" (VStr "x") H) as (Hfield & _ & _ & Hunset & _).
  split; [exact Hfield | exact Hunset].
Defined.

Lemma changed_modifier_operators_nonempty_witness :
  ({[ "b" := VUndefined; "c" := VStr "x" ]} : obj) !! "__proto__" = None
  ∧ mod_set (changed_modifier structural_equals
             (Build_document (VStr "1") {[ "a" := VNum 1; "b" := VNum 2 ]})
             {[ "b" := VUndefined; "c" := VStr "x" ]})
    = Some {[ "c" := VStr "x" ]}
  ∧ ∃ key v, ({[ "c" := VStr "x" ]} : obj) !! key = Some v.
Proof.
  assert (H0 : ({[ "b" := VUndefined; "c" := VStr "x" ]} : obj) !! "__proto__" = None)
    by evaluate.
  assert (H : mod_set (changed_modifier structural_equals
             (Build_document (VStr "1") {[ "a" := VNum 1; "b" := VNum 2 ]})
             {[ "b" := VUndefined; "c" := VStr "x" ]})
    = Some {[ "c" := VStr "x" ]}) by evaluate.
  split; [exact H0|]. split; [exact H|].
  destruct (changed_modifier_operators_nonempty structural_equals
              (Build_document (VStr "1") {[ "a" := VNum 1; "b" := VNum 2 ]})
              {[ "b" := VUndefined; "c" := VStr "x" ]} H0) as (_ & Hset & _).
  exact (Hset _ H).
Defined.

Lemma changed_calls_table_iff_differs_witness :
  msg_msg (message_of "changed" "1" {[ "a" := VNum 1 ]}) = "changed"
  ∧ _docs one_document !! VStr (plain_id "1")
    = Some (Build_document (VStr "1") {[ "a" := VNum 1; "b" := VNum 2 ]})
  ∧ msg_fields (message_of "changed" "1" {[ "a" := VNum 1 ]})
    = Some {[ "a" := VNum 1 ]}
  ∧ (∀ key v, ({[ "a" := VNum 1 ]} : obj) !! key = Some v →
       structural_equals
         (doc_get (Build_document (VStr "1") {[ "a" := VNum 1; "b" := VNum 2 ]}) key)
         v = true)
  ∧ wrappedStoreClient_update plain_id structural_equals true
      (message_of "changed" "1" {[ "a" := VNum 1 ]}) one_document
    = Return tt one_document
  ∧ ∃ c', wrappedStoreClient_update plain_id structural_equals true
            (message_of "changed" "1" {[ "toString" := VUndefined ]}) one_document
          = Return tt c'
        ∧ calls c' =
            app (calls one_document)
              [CallUpdate (plain_id "1")
                 (ByModifier
                    (changed_modifier structural_equals
                       (Build_document (VStr "1") {[ "a" := VNum 1; "b" := VNum 2 ]})
                       {[ "toString" := VUndefined ]}))].
Proof.
  assert (H1 : msg_msg (message_of "changed" "1" {[ "a" := VNum 1 ]}) = "changed")
    by reflexivity.
  assert (H3 : ∀ key v, ({[ "a" := VNum 1 ]} : obj) !! key = Some v →
       structural_equals
         (doc_get (Build_document (VStr "1") {[ "a" := VNum 1; "b" := VNum 2 ]}) key)
         v = true).
  { intros key v Hv. apply lookup_singleton_Some in Hv as [<- <-]. evaluate. }
  split; [exact H1|]. split; [exact one_document_holds|].
  split; [reflexivity|]. split; [exact H3|]. split.
  - exact (proj1 (changed_calls_table_iff_differs plain_id structural_equals true
                    _ _ _ _ H1 one_document_holds eq_refl) H3).
  - apply (proj2 (changed_calls_table_iff_differs plain_id structural_equals true
                    (message_of "changed" "1" {[ "toString" := VUndefined ]})
                    one_document _ _ eq_refl one_document_holds eq_refl)
             "toString" VUndefined); evaluate.
Defined.

Lemma changed_reaches_message_witness :
  (∀ v, structural_equals (Held v) v = true)
  ∧ msg_msg (message_of "changed" "1" {[ "b" := VUndefined; "c" := VStr "x" ]}) = "changed"
  ∧ _docs one_document !! VStr (plain_id "1")
    = Some (Build_document (VStr "1") {[ "a" := VNum 1; "b" := VNum 2 ]})
  ∧ "c" ≠ "_id" ∧ inherited "c" = false
  ∧ ∃ c' doc',
      wrappedStoreServer_update plain_id structural_equals
        (message_of "changed" "1" {[ "b" := VUndefined; "c" := VStr "x" ]})
        one_document = Return tt c'
      ∧ _docs c' !! VStr (plain_id "1") = Some doc'
      ∧ structural_equals (doc_get doc' "c") (VStr "x") = true.
Proof.
  assert (H1 : msg_msg (message_of "changed" "1"
                 {[ "b" := VUndefined; "c" := VStr "x" ]}) = "changed")
    by reflexivity.
  split; [exact structural_equals_refl|]. split; [exact H1|].
  split; [exact one_document_holds|].
  split; [discriminate|]. split; [reflexivity|].
  destruct (changed_reaches_message plain_id structural_equals true _ _ _ _
              structural_equals_refl H1 one_document_holds eq_refl)
    as (c' & doc' & _ & Hrun & Hdoc' & Hagree).
  exists c', doc'. split; [exact Hrun|]. split; [exact Hdoc'|].
  apply Hagree; [evaluate | discriminate | reflexivity].
Defined.

Lemma ordinary_a : ordinary_fields {[ "a" := VNum 5 ]}.
Proof.
  intros key [v Hv]. apply lookup_singleton_Some in Hv as [<- _].
  split; [discriminate | reflexivity].
Qed.

Lemma changed_twice_is_changed_once_witness :
  (∀ v, structural_equals (Held v) v = true)
  ∧ msg_msg (message_of "changed" "1" {[ "a" := VNum 5 ]}) = "changed"
  ∧ _docs one_document !! VStr (plain_id "1")
    = Some (Build_document (VStr "1") {[ "a" := VNum 1; "b" := VNum 2 ]})
  ∧ ordinary_fields {[ "a" := VNum 5 ]}
  ∧ ∃ c',
      wrappedStoreClient_update plain_id structural_equals true
        (message_of "changed" "1" {[ "a" := VNum 5 ]}) one_document = Return tt c'
      ∧ wrappedStoreClient_update plain_id structural_equals true
        (message_of "changed" "1" {[ "a" := VNum 5 ]}) c' = Return tt c'.
Proof.
  assert (H1 : msg_msg (message_of "changed" "1" {[ "a" := VNum 5 ]}) = "changed")
    by reflexivity.
  split; [exact structural_equals_refl|]. split; [exact H1|].
  split; [exact one_document_holds|]. split; [exact ordinary_a|].
  eexists. split; [vm_compute; reflexivity|].
  apply (changed_twice_is_changed_once plain_id structural_equals true _
           one_document _ _ _ structural_equals_refl H1 one_document_holds
           eq_refl ordinary_a).
  vm_compute. reflexivity.
Defined.

Lemma soft_added_twice_is_added_once_witness :
  (∀ v, structural_equals (Held v) v = true)
  ∧ msg_msg (message_of "added" "1" {[ "a" := VNum 1 ]}) = "added"
  ∧ _docs empty_collection !! VStr (plain_id "1") = None
  ∧ ({[ "a" := VNum 1 ]} : obj) !! "_id" = None
  ∧ ∃ c',
      wrappedStoreClient_update plain_id structural_equals true
        (message_of "added" "1" {[ "a" := VNum 1 ]}) empty_collection = Return tt c'
      ∧ wrappedStoreClient_update plain_id structural_equals true
        (message_of "added" "1" {[ "a" := VNum 1 ]}) c' = Return tt c'.
Proof.
  assert (H1 : msg_msg (message_of "added" "1" {[ "a" := VNum 1 ]}) = "added")
    by reflexivity.
  assert (H2 : _docs empty_collection !! VStr (plain_id "1") = None) by evaluate.
  assert (H3 : ({[ "a" := VNum 1 ]} : obj) !! "_id" = None) by evaluate.
  split; [exact structural_equals_refl|]. split; [exact H1|]. split; [exact H2|].
  split; [exact H3|].
  eexists. split; [vm_compute; reflexivity|].
  apply (soft_added_twice_is_added_once plain_id structural_equals _
           empty_collection _ _ structural_equals_refl H1 H2 eq_refl H3).
  vm_compute. reflexivity.
Defined.

Lemma added_then_removed_restores_witness :
  keeps_id (message_of "added" "9" {[ "a" := VNum 1 ]})
  ∧ _docs one_document !! VStr (plain_id "9") = None
  ∧ ∃ c1 c2,
      wrappedStoreServer_update plain_id structural_equals
        (set_msg "added" (message_of "added" "9" {[ "a" := VNum 1 ]})) one_document
      = Return tt c1
      ∧ wrappedStoreServer_update plain_id structural_equals
        (set_msg "removed" (message_of "added" "9" {[ "a" := VNum 1 ]})) c1
      = Return tt c2
      ∧ _docs c2 = _docs one_document.
Proof.
  assert (H0 : keeps_id (message_of "added" "9" {[ "a" := VNum 1 ]})) by evaluate.
  assert (H : _docs one_document !! VStr (plain_id "9") = None) by evaluate.
  split; [exact H0|]. split; [exact H|].
  destruct (added_then_removed_restores plain_id structural_equals
              (message_of "added" "9" {[ "a" := VNum 1 ]}) one_document H0 H)
    as (c1 & c2 & H1 & H2 & Hdocs & _).
  exists c1, c2. split; [exact H1|]. split; [exact H2 | exact Hdocs].
Defined.

Lemma reset_and_replay_witness :
  Forall (fun m => msg_msg m = "added" ∧ keeps_id m)
    [message_of "added" "1" {[ "a" := VNum 3 ]}; bare_message "added" "5"]
  ∧ NoDup ((fun m => plain_id (msg_id m)) <$>
             [message_of "added" "1" {[ "a" := VNum 3 ]}; bare_message "added" "5"])
  ∧ ∃ c', server_batch plain_id structural_equals true
            [message_of "added" "1" {[ "a" := VNum 3 ]}; bare_message "added" "5"]
            two_documents = Return tt c'
          ∧ _docs c' = {[ VStr "1" := Build_document (VStr "1") {[ "a" := VNum 3 ]};
                          VStr "5" := Build_document (VStr "5") ∅ ]}
          ∧ paused c' = false.
Proof.
  assert (H1 : Forall (fun m => msg_msg m = "added" ∧ keeps_id m)
    [message_of "added" "1" {[ "a" := VNum 3 ]}; bare_message "added" "5"]).
  { repeat constructor; evaluate. }
  assert (H2 : NoDup ((fun m => plain_id (msg_id m)) <$>
             [message_of "added" "1" {[ "a" := VNum 3 ]}; bare_message "added" "5"])).
  { apply (bool_decide_unpack _). vm_compute. exact I. }
  split; [exact H1|]. split; [exact H2|].
  destruct (reset_and_replay plain_id structural_equals _ two_documents H1 H2)
    as (c' & Hrun & Hdocs & Hpaused).
  exists c'. split; [exact Hrun|]. split; [|exact Hpaused].
  rewrite Hdocs. vm_compute. reflexivity.
Defined.

Lemma added_inserts_spread_witness :
  msg_msg (message_of "added" "7" {[ "_id" := VStr "8"; "a" := VNum 1 ]}) = "added"
  ∧ _docs one_document !! VStr (plain_id "7") = None
  ∧ fields_of (message_of "added" "7" {[ "_id" := VStr "8"; "a" := VNum 1 ]}) !! "_id"
    = Some (VStr "8")
  ∧ doc_id (object_with_id (plain_id "7")
              (msg_fields (message_of "added" "7"
                             {[ "_id" := VStr "8"; "a" := VNum 1 ]})))
    = VStr "8"
  ∧ wrappedStoreServer_update plain_id structural_equals
      (message_of "added" "7" {[ "_id" := VStr "8"; "a" := VNum 1 ]}) one_document
    = Return tt
        {| _docs := {[ VStr "1" :=
                         Build_document (VStr "1") {[ "a" := VNum 1; "b" := VNum 2 ]};
                       VStr "8" := Build_document (VStr "8") {[ "a" := VNum 1 ]} ]};
           paused := false;
           calls := [CallInsert (Build_document (VStr "8") {[ "a" := VNum 1 ]})] |}.
Proof.
  assert (H1 : msg_msg (message_of "added" "7" {[ "_id" := VStr "8"; "a" := VNum 1 ]})
               = "added") by reflexivity.
  assert (H2 : _docs one_document !! VStr (plain_id "7") = None) by evaluate.
  assert (H3 : fields_of (message_of "added" "7" {[ "_id" := VStr "8"; "a" := VNum 1 ]})
                 !! "_id" = Some (VStr "8")) by evaluate.
  split; [exact H1|]. split; [exact H2|]. split; [exact H3|].
  destruct (added_inserts_spread plain_id structural_equals _ one_document H1 H2)
    as (_ & _ & _ & _ & Hid).
  split; [exact (Hid _ H3)|]. vm_compute. reflexivity.
Defined.

Lemma rewriteSelector_returns_safe_selector_witness :
  "fresh" ≠ EmptyString
  ∧ _rewriteSelector (VObj [("_id", VNum 0)]) VUndefined "fresh"
    = Normal (VObj [("_id", VStr "fresh")])
  ∧ ∃ props, VObj [("_id", VStr "fresh")] = VObj props
      ∧ (own_property props "_id" = None
         ∨ ∃ id, own_property props "_id" = Some id ∧ truthy id = true).
Proof.
  assert (H1 : "fresh" ≠ EmptyString) by discriminate.
  assert (H2 : _rewriteSelector (VObj [("_id", VNum 0)]) VUndefined "fresh"
               = Normal (VObj [("_id", VStr "fresh")])) by reflexivity.
  split; [exact H1|]. split; [exact H2|].
  exact (rewriteSelector_returns_safe_selector _ _ _ _ H1 H2).
Defined.

Lemma rewriteSelector_idempotent_witness :
  "fresh" ≠ EmptyString
  ∧ _rewriteSelector VNull VUndefined "fresh" = Normal (VObj [("_id", VStr "fresh")])
  ∧ _rewriteSelector (VObj [("_id", VStr "fresh")]) (VStr "other") "again"
    = Normal (VObj [("_id", VStr "fresh")]).
Proof.
  assert (H1 : "fresh" ≠ EmptyString) by discriminate.
  assert (H2 : _rewriteSelector VNull VUndefined "fresh"
               = Normal (VObj [("_id", VStr "fresh")])) by reflexivity.
  split; [exact H1|]. split; [exact H2|].
  exact (rewriteSelector_idempotent _ _ (VStr "other") _ "again" _ H1 H2).
Defined.

Lemma Collection_name_witness :
  truthy (VNum 7) = true ∧ (∀ s, VNum 7 ≠ VStr s)
  ∧ (Collection example_server ∅ (VNum 7) ArgUndefined).2
    = Thrown "First argument to new Mongo.Collection must be a string or null".
Proof.
  assert (H1 : truthy (VNum 7) = true) by reflexivity.
  assert (H2 : ∀ s, VNum 7 ≠ VStr s) by discriminate.
  split; [exact H1|]. split; [exact H2|].
  exact (proj1 (proj2 (Collection_name example_server ∅ (VNum 7) ArgUndefined))
           H1 H2).
Defined.

Lemma anonymous_collection_is_local_witness :
  truthy (VStr EmptyString) = false
  ∧ ∃ built collections',
      (Collection example_server ∅ (VStr EmptyString)
         (ArgConnection remote_connection)).2 = Normal (built, collections')
      ∧ _connection (constructed built) = RefNull
      ∧ replication built = ([], Normal tt)
      ∧ _isRemoteCollection example_server (constructed built) = false.
Proof.
  assert (H1 : truthy (VStr EmptyString) = false) by reflexivity.
  split; [exact H1|].
  eexists _, _. split; [reflexivity|].
  destruct (anonymous_collection_is_local example_server ∅ (VStr EmptyString)
              (ArgConnection remote_connection) _ _ H1 eq_refl)
    as (_ & Hconn & Hrepl & _ & Hremote & _).
  split; [exact Hconn|]. split; [exact Hrepl | exact Hremote].
Defined.

Lemma Collection_rethrows_mutation_error_witness :
  checked_name (if negb (truthy (VStr "posts")) && negb (is_null (VStr "posts"))
                then VNull else VStr "posts") = Some (Some "posts")
  ∧ choose_driver example_server (Some "posts") (normalize_options ArgUndefined)
      (choose_connection example_server (Some "posts") (normalize_options ArgUndefined))
    = Normal DefaultRemoteCollectionDriver
  ∧ driver_open example_server DefaultRemoteCollectionDriver (Some "posts")
      (choose_connection example_server (Some "posts") (normalize_options ArgUndefined))
    = Normal tt
  ∧ is_false (opt_defineMutationMethods (normalize_options ArgUndefined)) = false
  ∧ _defineMutationMethods example_server (Some "posts")
      (is_true (opt__suppressSameNameError (normalize_options ArgUndefined)))
    = Thrown (method_already_defined (Some "posts"))
  ∧ (Collection example_server ∅ (VStr "posts") ArgUndefined).2
    = Thrown (already_a_collection "posts").
Proof.
  assert (H1 : checked_name
                 (if negb (truthy (VStr "posts")) && negb (is_null (VStr "posts"))
                  then VNull else VStr "posts") = Some (Some "posts"))
    by reflexivity.
  assert (H2 : choose_driver example_server (Some "posts")
                 (normalize_options ArgUndefined)
                 (choose_connection example_server (Some "posts")
                    (normalize_options ArgUndefined))
               = Normal DefaultRemoteCollectionDriver) by reflexivity.
  assert (H3 : driver_open example_server DefaultRemoteCollectionDriver
                 (Some "posts")
                 (choose_connection example_server (Some "posts")
                    (normalize_options ArgUndefined))
               = Normal tt) by reflexivity.
  assert (H4 : is_false (opt_defineMutationMethods (normalize_options ArgUndefined))
               = false) by reflexivity.
  assert (H5 : _defineMutationMethods example_server (Some "posts")
                 (is_true (opt__suppressSameNameError
                             (normalize_options ArgUndefined)))
               = Thrown (method_already_defined (Some "posts")))
    by (vm_compute; reflexivity).
  split; [exact H1|]. split; [exact H2|]. split; [exact H3|].
  split; [exact H4|]. split; [exact H5|].
  rewrite (proj1 (Collection_rethrows_mutation_error example_server ∅
                    (VStr "posts") ArgUndefined _ _ H1 H2 H3) _ H4 H5).
  vm_compute. reflexivity.
Defined.

Lemma construction_registers_witness :
  ∃ built collections',
    (Collection example_server ∅ (VStr "comments") ArgUndefined).2
      = Normal (built, collections')
    ∧ getCollection collections' (_name (constructed built))
      = Some (constructed built).
Proof.
  eexists _, _. split; [reflexivity|].
  exact (proj1 (construction_registers example_server ∅ (VStr "comments")
                  ArgUndefined _ _ eq_refl)).
Defined.

Lemma server_collection_uses_Meteor_server_witness :
  "comments" ≠ EmptyString
  ∧ Meteor_isClient example_server = false
  ∧ opt_connection (normalize_options ArgUndefined) = RefUndefined
  ∧ ∃ built collections',
      (Collection example_server ∅ (VStr "comments") ArgUndefined).2
        = Normal (built, collections')
      ∧ _connection (constructed built) = Meteor_server example_server
      ∧ _isRemoteCollection example_server (constructed built) = false
      ∧ _driver (constructed built) = DefaultRemoteCollectionDriver.
Proof.
  assert (H1 : "comments" ≠ EmptyString) by discriminate.
  assert (H2 : Meteor_isClient example_server = false) by reflexivity.
  assert (H3 : opt_connection (normalize_options ArgUndefined) = RefUndefined)
    by reflexivity.
  split; [exact H1|]. split; [exact H2|]. split; [exact H3|].
  eexists _, _. split; [reflexivity|].
  destruct (server_collection_uses_Meteor_server example_server ∅ "comments"
              ArgUndefined _ _ H1 H2 H3 eq_refl)
    as (Hconn & Hremote & Hdriver).
  split; [exact Hconn|]. split; [exact Hremote|].
  apply Hdriver; reflexivity.
Defined.

Lemma connected_collection_is_remote_witness :
  "comments" ≠ EmptyString
  ∧ opt_connection (normalize_options (ArgConnection remote_connection))
    = Ref remote_connection
  ∧ same_connection (Ref remote_connection) (Meteor_server example_server) = false
  ∧ ∃ built collections',
      (Collection example_server ∅ (VStr "comments")
         (ArgConnection remote_connection)).2 = Normal (built, collections')
      ∧ _connection (constructed built) = Ref remote_connection
      ∧ _isRemoteCollection example_server (constructed built) = true
      ∧ _driver (constructed built) = LocalCollectionDriver.
Proof.
  assert (H1 : "comments" ≠ EmptyString) by discriminate.
  assert (H2 : opt_connection (normalize_options (ArgConnection remote_connection))
               = Ref remote_connection) by reflexivity.
  assert (H3 : same_connection (Ref remote_connection)
                 (Meteor_server example_server) = false) by reflexivity.
  split; [exact H1|]. split; [exact H2|]. split; [exact H3|].
  eexists _, _. split; [reflexivity|].
  destruct (connected_collection_is_remote example_server ∅ "comments"
              (ArgConnection remote_connection) remote_connection _ _
              H1 H2 H3 eq_refl)
    as (Hconn & Hremote & _ & Hdriver).
  split; [exact Hconn|]. split; [exact Hremote|].
  apply Hdriver; reflexivity.
Defined.

Lemma ensureIndexAsync_only_creates_witness :
  is_Some (backend_ensureIndexAsync mismatching_backend)
  ∧ backend_createIndexAsync mismatching_backend
    = Some (fun dropped : bool =>
              if dropped then (Normal tt, dropped)
              else (Thrown ("MongoServerError: " ++ option_mismatch), dropped))
  ∧ ensureIndexAsync mismatching_backend "deprecated" true
    = (Normal tt, true, [BackendCreateIndex]).
Proof.
  assert (H1 : is_Some (backend_ensureIndexAsync mismatching_backend))
    by (by eexists).
  assert (H2 : backend_createIndexAsync mismatching_backend
    = Some (fun dropped : bool =>
              if dropped then (Normal tt, dropped)
              else (Thrown ("MongoServerError: " ++ option_mismatch), dropped)))
    by reflexivity.
  split; [exact H1|]. split; [exact H2|].
  exact (proj2 (proj2 (proj2
           (ensureIndexAsync_only_creates mismatching_backend "deprecated" true)))
           _ H1 H2).
Defined.

Lemma createIndexAsync_drops_only_on_mismatch_witness :
  BackendDropIndex ∈ (createIndexAsync mismatching_backend true "idx" "posts" false).2
  ∧ createIndexAsync mismatching_backend true "idx" "posts" false
    = (Normal tt, true,
       [BackendCreateIndex;
        LogInfo "Re-creating index idx for posts due to options mismatch.";
        BackendDropIndex; BackendCreateIndex])
  ∧ ∃ create e b1,
      backend_createIndexAsync mismatching_backend = Some create
      ∧ create false = (Thrown e, b1)
      ∧ includes option_mismatch e = true.
Proof.
  assert (H : BackendDropIndex
              ∈ (createIndexAsync mismatching_backend true "idx" "posts" false).2).
  { vm_compute. do 2 apply list_elem_of_further. apply list_elem_of_here. }
  split; [exact H|]. split; [vm_compute; reflexivity|].
  exact (proj2 (proj1 (createIndexAsync_drops_only_on_mismatch
                         mismatching_backend true "idx" "posts" false) H)).
Defined.

Lemma maybeSetUpReplication_effects_witness :
  (∀ c, Some half_connection = Some c → registration false c "posts" = None)
  ∧ _maybeSetUpReplication false true (Some half_connection) "posts"
    = ([], Normal tt)
  ∧ (_maybeSetUpReplication false true (Some rejecting_connection) "posts").2
    = Thrown "offline"
  ∧ (_maybeSetUpReplication false true (Some rejecting_connection) "posts").1 = []
  ∧ registration true throwing_connection "posts" = Some (RegisterThrows "not ready")
  ∧ _maybeSetUpReplication true true (Some throwing_connection) "posts"
    = ([], Thrown "not ready").
Proof.
  assert (H1 : ∀ c, Some half_connection = Some c →
                    registration false c "posts" = None)
    by (intros c [= <-]; reflexivity).
  assert (H2 : (_maybeSetUpReplication false true (Some rejecting_connection)
                  "posts").2 = Thrown "offline") by reflexivity.
  assert (H3 : registration true throwing_connection "posts"
               = Some (RegisterThrows "not ready")) by reflexivity.
  split; [exact H1|]. split.
  { exact (proj1 (proj2 (maybeSetUpReplication_effects false true
                           (Some half_connection) "posts")) H1). }
  split; [exact H2|]. split.
  { exact (proj1 (proj1 (proj2 (proj2 (maybeSetUpReplication_effects false true
                           (Some rejecting_connection) "posts"))) _ H2)). }
  split; [exact H3|].
  exact (proj2 (proj2 (proj2 (maybeSetUpReplication_effects true true
                                (Some throwing_connection) "posts")))
           throwing_connection "not ready" eq_refl (or_intror H3)).
Defined.

Lemma generateMeteorVersions_marks_last_witness :
  generateMeteorVersions ["3.0.1.md"; "3.1.0.md"; "3.2.md"]
  = ([ConsoleLog "Reading meteor versions...";
      ConsoleLog "Writing meteor versions...";
      ConsoleLog "Meteor versions generated!"],
     Normal ([Build_docs_version "v3.1" "https://release-3.1.docs.meteor.com/" false;
              Build_docs_version "v3.2" "https://release-3.2.docs.meteor.com/" true],
             "v3.2"))
  ∧ ∃ earlier current,
      [Build_docs_version "v3.1" "https://release-3.1.docs.meteor.com/" false;
       Build_docs_version "v3.2" "https://release-3.2.docs.meteor.com/" true]
      = app earlier [current]
      ∧ isCurrent current = true
      ∧ "v3.2" = version current.
Proof.
  assert (H : generateMeteorVersions ["3.0.1.md"; "3.1.0.md"; "3.2.md"]
  = ([ConsoleLog "Reading meteor versions...";
      ConsoleLog "Writing meteor versions...";
      ConsoleLog "Meteor versions generated!"],
     Normal ([Build_docs_version "v3.1" "https://release-3.1.docs.meteor.com/" false;
              Build_docs_version "v3.2" "https://release-3.2.docs.meteor.com/" true],
             "v3.2"))) by (vm_compute; reflexivity).
  split; [exact H|].
  destruct (generateMeteorVersions_marks_last _ _ _ _ H)
    as (earlier & current & Hsplit & _ & Hcurrent & Hversion & _).
  exists earlier, current. split; [exact Hsplit|].
  split; [exact Hcurrent | exact Hversion].
Defined.

Lemma generateMeteorVersions_fails_iff_witness :
  (∀ f, f ∈ ["99999-generated-code-warning.md"; "3.0.1.md"] → kept_file f = false)
  ∧ generateMeteorVersions ["99999-generated-code-warning.md"; "3.0.1.md"]
    = ([ConsoleLog "Reading meteor versions..."],
       Thrown "TypeError: Cannot destructure property 'version' of undefined").
Proof.
  assert (H : ∀ f, f ∈ ["99999-generated-code-warning.md"; "3.0.1.md"] →
                   kept_file f = false).
  { intros f Hf. apply elem_of_cons in Hf as [->|Hf]; [reflexivity|].
    apply list_elem_of_singleton in Hf as ->. reflexivity. }
  split; [exact H|].
  exact (proj2 (generateMeteorVersions_fails_iff _) H).
Defined.

Lemma one_document_well_keyed : well_keyed (_docs one_document).
Proof.
  intros key d Hd. simpl in Hd.
  apply lookup_singleton_Some in Hd as [<- <-]. reflexivity.
Qed.

Lemma replace_settles_document_witness :
  well_keyed (_docs one_document)
  ∧ msg_msg {| msg_msg := "replace"; msg_id := "1"; msg_fields := None;
               msg_replace :=
                 Some (Build_document (VStr "1") {[ "c" := VNum 3 ]}) |}
    = "replace"
  ∧ ∃ c',
      wrappedStoreServer_update plain_id structural_equals
        {| msg_msg := "replace"; msg_id := "1"; msg_fields := None;
           msg_replace := Some (Build_document (VStr "1") {[ "c" := VNum 3 ]}) |}
        one_document = Return tt c'
      ∧ _docs c' !! VStr (plain_id "1")
        = Some (Build_document (VStr "1") {[ "c" := VNum 3 ]}).
Proof.
  assert (H2 : msg_msg {| msg_msg := "replace"; msg_id := "1"; msg_fields := None;
               msg_replace :=
                 Some (Build_document (VStr "1") {[ "c" := VNum 3 ]}) |}
    = "replace") by reflexivity.
  split; [exact one_document_well_keyed|]. split; [exact H2|].
  destruct (replace_settles_document plain_id structural_equals false _
              one_document one_document_well_keyed H2)
    as (c' & _ & Hrun & Hdoc & _).
  { intros r [= <-]. reflexivity. }
  exists c'. split; [exact Hrun | exact Hdoc].
Defined.

Lemma soft_update_converges_witness :
  (∀ v, structural_equals (Held v) v = true)
  ∧ (msg_msg (message_of "changed" "4" {[ "a" := VNum 1; "b" := VUndefined ]}) = "added"
     ∨ msg_msg (message_of "changed" "4" {[ "a" := VNum 1; "b" := VUndefined ]})
       = "changed")
  ∧ ({[ "a" := VNum 1; "b" := VUndefined ]} : obj) !! "_id" = None
  ∧ inherited "b" = false
  ∧ ∃ c' doc',
      wrappedStoreClient_update plain_id structural_equals true
        (message_of "changed" "4" {[ "a" := VNum 1; "b" := VUndefined ]})
        one_document = Return tt c'
      ∧ _docs c' !! VStr (plain_id "4") = Some doc'
      ∧ structural_equals (doc_get doc' "b") VUndefined = true.
Proof.
  assert (H : msg_msg (message_of "changed" "4"
                {[ "a" := VNum 1; "b" := VUndefined ]}) = "added"
              ∨ msg_msg (message_of "changed" "4"
                {[ "a" := VNum 1; "b" := VUndefined ]}) = "changed")
    by (right; reflexivity).
  assert (H2 : ({[ "a" := VNum 1; "b" := VUndefined ]} : obj) !! "_id" = None)
    by evaluate.
  split; [exact structural_equals_refl|]. split; [exact H|]. split; [exact H2|].
  split; [reflexivity|].
  destruct (soft_update_converges plain_id structural_equals _ one_document _
              structural_equals_refl H eq_refl H2)
    as (c' & doc' & Hrun & Hdoc' & Hagree).
  exists c', doc'. split; [exact Hrun|]. split; [exact Hdoc'|].
  apply Hagree; [evaluate | reflexivity].
Defined.

Lemma soft_removed_converges_witness :
  msg_msg (bare_message "removed" "8") = "removed"
  ∧ ∃ c',
      wrappedStoreClient_update plain_id structural_equals true
        (bare_message "removed" "8") one_document = Return tt c'
      ∧ _docs c' !! VStr (plain_id "8") = None.
Proof.
  assert (H : msg_msg (bare_message "removed" "8") = "removed") by reflexivity.
  split; [exact H|].
  destruct (soft_removed_converges plain_id structural_equals _ one_document H)
    as (c' & Hrun & Hgone & _).
  exists c'. split; [exact Hrun | exact Hgone].
Defined.
